(** * Understand.AI: the phase-progression session model

    A shallow embedding of [lib/memory/session-manager.ts] (the class
    [TracerMemoryManager]) and of the chat route's [POST] handler, with
    the properties of the session store, the conversation log, the
    project-session state machine and the orchestration step.

    Conventions of the embedding.
    - A JS [number] that holds a count or a time in milliseconds is a [Z].
    - The [Map<string, ChatContext>] is a [gmap string ChatContext]; the
      insertion order that a JS [Map] remembers is not modelled.
    - [Date.now()] is a reading of a clock: the world carries the clock
      ([nat -> Z]) and the number of readings made so far, so that each
      call of the source is one reading of the model.
    - Objects of the source are shared by reference.  In the handler the
      locals [session] and [projectSession] point into the store, and no
      operation the handler runs replaces such an object once the local
      is bound; a read through the local is therefore a read of the
      store, and the model reads the store.
    - [console.log] and [console.error] are not modelled. *)

From Stdlib Require Import ZArith Lia Ascii.
From stdpp Require Import base option list strings pretty gmap fin_maps.
From stdpp Require Import relations sorting.

Local Open Scope Z_scope.

(** ** Data model ([lib/types/project.ts]) *)

Inductive ProjectPhase := Requirements | Design | Tasks | Complete.

Inductive Role := User | Assistant | System.

Global Instance ProjectPhase_eq_dec : EqDecision ProjectPhase.
Proof. solve_decision. Defined.

Global Instance Role_eq_dec : EqDecision Role.
Proof. solve_decision. Defined.

Record TechStack := {
  frontend : option (list string);
  backend : option (list string);
  database : option (list string);
  deployment : option (list string);
  other : option (list string) }.

Record Theme := {
  style : option string;
  colors : option (list string);
  preferences : option string }.

Record Usage := {
  expectedUsers : option string;
  scalability : option string;
  performance : option string }.

Record DocMetadata := {
  doc_createdAt : Z;
  doc_updatedAt : Z;
  version : Z;
  basedOn : option string }.

Record RequirementsData := {
  req_projectName : string;
  description : string;
  techStack : TechStack;
  features : list string;
  targetAudience : string;
  constraints : list string;
  theme : Theme;
  usage : Usage;
  timeline : option string;
  budget : option string;
  req_metadata : DocMetadata }.

Record Component := {
  comp_name : string;
  responsibility : string;
  comp_dependencies : list string }.

Record Field := {
  field_name : string;
  field_type : string;
  field_description : string }.

Record DataModel := {
  model_name : string;
  fields : list Field;
  relationships : list string }.

Record Endpoint := {
  method : string;
  path : string;
  endpoint_description : string;
  requestBody : option string;
  endpoint_response : string }.

Record DesignData := {
  architecture_overview : string;
  architecture_components : list Component;
  architecture_dataFlow : string;
  dataModels : list DataModel;
  apiDesign_endpoints : list Endpoint;
  apiDesign_authentication : option string;
  apiDesign_rateLimit : option string;
  technologyChoices : string * string * string * string * string;
  deploymentStrategy : string * string * string;
  design_metadata : DocMetadata }.

Inductive TaskCategory :=
  Setup | Feature | Testing | Deployment | Documentation.

Record Task := {
  task_id : string;
  title : string;
  task_description : string;
  category : TaskCategory;
  task_dependencies : list string;
  estimatedTime : option string;
  acceptanceCriteria : list string;
  technicalDetails : option string;
  order : Z }.

Record TaskGroup := {
  group_name : string;
  taskIds : list string;
  group_description : string }.

Record TasksData := {
  task_list : list Task;
  totalEstimate : option string;
  phases : list TaskGroup;
  tasks_metadata : DocMetadata }.

(** An entry of the project session's own log carries the phase. *)
Record PhaseEntry := {
  pe_role : Role;
  pe_content : string;
  pe_timestamp : Z;
  pe_phase : ProjectPhase }.

Record ProjectMetadata := {
  ps_createdAt : Z;
  ps_updatedAt : Z;
  lastPhaseChange : Z }.

Record ProjectSession := {
  ps_sessionId : string;
  projectName : string;
  currentPhase : ProjectPhase;
  requirements : option RequirementsData;
  design : option DesignData;
  tasks : option TasksData;
  ps_conversationHistory : list PhaseEntry;
  questionsAsked : list string;
  userAnswers : gmap string string;
  ps_metadata : ProjectMetadata }.

(** ** Sessions ([lib/memory/session-manager.ts]) *)

Record Entry := {
  role : Role;
  content : string;
  timestamp : Z }.

Record Metadata := {
  createdAt : Z;
  updatedAt : Z;
  messageCount : Z }.

Record ChatContext := {
  sessionId : string;
  projectSession : option ProjectSession;
  conversationHistory : list Entry;
  metadata : Metadata }.

(** The world: the two private fields of the [TracerMemoryManager]
    singleton, the route's lazily created [agent] and
    [documentGenerator] (here: whether they are non-null), and the
    clock.  [getMemoryManager()] builds the singleton on first use with
    the constructor's default; [new_TracerMemoryManager] is that
    constructor. *)
Record World := {
  sessions : gmap string ChatContext;
  maxMessagesPerSession : Z;
  agent : bool;
  documentGenerator : bool;
  clock : nat -> Z;
  ticks : nat }.

Definition new_TracerMemoryManager (cap : Z) (clk : nat -> Z) : World :=
  {| sessions := ∅; maxMessagesPerSession := cap;
     agent := false; documentGenerator := false;
     clock := clk; ticks := 0 |}.

Definition defaultMaxMessages : Z := 50.

Definition with_sessions (m : gmap string ChatContext) (w : World) : World :=
  {| sessions := m; maxMessagesPerSession := maxMessagesPerSession w;
     agent := agent w; documentGenerator := documentGenerator w;
     clock := clock w; ticks := ticks w |}.

(** ** A small state monad over the world *)

Definition M (A : Type) : Type := World -> A * World.

Definition ret {A} (a : A) : M A := fun w => (a, w).

Definition bind {A B} (m : M A) (k : A -> M B) : M B :=
  fun w => let r := m w in k (fst r) (snd r).

Definition gets {A} (f : World -> A) : M A := fun w => (f w, w).

Definition exec {A} (m : M A) (w : World) : World := snd (m w).

Definition eval {A} (m : M A) (w : World) : A := fst (m w).

Notation "x <- m ;; k" := (bind m (fun x => k))
  (at level 100, m at next level, right associativity).
Notation "m ;;; k" := (bind m (fun _ => k))
  (at level 100, right associativity).

(** [Date.now()] *)
Definition Date_now : M Z :=
  fun w => (clock w (ticks w),
            {| sessions := sessions w;
               maxMessagesPerSession := maxMessagesPerSession w;
               agent := agent w; documentGenerator := documentGenerator w;
               clock := clock w; ticks := S (ticks w) |}).

(** [this.sessions.set(sessionId, context)] *)
Definition sessions_set (k : string) (c : ChatContext) : M unit :=
  fun w => (tt, with_sessions (<[k := c]> (sessions w)) w).

(** [this.sessions.delete(sessionId)] *)
Definition sessions_delete (k : string) : M unit :=
  fun w => (tt, with_sessions (delete k (sessions w)) w).

(** [Array.prototype.slice(start)]: a negative [start] counts from the
    end, and both ends are clamped to the array. *)
Definition slice_from {A} (start : Z) (l : list A) : list A :=
  let len := Z.of_nat (length l) in
  let k := if start <? 0 then Z.max (len + start) 0 else Z.min start len in
  drop (Z.to_nat k) l.

(** ** The memory manager *)

Definition createSession (sid : string) : M ChatContext :=
  t1 <- Date_now ;;
  t2 <- Date_now ;;
  let context :=
    {| sessionId := sid; projectSession := None; conversationHistory := [];
       metadata := {| createdAt := t1; updatedAt := t2; messageCount := 0 |} |} in
  sessions_set sid context ;;;
  ret context.

Definition getSession (sid : string) : M ChatContext :=
  existing <- gets (fun w => sessions w !! sid) ;;
  match existing with
  | Some c => ret c
  | None => createSession sid
  end.

Definition addMessage (sid : string) (r : Role) (text : string) : M unit :=
  session <- getSession sid ;;
  t <- Date_now ;;
  let pushed := conversationHistory session
                  ++ [{| role := r; content := text; timestamp := t |}] in
  cap <- gets maxMessagesPerSession ;;
  let history :=
    if Z.of_nat (length pushed) >? cap then slice_from (- cap) pushed
    else pushed in
  t' <- Date_now ;;
  sessions_set sid
    {| sessionId := sessionId session;
       projectSession := projectSession session;
       conversationHistory := history;
       metadata := {| createdAt := createdAt (metadata session);
                      updatedAt := t';
                      messageCount := messageCount (metadata session) + 1 |} |}.

Definition getConversationHistory (sid : string) (w : World) : list Entry :=
  match sessions w !! sid with
  | Some c => conversationHistory c
  | None => []
  end.

Definition freshProjectSession (sid name : string) (t1 t2 t3 : Z)
  : ProjectSession :=
  {| ps_sessionId := sid; projectName := name; currentPhase := Requirements;
     requirements := None; design := None; tasks := None;
     ps_conversationHistory := []; questionsAsked := []; userAnswers := ∅;
     ps_metadata := {| ps_createdAt := t1; ps_updatedAt := t2;
                       lastPhaseChange := t3 |} |}.

Definition with_projectSession (p : ProjectSession) (c : ChatContext)
  : ChatContext :=
  {| sessionId := sessionId c; projectSession := Some p;
     conversationHistory := conversationHistory c; metadata := metadata c |}.

Definition initializeProjectSession (sid name : string) : M ProjectSession :=
  session <- getSession sid ;;
  t1 <- Date_now ;;
  t2 <- Date_now ;;
  t3 <- Date_now ;;
  let p := freshProjectSession sid name t1 t2 t3 in
  sessions_set sid (with_projectSession p session) ;;;
  ret p.

Definition getProjectSession (sid : string) (w : World)
  : option ProjectSession :=
  match sessions w !! sid with
  | Some c => projectSession c
  | None => None
  end.

Definition updateProjectPhase (sid : string) (phase : ProjectPhase) : M unit :=
  session <- getSession sid ;;
  match projectSession session with
  | Some p =>
      t1 <- Date_now ;;
      t2 <- Date_now ;;
      sessions_set sid (with_projectSession
        {| ps_sessionId := ps_sessionId p; projectName := projectName p;
           currentPhase := phase;
           requirements := requirements p; design := design p;
           tasks := tasks p;
           ps_conversationHistory := ps_conversationHistory p;
           questionsAsked := questionsAsked p; userAnswers := userAnswers p;
           ps_metadata := {| ps_createdAt := ps_createdAt (ps_metadata p);
                             ps_updatedAt := t1;
                             lastPhaseChange := t2 |} |} session)
  | None => ret tt
  end.

Definition touch (t : Z) (m : ProjectMetadata) : ProjectMetadata :=
  {| ps_createdAt := ps_createdAt m; ps_updatedAt := t;
     lastPhaseChange := lastPhaseChange m |}.

(** The three setters as they run: the type of the payload is erased,
    and the handler passes [projectSession.requirements!], so the value
    stored is whatever the caller holds, [undefined] included. *)
Definition setRequirements_raw (sid : string) (r : option RequirementsData)
  : M unit :=
  session <- getSession sid ;;
  match projectSession session with
  | Some p =>
      t <- Date_now ;;
      sessions_set sid (with_projectSession
        {| ps_sessionId := ps_sessionId p; projectName := projectName p;
           currentPhase := currentPhase p;
           requirements := r; design := design p; tasks := tasks p;
           ps_conversationHistory := ps_conversationHistory p;
           questionsAsked := questionsAsked p; userAnswers := userAnswers p;
           ps_metadata := touch t (ps_metadata p) |} session)
  | None => ret tt
  end.

Definition setDesign_raw (sid : string) (d : option DesignData) : M unit :=
  session <- getSession sid ;;
  match projectSession session with
  | Some p =>
      t <- Date_now ;;
      sessions_set sid (with_projectSession
        {| ps_sessionId := ps_sessionId p; projectName := projectName p;
           currentPhase := currentPhase p;
           requirements := requirements p; design := d; tasks := tasks p;
           ps_conversationHistory := ps_conversationHistory p;
           questionsAsked := questionsAsked p; userAnswers := userAnswers p;
           ps_metadata := touch t (ps_metadata p) |} session)
  | None => ret tt
  end.

Definition setTasks_raw (sid : string) (k : option TasksData) : M unit :=
  session <- getSession sid ;;
  match projectSession session with
  | Some p =>
      t <- Date_now ;;
      sessions_set sid (with_projectSession
        {| ps_sessionId := ps_sessionId p; projectName := projectName p;
           currentPhase := currentPhase p;
           requirements := requirements p; design := design p; tasks := k;
           ps_conversationHistory := ps_conversationHistory p;
           questionsAsked := questionsAsked p; userAnswers := userAnswers p;
           ps_metadata := touch t (ps_metadata p) |} session)
  | None => ret tt
  end.

(** The setters at their declared types. *)
Definition setRequirements (sid : string) (r : RequirementsData) : M unit :=
  setRequirements_raw sid (Some r).

Definition setDesign (sid : string) (d : DesignData) : M unit :=
  setDesign_raw sid (Some d).

Definition setTasks (sid : string) (k : TasksData) : M unit :=
  setTasks_raw sid (Some k).

Definition addAskedQuestion (sid question : string) : M unit :=
  session <- getSession sid ;;
  match projectSession session with
  | Some p =>
      sessions_set sid (with_projectSession
        {| ps_sessionId := ps_sessionId p; projectName := projectName p;
           currentPhase := currentPhase p;
           requirements := requirements p; design := design p;
           tasks := tasks p;
           ps_conversationHistory := ps_conversationHistory p;
           questionsAsked := questionsAsked p ++ [question];
           userAnswers := userAnswers p;
           ps_metadata := ps_metadata p |} session)
  | None => ret tt
  end.

Definition addUserAnswer (sid question answer : string) : M unit :=
  session <- getSession sid ;;
  match projectSession session with
  | Some p =>
      sessions_set sid (with_projectSession
        {| ps_sessionId := ps_sessionId p; projectName := projectName p;
           currentPhase := currentPhase p;
           requirements := requirements p; design := design p;
           tasks := tasks p;
           ps_conversationHistory := ps_conversationHistory p;
           questionsAsked := questionsAsked p;
           userAnswers := <[question := answer]> (userAnswers p);
           ps_metadata := ps_metadata p |} session)
  | None => ret tt
  end.

(** [!!x] on an optional object: present or not. *)
Definition present {A} (o : option A) : bool :=
  match o with Some _ => true | None => false end.

Definition isPhaseComplete (sid : string) (phase : ProjectPhase) (w : World)
  : bool :=
  match getProjectSession sid w with
  | None => false
  | Some p =>
      match phase with
      | Requirements => present (requirements p)
      | Design => present (design p)
      | Tasks => present (tasks p)
      | Complete =>
          present (requirements p) && present (design p) && present (tasks p)
      end
  end.

Definition clearSession (sid : string) : M unit := sessions_delete sid.

Definition clearAllSessions : M unit :=
  fun w => (tt, with_sessions ∅ w).


(** [importSession] stores the object it is given.  The store of this
    model holds the sessions as values, so an imported session is a
    value of its own: two sessions built around one array or object,
    which only a caller of [importSession] can bring into the store,
    are not in the model, and what an operation leaves of the other
    keys is stated for stores without imports.  The sessions as objects
    are in [ByReference] below. *)
Definition importSession (context : ChatContext) : M unit :=
  sessions_set (sessionId context) context.

(** [Array.from(this.sessions.keys())], up to the order of the keys. *)
Definition getActiveSessions (w : World) : list string :=
  (map_to_list (sessions w)).*1.

(** The body of the loop of [pruneOldSessions]: one entry of the map,
    the store and the counter so far. *)
Definition prune_step (cutoffTime : Z) (sid : string) (context : ChatContext)
    (acc : gmap string ChatContext * Z) : gmap string ChatContext * Z :=
  if updatedAt (metadata context) <? cutoffTime
  then (delete sid (fst acc), snd acc + 1)
  else acc.

Definition pruneOldSessions (hoursOld : Z) : M Z :=
  now <- Date_now ;;
  let cutoffTime := now - hoursOld * 60 * 60 * 1000 in
  fun w =>
    let r := map_fold (prune_step cutoffTime) (sessions w, 0) (sessions w) in
    (snd r, with_sessions (fst r) w).

(** ** The chat route ([app/api/chat/route.ts]) *)

(** What a call to a collaborator does: it returns, or it throws an
    [Error] with a message. *)
Inductive Outcome (A : Type) :=
| Returns (a : A)
| Throws (message : string).
Arguments Returns {A} a.
Arguments Throws {A} message.

Record Part := {
  part_type : string;
  part_text : string }.

Record UIMessage := {
  msg_id : string;
  msg_role : Role;
  parts : list Part }.

(** The parsed body: [messages] and [sessionId] may both be missing. *)
Record Body := {
  messages : option (list UIMessage);
  body_sessionId : option string }.

(** A request: [req.json()] gives the body or throws. *)
Record Request := { json : Outcome Body }.

(** The surroundings of one request: the environment variables, the two
    constructors and the four calls to the language model. *)
Record Env := {
  OPENROUTER_API_KEY : option string;
  OPENAI_API_KEY : option string;
  new_TracerAgent : Outcome unit;
  new_DocumentGeneratorChain : Outcome unit;
  chat : string -> string -> list Entry -> Outcome string;
  generateRequirements : ProjectSession -> Outcome string;
  generateDesign : string -> ProjectSession -> Outcome string;
  generateTasks : string -> string -> Outcome string }.

(** The calls a request makes to the language model, in order. *)
Inductive Call :=
| CallChat (message sid : string) (history : list Entry)
| CallGenerateRequirements (session : ProjectSession)
| CallGenerateDesign (reqs : string) (session : ProjectSession)
| CallGenerateTasks (design_text reqs : string).

Record GeneratedDocument := {
  doc_type : ProjectPhase;
  doc_content : string }.

Record ResponseData := {
  rd_id : string;
  rd_role : Role;
  rd_content : string;
  rd_parts : list Part;
  document : option GeneratedDocument;
  rd_projectSession : option ProjectSession }.

Inductive ResponseBody :=
| ErrorBody (error : string) (details : option string)
| TextBody (text : string)
| DataBody (data : ResponseData).

Record Response := {
  status : Z;
  body : ResponseBody }.

Record Handled := {
  response : Response;
  calls : list Call }.

(** [x || y] on optional strings: the empty string is falsy. *)
Definition truthy (o : option string) : bool :=
  match o with
  | Some s => negb (String.eqb s "")
  | None => false
  end.

Definition nl : string := String "010"%char EmptyString.

Definition note_requirements : string :=
  nl +:+ nl +:+ "âœ… **Requirements.md generated!** You can download it below."
  +:+ nl +:+ nl +:+
  "Now let's move to the design phase. I'll help you create a system architecture.".

Definition note_design : string :=
  nl +:+ nl +:+ "âœ… **Design.md generated!** You can download it below."
  +:+ nl +:+ nl +:+
  "Now let's break this down into tasks. I'll create a detailed task list.".

Definition note_tasks : string :=
  nl +:+ nl +:+ "âœ… **Tasks.md generated!** You can download it below."
  +:+ nl +:+ nl +:+
  "ðŸŽ‰ All three documents are ready! You can now hand these off to AI agents like Cursor, Windsurf, or Claude for implementation.".

(** The assignments to the route's [agent] and [documentGenerator]. *)
Definition set_agents (a d : bool) : M unit :=
  fun w => (tt, {| sessions := sessions w;
                   maxMessagesPerSession := maxMessagesPerSession w;
                   agent := a; documentGenerator := d;
                   clock := clock w; ticks := ticks w |}).

(** [initializeAgents()]: both objects are built on the first call that
    finds [agent] null; a throw of either constructor is rethrown with
    a fixed message, and what was assigned before the throw stays.  The
    result tells which of the two objects are non-null. *)
Definition initializeAgents (env : Env) : M (Outcome (bool * bool)) :=
  a <- gets agent ;;
  d <- gets documentGenerator ;;
  if a then ret (Returns (a, d))
  else
    match new_TracerAgent env with
    | Throws _ =>
        ret (Throws
          "AI service initialization failed. Check your API key configuration.")
    | Returns _ =>
        set_agents true d ;;;
        match new_DocumentGeneratorChain env with
        | Throws _ =>
            ret (Throws
              "AI service initialization failed. Check your API key configuration.")
        | Returns _ =>
            set_agents true true ;;;
            ret (Returns (true, true))
        end
    end.

(** The outer [catch]: status 500 with the message of the error. *)
Definition server_error (message : string) : Response :=
  {| status := 500;
     body := ErrorBody message
               (Some "Check server console for more information") |}.

Definition finish (r : Response) (cs : list Call) : M Handled :=
  ret {| response := r; calls := cs |}.

(** [lastMessage.parts.find(p => p.type === "text")?.text || ""] *)
Definition textOf (m : UIMessage) : string :=
  match find (fun p => String.eqb (part_type p) "text") (parts m) with
  | Some p => part_text p
  | None => ""
  end.

(** [messages[messages.length - 1]] of a list known to be non-empty. *)
Definition lastMessage (first : UIMessage) (rest : list UIMessage)
  : UIMessage :=
  List.last rest first.

(** [sessionId || `session-${Date.now()}`] *)
Definition effectiveSessionId (sid : option string) : M string :=
  if truthy sid then ret (default "" sid)
  else t <- Date_now ;; ret ("session-" +:+ pretty t).

(** Lines 57 to 78 of the handler: the session is fetched or made, the
    user's text is logged, and a project session is started on the
    first message of a session that has none.  The result is the user's
    text and the history handed to the agent. *)
Definition receive (sid : string) (first : UIMessage) (rest : list UIMessage)
  : M (string * list Entry) :=
  getSession sid ;;;
  let userMessage := textOf (lastMessage first rest) in
  addMessage sid User userMessage ;;;
  existing <- gets (getProjectSession sid) ;;
  (if negb (present existing) && (length (first :: rest) =? 1)%nat
   then initializeProjectSession sid "New Project" ;;; ret tt
   else ret tt) ;;;
  history <- gets (getConversationHistory sid) ;;
  ret (userMessage, history).

(** [Array.isArray(f) ? f.join(", ") : f || "Not specified"] on the
    front-end stack of the stored requirements. *)
Fixpoint join (sep : string) (l : list string) : string :=
  match l with
  | [] => ""
  | [x] => x
  | x :: rest => x +:+ sep +:+ join sep rest
  end.

Definition techStackStr (p : ProjectSession) : string :=
  match requirements p with
  | Some r =>
      match frontend (techStack r) with
      | Some l => join ", " l
      | None => "Not specified"
      end
  | None => "Not specified"
  end.

(** Lines 93 to 156: the document step.  [dg] tells whether
    [agents.documentGenerator] is non-null.  The three completion
    checks only read the store, so they are made before the chain of
    tests that uses them.  The step gives the reply, extended by a note
    when a document was generated, the document, and the calls made. *)
Definition documentStep (env : Env) (sid : string) (dg : bool)
    (reply : string)
  : M (string * option GeneratedDocument * list Call) :=
  p <- gets (getProjectSession sid) ;;
  match p with
  | Some ps =>
      if negb dg then ret (reply, None, [])
      else
        let currentPhase := currentPhase ps in
        completeR <- gets (isPhaseComplete sid Requirements) ;;
        completeD <- gets (isPhaseComplete sid Design) ;;
        completeT <- gets (isPhaseComplete sid Tasks) ;;
        if bool_decide (currentPhase = Requirements) && completeR then
          match generateRequirements env ps with
          | Returns doc =>
              setRequirements_raw sid (requirements ps) ;;;
              updateProjectPhase sid Design ;;;
              ret (reply +:+ note_requirements,
                   Some {| doc_type := Requirements; doc_content := doc |},
                   [CallGenerateRequirements ps])
          | Throws _ => ret (reply, None, [CallGenerateRequirements ps])
          end
        else if bool_decide (currentPhase = Design) && completeD then
          match generateDesign env (techStackStr ps) ps with
          | Returns doc =>
              setDesign_raw sid (design ps) ;;;
              updateProjectPhase sid Tasks ;;;
              ret (reply +:+ note_design,
                   Some {| doc_type := Design; doc_content := doc |},
                   [CallGenerateDesign (techStackStr ps) ps])
          | Throws _ =>
              ret (reply, None, [CallGenerateDesign (techStackStr ps) ps])
          end
        else if bool_decide (currentPhase = Tasks) && completeT then
          match generateTasks env "Design document"
                  "Requirements document" with
          | Returns doc =>
              setTasks_raw sid (tasks ps) ;;;
              updateProjectPhase sid Complete ;;;
              ret (reply +:+ note_tasks,
                   Some {| doc_type := Tasks; doc_content := doc |},
                   [CallGenerateTasks "Design document"
                      "Requirements document"])
          | Throws _ =>
              ret (reply, None,
                   [CallGenerateTasks "Design document"
                      "Requirements document"])
          end
        else ret (reply, None, [])
  | None => ret (reply, None, [])
  end.

(** Lines 158 to 187: the reply is logged and the response is built.
    [projectSession] is read at serialisation time, after the phase was
    advanced. *)
Definition respond (sid : string) (reply : string)
    (generated : option GeneratedDocument) : M Response :=
  addMessage sid Assistant reply ;;;
  t <- Date_now ;;
  p <- gets (getProjectSession sid) ;;
  ret {| status := 200;
         body := DataBody
           {| rd_id := "msg-" +:+ pretty t;
              rd_role := Assistant;
              rd_content := reply;
              rd_parts := [{| part_type := "text"; part_text := reply |}];
              document := generated;
              rd_projectSession :=
                match generated with Some _ => p | None => None end |} |}.

Definition POST (env : Env) (req : Request) : M Handled :=
  if negb (truthy (OPENROUTER_API_KEY env) || truthy (OPENAI_API_KEY env))
  then finish
    {| status := 500;
       body := ErrorBody
         "API key not configured. Please add OPENROUTER_API_KEY to your .env.local file."
         None |} []
  else
    agents <- initializeAgents env ;;
    match agents with
    | Throws e => finish (server_error e) []
    | Returns (ag, dg) =>
        match json req with
        | Throws e => finish (server_error e) []
        | Returns b =>
            match messages b with
            | None | Some [] =>
                finish {| status := 400;
                          body := TextBody "No messages provided" |} []
            | Some (first :: rest) =>
                sid <- effectiveSessionId (body_sessionId b) ;;
                received <- receive sid first rest ;;
                let userMessage := fst received in
                let history := snd received in
                if negb ag
                then finish (server_error "Agent not initialized") []
                else
                  match chat env userMessage sid history with
                  | Throws e =>
                      finish (server_error e)
                        [CallChat userMessage sid history]
                  | Returns reply =>
                      step <- documentStep env sid dg reply ;;
                      r <- respond sid (fst (fst step)) (snd (fst step)) ;;
                      finish r
                        (CallChat userMessage sid history :: snd step)
                  end
            end
        end
    end.

(** A run of the server: one request after the other. *)
Fixpoint serve (requests : list (Env * Request)) : M (list Handled) :=
  match requests with
  | [] => ret []
  | (env, req) :: more =>
      h <- POST env req ;;
      hs <- serve more ;;
      ret (h :: hs)
  end.

(** ** Vocabulary of the statements *)

(** The session that [createSession] makes. *)
Definition freshSession (sid : string) (t1 t2 : Z) : ChatContext :=
  {| sessionId := sid; projectSession := None; conversationHistory := [];
     metadata := {| createdAt := t1; updatedAt := t2; messageCount := 0 |} |}.

(** The log after the push and the trim of [addMessage]. *)
Definition trim (cap : Z) (pushed : list Entry) : list Entry :=
  if Z.of_nat (length pushed) >? cap then slice_from (- cap) pushed
  else pushed.

(** The last [n] entries of a list, in their order. *)
Definition keepLast {A} (n : nat) (l : list A) : list A :=
  drop (length l - n) l.

(** A sequence of [addMessage] calls, each with its key, role and text. *)
Fixpoint addMessages (ms : list (string * Role * string)) : M unit :=
  match ms with
  | [] => ret tt
  | (sid, r, text) :: more => addMessage sid r text ;;; addMessages more
  end.

(** The calls of a sequence that go to one key, as role and text. *)
Fixpoint sentTo (sid : string) (ms : list (string * Role * string))
  : list (Role * string) :=
  match ms with
  | [] => []
  | (sid', r, text) :: more =>
      if decide (sid' = sid) then (r, text) :: sentTo sid more
      else sentTo sid more
  end.

(** What an entry says, without its time. *)
Definition spoken (e : Entry) : Role * string := (role e, content e).

(** The project session that [updateProjectPhase] writes, and below
    those of the three setters. *)
Definition with_phase (phase : ProjectPhase) (t1 t2 : Z) (p : ProjectSession)
  : ProjectSession :=
  {| ps_sessionId := ps_sessionId p; projectName := projectName p;
     currentPhase := phase;
     requirements := requirements p; design := design p; tasks := tasks p;
     ps_conversationHistory := ps_conversationHistory p;
     questionsAsked := questionsAsked p; userAnswers := userAnswers p;
     ps_metadata := {| ps_createdAt := ps_createdAt (ps_metadata p);
                       ps_updatedAt := t1; lastPhaseChange := t2 |} |}.

Definition with_requirements (r : option RequirementsData) (t : Z)
    (p : ProjectSession) : ProjectSession :=
  {| ps_sessionId := ps_sessionId p; projectName := projectName p;
     currentPhase := currentPhase p;
     requirements := r; design := design p; tasks := tasks p;
     ps_conversationHistory := ps_conversationHistory p;
     questionsAsked := questionsAsked p; userAnswers := userAnswers p;
     ps_metadata := touch t (ps_metadata p) |}.

Definition with_design (d : option DesignData) (t : Z)
    (p : ProjectSession) : ProjectSession :=
  {| ps_sessionId := ps_sessionId p; projectName := projectName p;
     currentPhase := currentPhase p;
     requirements := requirements p; design := d; tasks := tasks p;
     ps_conversationHistory := ps_conversationHistory p;
     questionsAsked := questionsAsked p; userAnswers := userAnswers p;
     ps_metadata := touch t (ps_metadata p) |}.

Definition with_tasks (k : option TasksData) (t : Z)
    (p : ProjectSession) : ProjectSession :=
  {| ps_sessionId := ps_sessionId p; projectName := projectName p;
     currentPhase := currentPhase p;
     requirements := requirements p; design := design p; tasks := k;
     ps_conversationHistory := ps_conversationHistory p;
     questionsAsked := questionsAsked p; userAnswers := userAnswers p;
     ps_metadata := touch t (ps_metadata p) |}.

(** The order of the phases. *)
Definition phase_rank (phase : ProjectPhase) : nat :=
  match phase with
  | Requirements => 0
  | Design => 1
  | Tasks => 2
  | Complete => 3
  end.

Definition successor (phase : ProjectPhase) : ProjectPhase :=
  match phase with
  | Requirements => Design
  | Design => Tasks
  | Tasks => Complete
  | Complete => Complete
  end.

(** What a request may do to an existing project session: stamp it,
    and move its phase forward. *)
Record carried (p p' : ProjectSession) : Prop := {
  carried_sessionId : ps_sessionId p' = ps_sessionId p;
  carried_projectName : projectName p' = projectName p;
  carried_requirements : requirements p' = requirements p;
  carried_design : design p' = design p;
  carried_tasks : tasks p' = tasks p;
  carried_log : ps_conversationHistory p' = ps_conversationHistory p;
  carried_questions : questionsAsked p' = questionsAsked p;
  carried_answers : userAnswers p' = userAnswers p;
  carried_createdAt :
    ps_createdAt (ps_metadata p') = ps_createdAt (ps_metadata p);
  carried_phase :
    (phase_rank (currentPhase p) <= phase_rank (currentPhase p'))%nat }.

Definition keeps (w w' : World) : Prop :=
  forall sid p, getProjectSession sid w = Some p ->
    exists p', getProjectSession sid w' = Some p' /\ carried p p'.

(** The generation call of a phase, as the handler makes it. *)
Definition generation (env : Env) (phase : ProjectPhase) (p : ProjectSession)
  : Outcome string :=
  match phase with
  | Requirements => generateRequirements env p
  | Design => generateDesign env (techStackStr p) p
  | Tasks => generateTasks env "Design document" "Requirements document"
  | Complete => Throws "no document for this phase"
  end.

Definition generationCall (phase : ProjectPhase) (p : ProjectSession)
  : list Call :=
  match phase with
  | Requirements => [CallGenerateRequirements p]
  | Design => [CallGenerateDesign (techStackStr p) p]
  | Tasks => [CallGenerateTasks "Design document" "Requirements document"]
  | Complete => []
  end.

Definition noteOf (phase : ProjectPhase) : string :=
  match phase with
  | Requirements => note_requirements
  | Design => note_design
  | Tasks => note_tasks
  | Complete => ""
  end.

(** The stored payload of a phase written back with a new stamp. *)
Definition restamp (phase : ProjectPhase) (t : Z) (p : ProjectSession)
  : ProjectSession :=
  match phase with
  | Requirements => with_requirements (requirements p) t p
  | Design => with_design (design p) t p
  | Tasks => with_tasks (tasks p) t p
  | Complete => p
  end.

(** A document is due for a session: it has a project session in a
    phase before [Complete] whose payload is stored. *)
Definition due (sid : string) (phase : ProjectPhase) (p : ProjectSession)
    (w : World) : Prop :=
  getProjectSession sid w = Some p /\ currentPhase p = phase /\
  phase <> Complete /\ isPhaseComplete sid phase w = true.

Definition storeBack (phase : ProjectPhase) (sid : string) (p : ProjectSession)
  : M unit :=
  match phase with
  | Requirements => setRequirements_raw sid (requirements p)
  | Design => setDesign_raw sid (design p)
  | Tasks => setTasks_raw sid (tasks p)
  | Complete => ret tt
  end.

(** A request is processed for a session: the key is configured, the
    agents are there, the body has a message and names the session, and
    the agent answers the user's text with [reply]. *)
Definition processed (env : Env) (req : Request) (w : World)
    (sid reply : string) : Prop :=
  exists b first rest,
    truthy (OPENROUTER_API_KEY env) || truthy (OPENAI_API_KEY env) = true /\
    eval (initializeAgents env) w = Returns (true, true) /\
    json req = Returns b /\
    messages b = Some (first :: rest) /\
    body_sessionId b = Some sid /\
    sid <> "" /\
    let received := eval (receive sid first rest)
                      (exec (initializeAgents env) w) in
    chat env (fst received) sid (snd received) = Returns reply.

(** A session is stale at a cutoff when its last update is older. *)
Definition stale (cutoffTime : Z) (kv : string * ChatContext) : Prop :=
  updatedAt (metadata (snd kv)) < cutoffTime.

Global Instance stale_dec cutoffTime kv : Decision (stale cutoffTime kv).
Proof. unfold stale. apply _. Defined.

Definition cutoffOf (hoursOld : Z) (w : World) : Z :=
  clock w (ticks w) - hoursOld * 60 * 60 * 1000.

(** The operations that keep a project session once it is there: the
    manager's writers and the handler. *)
Inductive Op :=
| AddMessage (sid : string) (r : Role) (text : string)
| UpdateProjectPhase (sid : string) (phase : ProjectPhase)
| SetRequirements (sid : string) (r : RequirementsData)
| SetDesign (sid : string) (d : DesignData)
| SetTasks (sid : string) (k : TasksData)
| AddAskedQuestion (sid question : string)
| AddUserAnswer (sid question answer : string)
| Post (env : Env) (req : Request).

Definition perform (op : Op) : M unit :=
  match op with
  | AddMessage sid r text => addMessage sid r text
  | UpdateProjectPhase sid phase => updateProjectPhase sid phase
  | SetRequirements sid r => setRequirements sid r
  | SetDesign sid d => setDesign sid d
  | SetTasks sid k => setTasks sid k
  | AddAskedQuestion sid question => addAskedQuestion sid question
  | AddUserAnswer sid question answer => addUserAnswer sid question answer
  | Post env req => POST env req ;;; ret tt
  end.

Fixpoint performAll (ops : list Op) : M unit :=
  match ops with
  | [] => ret tt
  | op :: more => perform op ;;; performAll more
  end.

(** The payload of a phase is stored on a project session. *)
Definition payloadPresent (phase : ProjectPhase) (p : ProjectSession) : bool :=
  match phase with
  | Requirements => present (requirements p)
  | Design => present (design p)
  | Tasks => present (tasks p)
  | Complete =>
      present (requirements p) && present (design p) && present (tasks p)
  end.

(** The operation is the setter of the phase on the key. *)
Definition stores (phase : ProjectPhase) (sid : string) (op : Op) : bool :=
  match phase, op with
  | Requirements, SetRequirements sid' _ => bool_decide (sid' = sid)
  | Design, SetDesign sid' _ => bool_decide (sid' = sid)
  | Tasks, SetTasks sid' _ => bool_decide (sid' = sid)
  | _, _ => false
  end.

(** ** Concrete runs *)

Definition clk0 : nat -> Z := fun n => 1000 + Z.of_nat n.

Definition w0 : World := new_TracerMemoryManager defaultMaxMessages clk0.

Definition env0 : Env :=
  {| OPENROUTER_API_KEY := Some "sk-or-1"; OPENAI_API_KEY := None;
     new_TracerAgent := Returns tt;
     new_DocumentGeneratorChain := Returns tt;
     chat := fun message _ _ => Returns ("re:" +:+ message);
     generateRequirements := fun _ => Returns "# Requirements";
     generateDesign := fun stack _ => Returns ("# Design for " +:+ stack);
     generateTasks := fun d r => Returns (d +:+ " / " +:+ r) |}.

(** The same surroundings with a generator that fails. *)
Definition env_failing : Env :=
  {| OPENROUTER_API_KEY := Some "sk-or-1"; OPENAI_API_KEY := None;
     new_TracerAgent := Returns tt;
     new_DocumentGeneratorChain := Returns tt;
     chat := fun message _ _ => Returns ("re:" +:+ message);
     generateRequirements := fun _ => Throws "model unavailable";
     generateDesign := fun _ _ => Throws "model unavailable";
     generateTasks := fun _ _ => Throws "model unavailable" |}.

(** No key in the environment. *)
Definition env_nokey : Env :=
  {| OPENROUTER_API_KEY := None; OPENAI_API_KEY := None;
     new_TracerAgent := Returns tt;
     new_DocumentGeneratorChain := Returns tt;
     chat := fun message _ _ => Returns ("re:" +:+ message);
     generateRequirements := fun _ => Returns "# Requirements";
     generateDesign := fun stack _ => Returns ("# Design for " +:+ stack);
     generateTasks := fun d r => Returns (d +:+ " / " +:+ r) |}.

Definition userSays (n text : string) : UIMessage :=
  {| msg_id := n; msg_role := User;
     parts := [{| part_type := "text"; part_text := text |}] |}.

Definition req_first : Request :=
  {| json := Returns
       {| messages := Some [userSays "1" "I want to build a task app"];
          body_sessionId := Some "s" |} |}.

Definition req_next : Request :=
  {| json := Returns
       {| messages := Some [userSays "1" "I want to build a task app";
                            userSays "2" "more"];
          body_sessionId := Some "s" |} |}.

Definition req_empty : Request :=
  {| json := Returns {| messages := Some []; body_sessionId := Some "s" |} |}.

Definition meta0 : DocMetadata :=
  {| doc_createdAt := 1; doc_updatedAt := 1; version := 1; basedOn := None |}.

Definition r0 : RequirementsData :=
  {| req_projectName := "Task app"; description := "Tasks for teams";
     techStack := {| frontend := Some ["React"; "Tailwind"];
                     backend := None; database := None;
                     deployment := None; other := None |};
     features := ["lists"]; targetAudience := "teams"; constraints := [];
     theme := {| style := None; colors := None; preferences := None |};
     usage := {| expectedUsers := None; scalability := None;
                 performance := None |};
     timeline := None; budget := None; req_metadata := meta0 |}.

Definition d0 : DesignData :=
  {| architecture_overview := "client and server";
     architecture_components := []; architecture_dataFlow := "";
     dataModels := []; apiDesign_endpoints := [];
     apiDesign_authentication := None; apiDesign_rateLimit := None;
     technologyChoices := ("React", "Node", "Postgres", "Vercel", "known");
     deploymentStrategy := ("prod", "actions", "logs");
     design_metadata := meta0 |}.

Definition k0 : TasksData :=
  {| task_list := []; totalEstimate := None; phases := [];
     tasks_metadata := meta0 |}.

(** The first message has started a project session. *)
Definition w_started : World := exec (POST env0 req_first) w0.

(** Its requirements were stored: the requirements document is due. *)
Definition w_requirements : World := exec (setRequirements "s" r0) w_started.

(** The document was generated: the session is in the design phase. *)
Definition w_design : World := exec (POST env0 req_next) w_requirements.

Definition w_design_due : World := exec (setDesign "s" d0) w_design.

Definition w_tasks : World := exec (POST env0 req_next) w_design_due.

Definition w_tasks_due : World := exec (setTasks "s" k0) w_tasks.

Definition p_requirements : ProjectSession :=
  with_requirements (Some r0) 1010
    (freshProjectSession "s" "New Project" 1004 1005 1006).

(** A manager that keeps two messages per session. *)
Definition w_cap2 : World := new_TracerMemoryManager 2 clk0.

(** A manager built with a cap of zero. *)
Definition w_cap0 : World := new_TracerMemoryManager 0 clk0.

(** Two sessions at a clock that reads 200000000: one updated thirty
    hours before, one updated one hour before. *)
Definition w_aged : World :=
  exec (importSession (freshSession "old" 92000000 92000000) ;;;
        importSession (freshSession "recent" 196400000 196400000))
    (new_TracerMemoryManager defaultMaxMessages (fun _ => 200000000)).

(** ** The public operations as a history *)

(** Every public method of the manager, and the handler. *)
Inductive Action :=
| DoCreateSession (sid : string)
| DoGetSession (sid : string)
| DoAddMessage (sid : string) (r : Role) (text : string)
| DoInitializeProjectSession (sid name : string)
| DoUpdateProjectPhase (sid : string) (phase : ProjectPhase)
| DoSetRequirements (sid : string) (r : RequirementsData)
| DoSetDesign (sid : string) (d : DesignData)
| DoSetTasks (sid : string) (k : TasksData)
| DoAddAskedQuestion (sid question : string)
| DoAddUserAnswer (sid question answer : string)
| DoClearSession (sid : string)
| DoClearAllSessions
| DoImportSession (context : ChatContext)
| DoPruneOldSessions (hoursOld : Z)
| DoPOST (env : Env) (req : Request).

Definition act (a : Action) : M unit :=
  match a with
  | DoCreateSession sid => createSession sid ;;; ret tt
  | DoGetSession sid => getSession sid ;;; ret tt
  | DoAddMessage sid r text => addMessage sid r text
  | DoInitializeProjectSession sid name =>
      initializeProjectSession sid name ;;; ret tt
  | DoUpdateProjectPhase sid phase => updateProjectPhase sid phase
  | DoSetRequirements sid r => setRequirements sid r
  | DoSetDesign sid d => setDesign sid d
  | DoSetTasks sid k => setTasks sid k
  | DoAddAskedQuestion sid question => addAskedQuestion sid question
  | DoAddUserAnswer sid question answer => addUserAnswer sid question answer
  | DoClearSession sid => clearSession sid
  | DoClearAllSessions => clearAllSessions
  | DoImportSession context => importSession context
  | DoPruneOldSessions hoursOld => pruneOldSessions hoursOld ;;; ret tt
  | DoPOST env req => POST env req ;;; ret tt
  end.

Fixpoint actAll (history : list Action) : M unit :=
  match history with
  | [] => ret tt
  | a :: more => act a ;;; actAll more
  end.

(** What the writers leave of a project session: its key, its name, its
    own log and its creation stamp. *)
Record similar (p p' : ProjectSession) : Prop := {
  similar_sessionId : ps_sessionId p' = ps_sessionId p;
  similar_projectName : projectName p' = projectName p;
  similar_log : ps_conversationHistory p' = ps_conversationHistory p;
  similar_createdAt :
    ps_createdAt (ps_metadata p') = ps_createdAt (ps_metadata p) }.

(** What one operation may do to the session stored under a key: make
    it anew, rewrite its log and metadata, start its project session,
    edit its project session, or remove it. *)
Inductive ctx_step (sid : string)
  : option ChatContext -> option ChatContext -> Prop :=
| step_create o t1 t2 : ctx_step sid o (Some (freshSession sid t1 t2))
| step_log c h m :
    ctx_step sid (Some c)
      (Some {| sessionId := sessionId c; projectSession := projectSession c;
               conversationHistory := h; metadata := m |})
| step_init c name t1 t2 t3 :
    ctx_step sid (Some c)
      (Some (with_projectSession
               (freshProjectSession sid name t1 t2 t3) c))
| step_edit c p p' :
    projectSession c = Some p -> similar p p' ->
    ctx_step sid (Some c) (Some (with_projectSession p' c))
| step_remove o : ctx_step sid o None.

(** The store after some operations on one key: the other keys are as
    they were, and the key went through some steps. *)
Definition store_step (sid : string) (m m' : gmap string ChatContext)
  : Prop :=
  (forall k, k <> sid -> m' !! k = m !! k) /\
  rtc (ctx_step sid) (m !! sid) (m' !! sid).

(** The store after any operations: every key went through steps. *)
Definition store_evolves (m m' : gmap string ChatContext) : Prop :=
  forall k, rtc (ctx_step k) (m !! k) (m' !! k).

(** An operation works on one key. *)
Definition acts_at (sid : string) {A} (m : M A) : Prop :=
  forall w, store_step sid (sessions w) (sessions (exec m w)).

(** A session is consistent with its key: it carries the key, and so
    does its project session, whose own log is empty. *)
Definition consistent (sid : string) (c : ChatContext) : Prop :=
  sessionId c = sid /\
  forall p, projectSession c = Some p ->
    ps_sessionId p = sid /\ ps_conversationHistory p = [].

Definition allConsistent (m : gmap string ChatContext) : Prop :=
  forall sid c, m !! sid = Some c -> consistent sid c.

(** The histories that import nothing but consistent sessions. *)
Definition importsConsistent (a : Action) : Prop :=
  match a with
  | DoImportSession c => consistent (sessionId c) c
  | _ => True
  end.

(** The key an action works on, when it names one: the manager's
    methods take it as their first argument, [importSession] reads it
    off the session, and the handler takes the body's [sessionId] when
    it is truthy. *)
Definition keyOf (a : Action) : option string :=
  match a with
  | DoCreateSession sid | DoGetSession sid | DoAddMessage sid _ _
  | DoInitializeProjectSession sid _ | DoUpdateProjectPhase sid _
  | DoSetRequirements sid _ | DoSetDesign sid _ | DoSetTasks sid _
  | DoAddAskedQuestion sid _ | DoAddUserAnswer sid _ _
  | DoClearSession sid => Some sid
  | DoImportSession context => Some (sessionId context)
  | DoPOST _ req =>
      match json req with
      | Returns b =>
          if truthy (body_sessionId b) then body_sessionId b else None
      | Throws _ => None
      end
  | DoClearAllSessions | DoPruneOldSessions _ => None
  end.

(** [generateRequirements] of the document generator builds its prompt
    from the project session; this is the text it makes of the
    session's own log: the entries of the requirements phase, each as
    role, colon, content, joined by an empty line. *)
Definition roleName (r : Role) : string :=
  match r with
  | User => "user"
  | Assistant => "assistant"
  | System => "system"
  end.

Definition requirementsConversation (session : ProjectSession) : string :=
  join (nl +:+ nl)
    (map (fun msg => roleName (pe_role msg) +:+ ": " +:+ pe_content msg)
       (filter (fun msg => pe_phase msg = Requirements)
          (ps_conversationHistory session))).

(** What no operation but [initializeAgents] changes of the world
    outside the store: the cap, the two agents and the clock, whose
    readings are only counted up. *)
Definition rest_kept (w w' : World) : Prop :=
  maxMessagesPerSession w' = maxMessagesPerSession w /\
  agent w' = agent w /\
  documentGenerator w' = documentGenerator w /\
  clock w' = clock w /\
  (ticks w <= ticks w')%nat.

Definition keeps_rest {A} (m : M A) : Prop :=
  forall w, rest_kept w (exec m w).

(** A project session as [initializeProjectSession] leaves it, but for
    its stamps. *)
Definition blank (p : ProjectSession) : Prop :=
  currentPhase p = Requirements /\
  requirements p = None /\ design p = None /\ tasks p = None /\
  questionsAsked p = [] /\ userAnswers p = ∅.

Definition allBlank (w : World) : Prop :=
  forall sid p, getProjectSession sid w = Some p -> blank p.

(** A call to one of the three generators. *)
Definition isGeneration (c : Call) : bool :=
  match c with
  | CallChat _ _ _ => false
  | _ => true
  end.

(** The document of a response, when it has one. *)
Definition documentOf (r : Response) : option GeneratedDocument :=
  match body r with
  | DataBody data => document data
  | _ => None
  end.

(** The project session in a response, when it has one. *)
Definition snapshotOf (r : Response) : option ProjectSession :=
  match body r with
  | DataBody data => rd_projectSession data
  | _ => None
  end.

(** The end of a request that got its reply: the document step and the
    response, as one run from the world in which the step starts. *)
Definition conclude (env : Env) (sid : string) (dg : bool) (reply : string)
    (message : string) (history : list Entry) : M Handled :=
  step <- documentStep env sid dg reply ;;
  r <- respond sid (fst (fst step)) (snd (fst step)) ;;
  finish r (CallChat message sid history :: snd step).


(** The entry that [addMessage] pushes. *)
Definition entryOf (r : Role) (text : string) (t : Z) : Entry :=
  {| role := r; content := text; timestamp := t |}.

(** The count of messages of a session; an unknown key has none. *)
Definition messageCountOf (sid : string) (w : World) : Z :=
  match sessions w !! sid with
  | Some c => messageCount (metadata c)
  | None => 0
  end.

(** The key a request works on, read in the world it arrives in. *)
Definition sessionKey (b : Body) (w : World) : string :=
  eval (effectiveSessionId (body_sessionId b)) w.

(** The body that the page's [handleSubmit] sends: the messages shown
    so far followed by the new user message, and no [sessionId]. *)
Definition submittedBody (shown : list UIMessage) (input : string) (now : Z)
  : Body :=
  {| messages :=
       Some (shown ++
             [{| msg_id := "user-" +:+ pretty now; msg_role := User;
                 parts := [{| part_type := "text"; part_text := input |}] |}]);
     body_sessionId := None |}.

(** ** Time *)

(** A clock that never goes back. *)
Definition monotone (clk : nat -> Z) : Prop :=
  forall n m : nat, (n <= m)%nat -> clk n <= clk m.

(** A session in order at a time: its log is sorted by time stamp,
    every stamp lies between the creation and the last update, and the
    last update is not after that time. *)
Definition chronological (now : Z) (c : ChatContext) : Prop :=
  StronglySorted (fun e e' => timestamp e <= timestamp e')
    (conversationHistory c) /\
  Forall (fun e => createdAt (metadata c) <= timestamp e
                   /\ timestamp e <= updatedAt (metadata c))
    (conversationHistory c) /\
  createdAt (metadata c) <= updatedAt (metadata c) /\
  updatedAt (metadata c) <= now.

Definition timely (now : Z) (m : gmap string ChatContext) : Prop :=
  forall sid c, m !! sid = Some c -> chronological now c.

(** Every session of the store is in order at the next reading of the
    clock. *)
Definition inTime (w : World) : Prop :=
  timely (clock w (ticks w)) (sessions w).

(** An operation that keeps the store in order and the clock as it
    is, when the clock never goes back. *)
Definition orderly {A} (m : M A) : Prop :=
  forall w, monotone (clock w) -> inTime w ->
            inTime (exec m w) /\ clock (exec m w) = clock w.

(** The histories that import only sessions in order at the time the
    clock starts with. *)
Definition importsInOrder (clk : nat -> Z) (a : Action) : Prop :=
  match a with
  | DoImportSession c => chronological (clk 0%nat) c
  | _ => True
  end.

(** An operation that leaves every log as it is. *)
Definition keeps_log {A} (m : M A) : Prop :=
  forall w sid,
    getConversationHistory sid (exec m w) = getConversationHistory sid w.

(** The logs of the stored project sessions all satisfy a condition,
    which may depend on the key. *)
Definition projectLogsIn (L : string -> list PhaseEntry -> Prop)
    (m : gmap string ChatContext) : Prop :=
  forall sid c p,
    m !! sid = Some c -> projectSession c = Some p ->
    L sid (ps_conversationHistory p).

(** An action that is no import. *)
Definition importsNothing (a : Action) : Prop :=
  match a with
  | DoImportSession _ => False
  | _ => True
  end.

(** ** More concrete runs *)

(** The generator's constructor throws. *)
Definition env_nogenerator : Env :=
  {| OPENROUTER_API_KEY := Some "sk-or-1"; OPENAI_API_KEY := None;
     new_TracerAgent := Returns tt;
     new_DocumentGeneratorChain := Throws "no model";
     chat := fun message _ _ => Returns ("re:" +:+ message);
     generateRequirements := fun _ => Returns "# Requirements";
     generateDesign := fun stack _ => Returns ("# Design for " +:+ stack);
     generateTasks := fun d r => Returns (d +:+ " / " +:+ r) |}.

(** The agent throws on every message. *)
Definition env_silent : Env :=
  {| OPENROUTER_API_KEY := Some "sk-or-1"; OPENAI_API_KEY := None;
     new_TracerAgent := Returns tt;
     new_DocumentGeneratorChain := Returns tt;
     chat := fun _ _ _ => Throws "agent down";
     generateRequirements := fun _ => Returns "# Requirements";
     generateDesign := fun stack _ => Returns ("# Design for " +:+ stack);
     generateTasks := fun d r => Returns (d +:+ " / " +:+ r) |}.

Definition body_first : Body :=
  {| messages := Some [userSays "1" "I want to build a task app"];
     body_sessionId := Some "s" |}.

Definition body_next : Body :=
  {| messages := Some [userSays "1" "I want to build a task app";
                       userSays "2" "more"];
     body_sessionId := Some "s" |}.

(** The session under "s" after the first request. *)
Definition c_started : ChatContext :=
  {| sessionId := "s";
     projectSession :=
       Some (freshProjectSession "s" "New Project" 1004 1005 1006);
     conversationHistory :=
       [entryOf User "I want to build a task app" 1002;
        entryOf Assistant "re:I want to build a task app" 1007];
     metadata :=
       {| createdAt := 1000; updatedAt := 1008; messageCount := 2 |} |}.

Definition three_messages : list (string * Role * string) :=
  [("s", User, "one"); ("t", User, "other"); ("s", Assistant, "two");
   ("s", User, "three")].

(** The store after the first request and a message under another
    key. *)
Definition w_two : World := exec (addMessage "t" User "hello") w_started.

(** A session saved elsewhere, whose project session has a log of its
    own. *)
Definition p_logged : ProjectSession :=
  {| ps_sessionId := "s"; projectName := "Saved"; currentPhase := Requirements;
     requirements := None; design := None; tasks := None;
     ps_conversationHistory :=
       [{| pe_role := User; pe_content := "a shop"; pe_timestamp := 10;
           pe_phase := Requirements |};
        {| pe_role := Assistant; pe_content := "for whom?";
           pe_timestamp := 11; pe_phase := Requirements |};
        {| pe_role := User; pe_content := "later"; pe_timestamp := 12;
           pe_phase := Design |}];
     questionsAsked := []; userAnswers := ∅;
     ps_metadata := {| ps_createdAt := 10; ps_updatedAt := 12;
                       lastPhaseChange := 10 |} |}.

Definition c_logged : ChatContext :=
  {| sessionId := "s"; projectSession := Some p_logged;
     conversationHistory := [];
     metadata := {| createdAt := 10; updatedAt := 12; messageCount := 0 |} |}.

(** The first request of the page: one message and no [sessionId]. *)
Definition req_page : Request :=
  {| json := Returns (submittedBody [] "I want to build a task app" 5) |}.

(** ** The sessions by reference *)

(** The methods of the manager on the path of the log, without
    [importSession], and what they do on the store of values. *)
Inductive Method :=
| ToCreateSession (sid : string)
| ToGetSession (sid : string)
| ToAddMessage (sid : string) (r : Role) (text : string)
| ToClearSession (sid : string).

Definition methodKey (c : Method) : string :=
  match c with
  | ToCreateSession sid | ToGetSession sid | ToAddMessage sid _ _
  | ToClearSession sid => sid
  end.

Definition spec (c : Method) : M unit :=
  match c with
  | ToCreateSession sid => createSession sid ;;; ret tt
  | ToGetSession sid => getSession sid ;;; ret tt
  | ToAddMessage sid r text => addMessage sid r text
  | ToClearSession sid => clearSession sid
  end.

(** The manager again, for the methods on the path of the log, with
    the objects of the code as objects: the map holds references to
    session objects, a session object holds references to its array
    and to its metadata object, [push] and the assignments to the
    metadata change the object referred to, and the trim assigns a new
    array to the session object.  A caller can build objects of its
    own and hand one to [importSession], which stores the reference. *)
Module ByReference.

Record SessionObject := {
  o_sessionId : string;
  o_projectSession : option ProjectSession;
  o_conversationHistory : nat;
  o_metadata : nat }.

Record Manager := {
  handles : gmap string nat;
  objects : gmap nat SessionObject;
  arrays : gmap nat (list Entry);
  metadatas : gmap nat Metadata;
  fresh : nat;
  cap : Z;
  now : nat -> Z;
  readings : nat }.

(** [new TracerMemoryManager(cap)] *)
Definition new_TracerMemoryManager (c : Z) (clk : nat -> Z) : Manager :=
  {| handles := ∅; objects := ∅; arrays := ∅; metadatas := ∅; fresh := 0%nat;
     cap := c; now := clk; readings := 0%nat |}.

Definition createSession (sid : string) (m : Manager) : nat * Manager :=
  let history := fresh m in
  let metadata := S (fresh m) in
  let context := S (S (fresh m)) in
  (context,
   {| handles := <[sid := context]> (handles m);
      objects :=
        <[context := {| o_sessionId := sid; o_projectSession := None;
                        o_conversationHistory := history;
                        o_metadata := metadata |}]> (objects m);
      arrays := <[history := []]> (arrays m);
      metadatas :=
        <[metadata := {| createdAt := now m (readings m);
                         updatedAt := now m (S (readings m));
                         messageCount := 0 |}]> (metadatas m);
      fresh := S (S (S (fresh m)));
      cap := cap m; now := now m; readings := S (S (readings m)) |}).

Definition getSession (sid : string) (m : Manager) : nat * Manager :=
  match handles m !! sid with
  | Some existing => (existing, m)
  | None => createSession sid m
  end.

(** [addMessage]: the entry is pushed on the array the session refers
    to; when the array is too long, [slice] makes a new array and the
    session is made to refer to it; the metadata object is updated in
    place. *)
Definition addMessage (sid : string) (r : Role) (text : string)
    (m : Manager) : Manager :=
  let found := getSession sid m in
  let session := fst found in
  let m1 := snd found in
  match objects m1 !! session with
  | None => m1
  | Some o =>
      let pushed :=
        default [] (arrays m1 !! o_conversationHistory o)
          ++ [{| role := r; content := text;
                 timestamp := now m1 (readings m1) |}] in
      let arrays1 := <[o_conversationHistory o := pushed]> (arrays m1) in
      let long := Z.of_nat (length pushed) >? cap m1 in
      let history := if long then fresh m1 else o_conversationHistory o in
      let old := default {| createdAt := 0; updatedAt := 0;
                            messageCount := 0 |}
                   (metadatas m1 !! o_metadata o) in
      {| handles := <[sid := session]> (handles m1);
         objects :=
           <[session := {| o_sessionId := o_sessionId o;
                           o_projectSession := o_projectSession o;
                           o_conversationHistory := history;
                           o_metadata := o_metadata o |}]> (objects m1);
         arrays :=
           if long
           then <[fresh m1 := slice_from (- cap m1) pushed]> arrays1
           else arrays1;
         metadatas :=
           <[o_metadata o :=
               {| createdAt := createdAt old;
                  updatedAt := now m1 (S (readings m1));
                  messageCount := messageCount old + 1 |}]> (metadatas m1);
         fresh := if long then S (fresh m1) else fresh m1;
         cap := cap m1; now := now m1;
         readings := S (S (readings m1)) |}
  end.

Definition clearSession (sid : string) (m : Manager) : Manager :=
  {| handles := delete sid (handles m);
     objects := objects m; arrays := arrays m; metadatas := metadatas m;
     fresh := fresh m; cap := cap m; now := now m; readings := readings m |}.

(** [importSession(context)]: the reference is stored under the
    [sessionId] of the object. *)
Definition importSession (context : nat) (m : Manager) : Manager :=
  match objects m !! context with
  | None => m
  | Some o =>
      {| handles := <[o_sessionId o := context]> (handles m);
         objects := objects m; arrays := arrays m; metadatas := metadatas m;
         fresh := fresh m; cap := cap m; now := now m;
         readings := readings m |}
  end.

(** What a caller builds before an import: an array, a metadata
    object, a session object around them. *)
Definition newArray (l : list Entry) (m : Manager) : nat * Manager :=
  (fresh m,
   {| handles := handles m; objects := objects m;
      arrays := <[fresh m := l]> (arrays m); metadatas := metadatas m;
      fresh := S (fresh m); cap := cap m; now := now m;
      readings := readings m |}).

Definition newMetadata (md : Metadata) (m : Manager) : nat * Manager :=
  (fresh m,
   {| handles := handles m; objects := objects m; arrays := arrays m;
      metadatas := <[fresh m := md]> (metadatas m);
      fresh := S (fresh m); cap := cap m; now := now m;
      readings := readings m |}).

Definition newSession (o : SessionObject) (m : Manager) : nat * Manager :=
  (fresh m,
   {| handles := handles m; objects := <[fresh m := o]> (objects m);
      arrays := arrays m; metadatas := metadatas m;
      fresh := S (fresh m); cap := cap m; now := now m;
      readings := readings m |}).

(** The session read through a reference, as a value. *)
Definition deref (m : Manager) (context : nat) : option ChatContext :=
  match objects m !! context with
  | Some o =>
      match arrays m !! o_conversationHistory o,
            metadatas m !! o_metadata o with
      | Some h, Some md =>
          Some {| sessionId := o_sessionId o;
                  projectSession := o_projectSession o;
                  conversationHistory := h; metadata := md |}
      | _, _ => None
      end
  | None => None
  end.

(** [getConversationHistory] *)
Definition getConversationHistory (sid : string) (m : Manager)
  : list Entry :=
  match handles m !! sid with
  | Some context =>
      match objects m !! context with
      | Some o => default [] (arrays m !! o_conversationHistory o)
      | None => []
      end
  | None => []
  end.

(** The store of values that the store of references stands for. *)
Definition view (m : Manager) : gmap string ChatContext :=
  omap (deref m) (handles m).

Definition abstract (m : Manager) : World :=
  {| sessions := view m; maxMessagesPerSession := cap m;
     agent := false; documentGenerator := false;
     clock := now m; ticks := readings m |}.

(** No two keys share an object: every session in the map is whole,
    allocated below [fresh], and two keys have different session
    objects, different arrays and different metadata objects. *)
Record separate (m : Manager) : Prop := {
  sep_whole : forall sid context,
    handles m !! sid = Some context ->
    exists o h md,
      objects m !! context = Some o /\
      arrays m !! o_conversationHistory o = Some h /\
      metadatas m !! o_metadata o = Some md /\
      (context < fresh m)%nat /\
      (o_conversationHistory o < fresh m)%nat /\
      (o_metadata o < fresh m)%nat;
  sep_apart : forall sid sid' context context' o o',
    sid <> sid' ->
    handles m !! sid = Some context -> handles m !! sid' = Some context' ->
    objects m !! context = Some o -> objects m !! context' = Some o' ->
    context <> context' /\
    o_conversationHistory o <> o_conversationHistory o' /\
    o_metadata o <> o_metadata o' }.

Definition call (c : Method) (m : Manager) : Manager :=
  match c with
  | ToCreateSession sid => snd (createSession sid m)
  | ToGetSession sid => snd (getSession sid m)
  | ToAddMessage sid r text => addMessage sid r text m
  | ToClearSession sid => clearSession sid m
  end.

Definition callAll (cs : list Method) (m : Manager) : Manager :=
  fold_left (fun m c => call c m) cs m.

(** Two sessions built by a caller around one array, imported under
    "a" and "b". *)
Definition shared : Manager :=
  let m0 := new_TracerMemoryManager 50 (fun n => 1000 + Z.of_nat n) in
  let '(h, m1) := newArray [] m0 in
  let '(md1, m2) :=
    newMetadata {| createdAt := 1; updatedAt := 1; messageCount := 0 |} m1 in
  let '(md2, m3) :=
    newMetadata {| createdAt := 2; updatedAt := 2; messageCount := 0 |} m2 in
  let '(a, m4) :=
    newSession {| o_sessionId := "a"; o_projectSession := None;
                  o_conversationHistory := h; o_metadata := md1 |} m3 in
  let '(b, m5) :=
    newSession {| o_sessionId := "b"; o_projectSession := None;
                  o_conversationHistory := h; o_metadata := md2 |} m4 in
  importSession b (importSession a m5).

End ByReference.

(** * Properties *)

(** ** Running the monad *)

Lemma exec_bind {A B} (m : M A) (k : A -> M B) w :
  exec (bind m k) w = exec (k (eval m w)) (exec m w).
Proof. reflexivity. Qed.

Lemma eval_bind {A B} (m : M A) (k : A -> M B) w :
  eval (bind m k) w = eval (k (eval m w)) (exec m w).
Proof. reflexivity. Qed.

Lemma exec_ret {A} (a : A) w : exec (ret a) w = w.
Proof. reflexivity. Qed.

Lemma exec_gets {A} (f : World -> A) w : exec (gets f) w = w.
Proof. reflexivity. Qed.

Lemma eval_gets {A} (f : World -> A) w : eval (gets f) w = f w.
Proof. reflexivity. Qed.

(** ** What each operation does to the store *)

Lemma sessions_Date_now w : sessions (exec Date_now w) = sessions w.
Proof. reflexivity. Qed.

Lemma getSession_sessions sid w :
  sessions (exec (getSession sid) w) =
    match sessions w !! sid with
    | Some _ => sessions w
    | None => <[sid := freshSession sid (clock w (ticks w))
                         (clock w (S (ticks w)))]> (sessions w)
    end.
Proof.
  unfold getSession, exec, bind, gets; simpl.
  destruct (sessions w !! sid); reflexivity.
Qed.

Lemma getSession_eval sid w :
  sessions (exec (getSession sid) w) !! sid = Some (eval (getSession sid) w).
Proof.
  rewrite getSession_sessions.
  unfold getSession, eval, bind, gets; simpl.
  destruct (sessions w !! sid) eqn:E; simpl; [exact E|].
  apply lookup_insert_eq.
Qed.

Lemma getSession_eval_known sid w c :
  sessions w !! sid = Some c -> eval (getSession sid) w = c.
Proof.
  intros E. unfold getSession, eval, bind, gets; simpl. rewrite E. reflexivity.
Qed.

Lemma getSession_exec_known sid w c :
  sessions w !! sid = Some c -> exec (getSession sid) w = w.
Proof.
  intros E. unfold getSession, exec, bind, gets; simpl. rewrite E. reflexivity.
Qed.

Lemma getSession_eval_fresh sid w :
  sessions w !! sid = None ->
  eval (getSession sid) w =
    freshSession sid (clock w (ticks w)) (clock w (S (ticks w))).
Proof.
  intros E. unfold getSession, eval, bind, gets; simpl. rewrite E. reflexivity.
Qed.

(** The project session of any key is what it was once [getSession]
    has run: a session made on the way has none. *)
Lemma getSession_projectSession sid sid' w :
  getProjectSession sid' (exec (getSession sid) w) = getProjectSession sid' w.
Proof.
  unfold getProjectSession. rewrite getSession_sessions.
  destruct (sessions w !! sid) eqn:E; [reflexivity|].
  destruct (decide (sid = sid')) as [->|Hne].
  - rewrite lookup_insert_eq, E. reflexivity.
  - rewrite lookup_insert_ne by exact Hne. reflexivity.
Qed.

Lemma getSession_eval_projectSession sid w :
  projectSession (eval (getSession sid) w) = getProjectSession sid w.
Proof.
  unfold getProjectSession.
  destruct (sessions w !! sid) eqn:E.
  - rewrite (getSession_eval_known _ _ _ E). reflexivity.
  - rewrite (getSession_eval_fresh _ _ E). reflexivity.
Qed.

Lemma getSession_history sid sid' w :
  getConversationHistory sid' (exec (getSession sid) w)
  = getConversationHistory sid' w.
Proof.
  unfold getConversationHistory. rewrite getSession_sessions.
  destruct (sessions w !! sid) eqn:E; [reflexivity|].
  destruct (decide (sid = sid')) as [->|Hne].
  - rewrite lookup_insert_eq, E. reflexivity.
  - rewrite lookup_insert_ne by exact Hne. reflexivity.
Qed.

Lemma getSession_eval_history sid w :
  conversationHistory (eval (getSession sid) w)
  = getConversationHistory sid w.
Proof.
  unfold getConversationHistory.
  destruct (sessions w !! sid) eqn:E.
  - rewrite (getSession_eval_known _ _ _ E). reflexivity.
  - rewrite (getSession_eval_fresh _ _ E). reflexivity.
Qed.

Lemma getSession_cap sid w :
  maxMessagesPerSession (exec (getSession sid) w) = maxMessagesPerSession w.
Proof.
  unfold getSession, exec, bind, gets; simpl.
  destruct (sessions w !! sid); reflexivity.
Qed.

Lemma addMessage_sessions sid r text w :
  exists t t' : Z,
    sessions (exec (addMessage sid r text) w) =
      <[sid :=
          let session := eval (getSession sid) w in
          {| sessionId := sessionId session;
             projectSession := projectSession session;
             conversationHistory :=
               trim (maxMessagesPerSession w)
                 (conversationHistory session
                    ++ [{| role := r; content := text; timestamp := t |}]);
             metadata :=
               {| createdAt := createdAt (metadata session);
                  updatedAt := t';
                  messageCount := messageCount (metadata session) + 1 |} |}]>
        (sessions (exec (getSession sid) w)).
Proof.
  eexists _, _. unfold addMessage.
  rewrite exec_bind. unfold exec at 1, bind, gets, sessions_set, Date_now.
  simpl. rewrite getSession_cap. reflexivity.
Qed.

Lemma addMessage_projectSession sid r text sid' w :
  getProjectSession sid' (exec (addMessage sid r text) w)
  = getProjectSession sid' w.
Proof.
  destruct (addMessage_sessions sid r text w) as (t & t' & E).
  unfold getProjectSession at 1. rewrite E.
  destruct (decide (sid = sid')) as [->|Hne].
  - rewrite lookup_insert_eq. simpl. apply getSession_eval_projectSession.
  - rewrite lookup_insert_ne by exact Hne.
    apply (getSession_projectSession sid sid' w).
Qed.

Lemma addMessage_cap sid r text w :
  maxMessagesPerSession (exec (addMessage sid r text) w)
  = maxMessagesPerSession w.
Proof.
  unfold addMessage. rewrite exec_bind.
  unfold exec at 1, bind, gets, sessions_set, Date_now. simpl.
  apply getSession_cap.
Qed.

Lemma addMessage_history sid r text sid' w :
  exists t : Z,
    getConversationHistory sid' (exec (addMessage sid r text) w) =
      if decide (sid = sid')
      then trim (maxMessagesPerSession w)
             (getConversationHistory sid w
                ++ [{| role := r; content := text; timestamp := t |}])
      else getConversationHistory sid' w.
Proof.
  destruct (addMessage_sessions sid r text w) as (t & t' & E).
  exists t. unfold getConversationHistory at 1. rewrite E.
  destruct (decide (sid = sid')) as [->|Hne].
  - rewrite lookup_insert_eq. simpl. rewrite getSession_eval_history.
    reflexivity.
  - rewrite lookup_insert_ne by exact Hne.
    apply (getSession_history sid sid' w).
Qed.

(** ** The conversation log is a sliding window *)

Lemma keepLast_length {A} n (l : list A) :
  (length (keepLast n l) <= n)%nat.
Proof. unfold keepLast. rewrite length_drop. lia. Qed.

Lemma keepLast_short {A} n (l : list A) :
  (length l <= n)%nat -> keepLast n l = l.
Proof.
  intros H. unfold keepLast.
  replace (length l - n)%nat with 0%nat by lia. reflexivity.
Qed.

Lemma keepLast_app {A} n (l es : list A) :
  keepLast n (keepLast n l ++ es) = keepLast n (l ++ es).
Proof.
  destruct (decide (length l <= n)%nat) as [Hs|Hl].
  - rewrite (keepLast_short n l Hs). reflexivity.
  - unfold keepLast. rewrite !length_app, length_drop.
    replace (length l - (length l - n) + length es - n)%nat
      with (length es) by lia.
    replace (length l + length es - n)%nat
      with ((length l - n) + length es)%nat by lia.
    rewrite <- drop_drop. f_equal.
    symmetry. apply drop_app_le. lia.
Qed.

(** With a cap of at least one, the trim of [addMessage] keeps the last
    [cap] entries. *)
Lemma trim_keepLast cap (l : list Entry) :
  1 <= cap -> trim cap l = keepLast (Z.to_nat cap) l.
Proof.
  intros Hcap. unfold trim, slice_from, keepLast.
  destruct (Z.of_nat (length l) >? cap) eqn:E.
  - apply Z.gtb_lt in E.
    replace (- cap <? 0) with true by (symmetry; apply Z.ltb_lt; lia).
    f_equal. lia.
  - assert (Z.of_nat (length l) <= cap)
      by (destruct (Z.gtb_spec (Z.of_nat (length l)) cap); [discriminate|lia]).
    replace (length l - Z.to_nat cap)%nat with 0%nat by lia. reflexivity.
Qed.

Lemma addMessages_cap ms : forall w,
  maxMessagesPerSession (exec (addMessages ms) w) = maxMessagesPerSession w.
Proof.
  induction ms as [|[[sid r] text] more IH]; intros w; [reflexivity|].
  simpl. rewrite exec_bind, IH. apply addMessage_cap.
Qed.

Lemma addMessages_history ms : forall w sid,
  1 <= maxMessagesPerSession w ->
  (length (getConversationHistory sid w)
     <= Z.to_nat (maxMessagesPerSession w))%nat ->
  exists es : list Entry,
    map spoken es = sentTo sid ms /\
    getConversationHistory sid (exec (addMessages ms) w)
    = keepLast (Z.to_nat (maxMessagesPerSession w))
        (getConversationHistory sid w ++ es).
Proof.
  induction ms as [|[[sid' r] text] more IH]; intros w sid Hcap Hlen.
  - exists []. split; [reflexivity|].
    simpl. rewrite exec_ret, app_nil_r, keepLast_short; auto.
  - simpl addMessages. rewrite exec_bind.
    set (w1 := exec (addMessage sid' r text) w).
    assert (Hcap1 : maxMessagesPerSession w1 = maxMessagesPerSession w)
      by apply addMessage_cap.
    destruct (addMessage_history sid' r text sid w) as (t & Hh).
    fold w1 in Hh. rewrite trim_keepLast in Hh by exact Hcap.
    destruct (IH w1 sid) as (es & Hes & Hfinal).
    + rewrite Hcap1. exact Hcap.
    + rewrite Hcap1, Hh. destruct (decide (sid' = sid)); [|exact Hlen].
      apply keepLast_length.
    + rewrite Hcap1, Hh in Hfinal. simpl sentTo.
      destruct (decide (sid' = sid)) as [->|Hne].
      * exists ({| role := r; content := text; timestamp := t |} :: es).
        split; [simpl; rewrite Hes; reflexivity|].
        rewrite Hfinal, keepLast_app, <- app_assoc. reflexivity.
      * exists es. split; [exact Hes|exact Hfinal].
Qed.

(** ** The project session under the manager's operations *)

Lemma getProjectSession_Some sid w p :
  getProjectSession sid w = Some p ->
  exists c, sessions w !! sid = Some c /\ projectSession c = Some p.
Proof.
  unfold getProjectSession. destruct (sessions w !! sid) as [c|]; [|discriminate].
  intros H. exists c. split; [reflexivity|exact H].
Qed.

Lemma getProjectSession_insert sid sid' c m w :
  sessions w = <[sid := c]> m ->
  getProjectSession sid' w =
    if decide (sid = sid') then projectSession c
    else match m !! sid' with Some c' => projectSession c' | None => None end.
Proof.
  intros E. unfold getProjectSession. rewrite E.
  destruct (decide (sid = sid')) as [->|Hne].
  - rewrite lookup_insert_eq. reflexivity.
  - rewrite lookup_insert_ne by exact Hne. reflexivity.
Qed.

(** The writers share their shape: [getSession], then a test of the
    project session, then one write.  Two tactics follow it. *)
Ltac stops_after_getSession writer H :=
  unfold writer; rewrite exec_bind, getSession_eval_projectSession, H;
  reflexivity.

Ltac writes_one_record writer Hc Hp sid sid' :=
  unfold writer; rewrite exec_bind;
  rewrite (getSession_eval_known _ _ _ Hc), (getSession_exec_known _ _ _ Hc), Hp;
  erewrite getProjectSession_insert by reflexivity;
  destruct (decide (sid = sid')); reflexivity.

(** Without a project session the four writers stop after [getSession]. *)
Lemma updateProjectPhase_none sid phase w :
  getProjectSession sid w = None ->
  exec (updateProjectPhase sid phase) w = exec (getSession sid) w.
Proof. intros H. stops_after_getSession updateProjectPhase H. Qed.

Lemma setRequirements_raw_none sid r w :
  getProjectSession sid w = None ->
  exec (setRequirements_raw sid r) w = exec (getSession sid) w.
Proof. intros H. stops_after_getSession setRequirements_raw H. Qed.

Lemma setDesign_raw_none sid d w :
  getProjectSession sid w = None ->
  exec (setDesign_raw sid d) w = exec (getSession sid) w.
Proof. intros H. stops_after_getSession setDesign_raw H. Qed.

Lemma setTasks_raw_none sid k w :
  getProjectSession sid w = None ->
  exec (setTasks_raw sid k) w = exec (getSession sid) w.
Proof. intros H. stops_after_getSession setTasks_raw H. Qed.

(** With a project session each writer rewrites that one record. *)
Lemma updateProjectPhase_some sid phase w p :
  getProjectSession sid w = Some p ->
  exists t1 t2 : Z, forall sid',
    getProjectSession sid' (exec (updateProjectPhase sid phase) w) =
      if decide (sid = sid') then Some (with_phase phase t1 t2 p)
      else getProjectSession sid' w.
Proof.
  intros H. destruct (getProjectSession_Some _ _ _ H) as (c & Hc & Hp).
  exists (clock w (ticks w)), (clock w (S (ticks w))). intros sid'.
  writes_one_record updateProjectPhase Hc Hp sid sid'.
Qed.

Lemma setRequirements_raw_some sid r w p :
  getProjectSession sid w = Some p ->
  exists t : Z, forall sid',
    getProjectSession sid' (exec (setRequirements_raw sid r) w) =
      if decide (sid = sid') then Some (with_requirements r t p)
      else getProjectSession sid' w.
Proof.
  intros H. destruct (getProjectSession_Some _ _ _ H) as (c & Hc & Hp).
  exists (clock w (ticks w)). intros sid'.
  writes_one_record setRequirements_raw Hc Hp sid sid'.
Qed.

Lemma setDesign_raw_some sid d w p :
  getProjectSession sid w = Some p ->
  exists t : Z, forall sid',
    getProjectSession sid' (exec (setDesign_raw sid d) w) =
      if decide (sid = sid') then Some (with_design d t p)
      else getProjectSession sid' w.
Proof.
  intros H. destruct (getProjectSession_Some _ _ _ H) as (c & Hc & Hp).
  exists (clock w (ticks w)). intros sid'.
  writes_one_record setDesign_raw Hc Hp sid sid'.
Qed.

Lemma setTasks_raw_some sid k w p :
  getProjectSession sid w = Some p ->
  exists t : Z, forall sid',
    getProjectSession sid' (exec (setTasks_raw sid k) w) =
      if decide (sid = sid') then Some (with_tasks k t p)
      else getProjectSession sid' w.
Proof.
  intros H. destruct (getProjectSession_Some _ _ _ H) as (c & Hc & Hp).
  exists (clock w (ticks w)). intros sid'.
  writes_one_record setTasks_raw Hc Hp sid sid'.
Qed.

(** [initializeProjectSession] writes a fresh project session whatever
    was there. *)
Lemma initializeProjectSession_projectSession sid name w :
  exists t1 t2 t3 : Z, forall sid',
    getProjectSession sid' (exec (initializeProjectSession sid name) w) =
      if decide (sid = sid')
      then Some (freshProjectSession sid name t1 t2 t3)
      else getProjectSession sid' w.
Proof.
  eexists _, _, _. intros sid'.
  unfold initializeProjectSession. rewrite exec_bind.
  unfold exec at 1, bind, Date_now, sessions_set, ret. simpl.
  unfold getProjectSession at 1. simpl.
  destruct (decide (sid = sid')) as [->|Hne].
  - rewrite lookup_insert_eq. reflexivity.
  - rewrite lookup_insert_ne by exact Hne.
    apply (getSession_projectSession sid sid' w).
Qed.

Lemma initializeProjectSession_history sid name sid' w :
  getConversationHistory sid' (exec (initializeProjectSession sid name) w)
  = getConversationHistory sid' w.
Proof.
  unfold initializeProjectSession. rewrite exec_bind.
  unfold exec at 1, bind, Date_now, sessions_set, ret. simpl.
  unfold getConversationHistory at 1. simpl.
  destruct (decide (sid = sid')) as [->|Hne].
  - rewrite lookup_insert_eq. simpl. apply getSession_eval_history.
  - rewrite lookup_insert_ne by exact Hne.
    apply (getSession_history sid sid' w).
Qed.

(** ** The handler, stage by stage *)

Lemma getProjectSession_ext sid w w' :
  sessions w' = sessions w ->
  getProjectSession sid w' = getProjectSession sid w.
Proof. intros E. unfold getProjectSession. rewrite E. reflexivity. Qed.

Lemma initializeAgents_sessions env w :
  sessions (exec (initializeAgents env) w) = sessions w.
Proof.
  unfold initializeAgents, exec, bind, gets, ret, set_agents. simpl.
  destruct (agent w); [reflexivity|].
  destruct (new_TracerAgent env); [|reflexivity]. simpl.
  destruct (new_DocumentGeneratorChain env); reflexivity.
Qed.

Lemma effectiveSessionId_sessions o w :
  sessions (exec (effectiveSessionId o) w) = sessions w.
Proof.
  unfold effectiveSessionId. destruct (truthy o); reflexivity.
Qed.

Lemma effectiveSessionId_given sid w :
  sid <> "" ->
  effectiveSessionId (Some sid) w = (sid, w).
Proof.
  intros H. unfold effectiveSessionId, truthy.
  destruct (String.eqb_spec sid ""); [contradiction|reflexivity].
Qed.

Lemma receive_projectSession sid first rest w :
  exists t1 t2 t3 : Z, forall sid',
    getProjectSession sid' (exec (receive sid first rest) w) =
      if decide (sid = sid') then
        match getProjectSession sid w, rest with
        | Some p, _ => Some p
        | None, [] => Some (freshProjectSession sid "New Project" t1 t2 t3)
        | None, _ :: _ => None
        end
      else getProjectSession sid' w.
Proof.
  unfold receive.
  set (w1 := exec (getSession sid) w).
  set (w2 := exec (addMessage sid User (textOf (lastMessage first rest))) w1).
  assert (H2 : forall sid', getProjectSession sid' w2 = getProjectSession sid' w).
  { intros sid'. unfold w2. rewrite addMessage_projectSession.
    apply getSession_projectSession. }
  destruct (initializeProjectSession_projectSession sid "New Project" w2)
    as (t1 & t2 & t3 & Hinit).
  exists t1, t2, t3. intros sid'.
  rewrite exec_bind. fold w1. rewrite exec_bind. fold w2.
  rewrite exec_bind, exec_gets, eval_gets, H2.
  rewrite exec_bind.
  destruct (getProjectSession sid w) as [p|] eqn:Hp; simpl present.
  - simpl negb. rewrite andb_false_l, exec_ret.
    rewrite exec_bind, exec_gets, exec_ret, H2.
    destruct (decide (sid = sid')) as [<-|]; [exact Hp|reflexivity].
  - simpl negb. rewrite andb_true_l.
    destruct rest as [|m rest]; simpl.
    + rewrite exec_bind, exec_ret.
      rewrite exec_bind, exec_gets, exec_ret, Hinit.
      destruct (decide (sid = sid')); [reflexivity|apply H2].
    + rewrite exec_ret, exec_bind, exec_gets, exec_ret, H2.
      destruct (decide (sid = sid')) as [<-|]; [exact Hp|reflexivity].
Qed.

Lemma respond_projectSession sid reply g sid' w :
  getProjectSession sid' (exec (respond sid reply g) w)
  = getProjectSession sid' w.
Proof.
  unfold respond. rewrite exec_bind.
  set (w1 := exec (addMessage sid Assistant reply) w).
  transitivity (getProjectSession sid' w1);
    [|apply addMessage_projectSession].
  apply getProjectSession_ext. reflexivity.
Qed.

Lemma carried_refl p : carried p p.
Proof. split; reflexivity. Qed.

Lemma carried_trans p q r : carried p q -> carried q r -> carried p r.
Proof.
  intros [] []. split; try (etransitivity; eassumption).
Qed.

Lemma keeps_refl w : keeps w w.
Proof. intros sid p H. exists p. split; [exact H|apply carried_refl]. Qed.

Lemma keeps_trans w1 w2 w3 : keeps w1 w2 -> keeps w2 w3 -> keeps w1 w3.
Proof.
  intros H12 H23 sid p H.
  destruct (H12 _ _ H) as (q & Hq & Cq).
  destruct (H23 _ _ Hq) as (r & Hr & Cr).
  exists r. split; [exact Hr|eapply carried_trans; eassumption].
Qed.

Lemma keeps_same w w' :
  (forall sid, getProjectSession sid w' = getProjectSession sid w) ->
  keeps w w'.
Proof.
  intros E sid p H. exists p. rewrite E. split; [exact H|apply carried_refl].
Qed.

Lemma receive_keeps sid first rest w :
  keeps w (exec (receive sid first rest) w).
Proof.
  destruct (receive_projectSession sid first rest w) as (t1 & t2 & t3 & E).
  intros sid' p H. exists p. split; [|apply carried_refl].
  rewrite E. destruct (decide (sid = sid')) as [<-|]; [|exact H].
  rewrite H. reflexivity.
Qed.

Lemma bind_gets {A B} (f : World -> A) (k : A -> M B) w :
  bind (gets f) k w = k (f w) w.
Proof. reflexivity. Qed.

Lemma documentStep_throws env sid reply w phase p e :
  due sid phase p w ->
  generation env phase p = Throws e ->
  documentStep env sid true reply w = (reply, None, generationCall phase p, w).
Proof.
  intros (Hp & Hph & Hne & Hc) Hg. unfold documentStep.
  rewrite bind_gets, Hp. cbn [negb]. cbv zeta. rewrite !bind_gets, Hph.
  destruct phase; try contradiction; rewrite Hc; cbn in Hg |- *;
    rewrite ?andb_false_r; cbn; rewrite Hg; reflexivity.
Qed.

Lemma documentStep_returns_run env sid reply w phase p doc :
  due sid phase p w ->
  generation env phase p = Returns doc ->
  documentStep env sid true reply w =
    (storeBack phase sid p ;;;
     updateProjectPhase sid (successor phase) ;;;
     ret (reply +:+ noteOf phase,
          Some {| doc_type := phase; doc_content := doc |},
          generationCall phase p)) w.
Proof.
  intros (Hp & Hph & Hne & Hc) Hg. unfold documentStep.
  rewrite bind_gets, Hp. cbn [negb]. cbv zeta. rewrite !bind_gets, Hph.
  destruct phase; try contradiction; rewrite Hc; cbn in Hg |- *;
    rewrite ?andb_false_r; cbn; rewrite Hg; reflexivity.
Qed.

Lemma storeBack_projectSession phase sid p w :
  getProjectSession sid w = Some p -> phase <> Complete ->
  exists t : Z, forall sid',
    getProjectSession sid' (exec (storeBack phase sid p) w) =
      if decide (sid = sid') then Some (restamp phase t p)
      else getProjectSession sid' w.
Proof.
  intros Hp Hne. destruct phase; try contradiction; simpl.
  - apply setRequirements_raw_some, Hp.
  - apply setDesign_raw_some, Hp.
  - apply setTasks_raw_some, Hp.
Qed.

Lemma documentStep_returns env sid reply w phase p doc :
  due sid phase p w ->
  generation env phase p = Returns doc ->
  eval (documentStep env sid true reply) w =
    (reply +:+ noteOf phase,
     Some {| doc_type := phase; doc_content := doc |},
     generationCall phase p) /\
  exists t t1 t2 : Z, forall sid',
    getProjectSession sid' (exec (documentStep env sid true reply) w) =
      if decide (sid = sid')
      then Some (with_phase (successor phase) t1 t2 (restamp phase t p))
      else getProjectSession sid' w.
Proof.
  intros Hdue Hg. unfold eval, exec.
  rewrite (documentStep_returns_run _ _ _ _ _ _ _ Hdue Hg).
  destruct Hdue as (Hp & Hph & Hne & Hc).
  split; [reflexivity|].
  destruct (storeBack_projectSession phase sid p w Hp Hne) as (t & Hset).
  assert (Hq : getProjectSession sid (exec (storeBack phase sid p) w)
               = Some (restamp phase t p)).
  { rewrite Hset. destruct (decide (sid = sid)); congruence. }
  destruct (updateProjectPhase_some sid (successor phase) _ _ Hq)
    as (t1 & t2 & Hup).
  exists t, t1, t2. intros sid'.
  change (getProjectSession sid'
    (exec (updateProjectPhase sid (successor phase))
       (exec (storeBack phase sid p) w)) =
    if decide (sid = sid')
    then Some (with_phase (successor phase) t1 t2 (restamp phase t p))
    else getProjectSession sid' w).
  rewrite Hup. destruct (decide (sid = sid')); [reflexivity|].
  rewrite Hset. destruct (decide (sid = sid')); congruence.
Qed.

Lemma documentStep_idle env sid dg reply w :
  (forall phase p, due sid phase p w -> dg = false) ->
  documentStep env sid dg reply w = (reply, None, [], w).
Proof.
  intros Hidle. unfold documentStep. rewrite bind_gets.
  destruct (getProjectSession sid w) as [p|] eqn:Hp; [|reflexivity].
  destruct dg; [|reflexivity]. cbn [negb]. cbv zeta. rewrite !bind_gets.
  assert (Hno : forall phase, currentPhase p = phase -> phase <> Complete ->
                  isPhaseComplete sid phase w = false).
  { intros phase Hph Hne.
    destruct (isPhaseComplete sid phase w) eqn:Hc; [|reflexivity].
    discriminate (Hidle phase p (conj Hp (conj Hph (conj Hne Hc)))). }
  destruct (currentPhase p) eqn:Hph; cbn;
    rewrite ?(Hno _ eq_refl) by discriminate; rewrite ?andb_false_r;
    reflexivity.
Qed.

Lemma carried_advance phase t t1 t2 p :
  currentPhase p = phase ->
  carried p (with_phase (successor phase) t1 t2 (restamp phase t p)).
Proof.
  intros Hph. destruct phase; split; simpl; try reflexivity;
    rewrite Hph; simpl; lia.
Qed.

Lemma documentStep_cases env sid dg reply w :
  documentStep env sid dg reply w = (reply, None, [], w) \/
  exists phase p, due sid phase p w /\ dg = true /\
    ((exists e, generation env phase p = Throws e) \/
     (exists doc, generation env phase p = Returns doc)).
Proof.
  destruct dg; [|left; apply documentStep_idle; intros; reflexivity].
  destruct (getProjectSession sid w) as [p|] eqn:Hp.
  2: { left. apply documentStep_idle. intros phase p (Hp' & _). congruence. }
  destruct (decide (currentPhase p = Complete)) as [Hc|Hc].
  { left. apply documentStep_idle. intros phase p' (Hp' & Hph & Hne & _).
    congruence. }
  destruct (isPhaseComplete sid (currentPhase p) w) eqn:Hdone.
  2: { left. apply documentStep_idle. intros phase p' (Hp' & Hph & _ & Hd).
       assert (p' = p) by congruence. subst. congruence. }
  right. exists (currentPhase p), p. split; [repeat split; auto|].
  split; [reflexivity|].
  destruct (generation env (currentPhase p) p) as [doc|e]; eauto.
Qed.

Lemma documentStep_keeps env sid dg reply w :
  keeps w (exec (documentStep env sid dg reply) w).
Proof.
  destruct (documentStep_cases env sid dg reply w)
    as [E|(phase & p & Hdue & -> & [(e & Hg)|(doc & Hg)])].
  - unfold exec. rewrite E. apply keeps_refl.
  - unfold exec. rewrite (documentStep_throws _ _ _ _ _ _ _ Hdue Hg).
    apply keeps_refl.
  - destruct (documentStep_returns _ _ reply _ _ _ _ Hdue Hg)
      as (_ & t & t1 & t2 & E).
    destruct Hdue as (Hp & Hph & _).
    intros sid' q Hq. rewrite E.
    destruct (decide (sid = sid')) as [<-|]; [|exists q; split; [exact Hq|apply carried_refl]].
    assert (q = p) by congruence. subst q.
    eexists. split; [reflexivity|]. apply carried_advance, Hph.
Qed.

Lemma exec_finish r cs w : exec (finish r cs) w = w.
Proof. reflexivity. Qed.

Lemma POST_keeps env req w : keeps w (exec (POST env req) w).
Proof.
  unfold POST.
  destruct (negb _); [apply keeps_refl|].
  rewrite exec_bind.
  eapply keeps_trans.
  { apply keeps_same. intros sid. apply getProjectSession_ext.
    apply (initializeAgents_sessions env w). }
  generalize (exec (initializeAgents env) w). intros w1.
  destruct (eval (initializeAgents env) w) as [[ag dg]|e]; [|apply keeps_refl].
  destruct (json req) as [b|e]; [|apply keeps_refl].
  destruct (messages b) as [[|first rest]|]; try apply keeps_refl.
  rewrite exec_bind.
  eapply keeps_trans.
  { apply keeps_same. intros sid. apply getProjectSession_ext.
    apply (effectiveSessionId_sessions (body_sessionId b) w1). }
  generalize (eval (effectiveSessionId (body_sessionId b)) w1).
  generalize (exec (effectiveSessionId (body_sessionId b)) w1).
  intros w2 sid.
  rewrite exec_bind.
  eapply keeps_trans; [apply (receive_keeps sid first rest w2)|].
  generalize (eval (receive sid first rest) w2).
  generalize (exec (receive sid first rest) w2).
  intros w3 [userMessage history]. cbn [fst snd].
  destruct (negb ag); [apply keeps_refl|].
  destruct (chat env userMessage sid history) as [reply|e];
    [|apply keeps_refl].
  rewrite exec_bind.
  eapply keeps_trans; [apply (documentStep_keeps env sid dg reply w3)|].
  generalize (eval (documentStep env sid dg reply) w3).
  generalize (exec (documentStep env sid dg reply) w3).
  intros w4 step.
  rewrite exec_bind, exec_finish.
  apply keeps_same. intros sid'. apply respond_projectSession.
Qed.

Lemma serve_keeps requests : forall w, keeps w (exec (serve requests) w).
Proof.
  induction requests as [|[env req] more IH]; intros w.
  - apply keeps_refl.
  - simpl serve. rewrite exec_bind.
    eapply keeps_trans; [apply (POST_keeps env req w)|].
    rewrite exec_bind, exec_ret. apply IH.
Qed.

Lemma serve_app r1 : forall r2 w,
  exec (serve (r1 ++ r2)) w = exec (serve r2) (exec (serve r1) w).
Proof.
  induction r1 as [|[env req] more IH]; intros r2 w; [reflexivity|].
  simpl. rewrite !exec_bind, !exec_ret. apply IH.
Qed.

Lemma respond_eval sid reply g w :
  exists t : Z,
    eval (respond sid reply g) w =
      {| status := 200;
         body := DataBody
           {| rd_id := "msg-" +:+ pretty t;
              rd_role := Assistant;
              rd_content := reply;
              rd_parts := [{| part_type := "text"; part_text := reply |}];
              document := g;
              rd_projectSession :=
                match g with
                | Some _ => getProjectSession sid w
                | None => None
                end |} |}.
Proof.
  eexists. unfold respond. rewrite eval_bind.
  set (w1 := exec (addMessage sid Assistant reply) w).
  rewrite eval_bind, eval_bind, eval_gets. unfold eval at 1, ret. cbn [fst].
  rewrite (getProjectSession_ext sid w1 (exec Date_now w1)) by reflexivity.
  unfold w1. rewrite addMessage_projectSession. reflexivity.
Qed.

(** The run of a processed request on a session that has a project
    session: the world [w3] in which the document step runs has the
    project sessions of [w]. *)
Lemma POST_processed env req w sid reply p :
  processed env req w sid reply ->
  getProjectSession sid w = Some p ->
  exists (message : string) (history : list Entry) (w3 : World),
    (forall sid', getProjectSession sid' w3 = getProjectSession sid' w) /\
    POST env req w =
      let step := documentStep env sid true reply w3 in
      let r := respond sid (fst (fst (fst step))) (snd (fst (fst step)))
                 (snd step) in
      ({| response := fst r;
          calls := CallChat message sid history :: snd (fst step) |}, snd r).
Proof.
  intros (b & first & rest & Hkey & Hag & Hjson & Hmsg & Hsid & Hne & Hchat) Hp.
  set (w1 := exec (initializeAgents env) w) in *.
  set (received := eval (receive sid first rest) w1) in *.
  exists (fst received), (snd received), (exec (receive sid first rest) w1).
  split.
  - intros sid'.
    destruct (receive_projectSession sid first rest w1) as (t1 & t2 & t3 & E).
    rewrite E.
    assert (H1 : forall s, getProjectSession s w1 = getProjectSession s w).
    { intros s. apply getProjectSession_ext, initializeAgents_sessions. }
    rewrite !H1, Hp. destruct (decide (sid = sid')) as [<-|]; congruence.
  - unfold POST. rewrite Hkey. cbn [negb].
    unfold bind at 1. fold (eval (initializeAgents env) w).
    fold (exec (initializeAgents env) w). rewrite Hag. fold w1.
    rewrite Hjson, Hmsg, Hsid.
    unfold bind at 1. rewrite (effectiveSessionId_given sid w1 Hne).
    cbn [fst snd].
    unfold bind at 1. fold (eval (receive sid first rest) w1).
    fold (exec (receive sid first rest) w1). fold received.
    cbn [negb]. cbv zeta in Hchat. rewrite Hchat.
    reflexivity.
Qed.

Lemma isPhaseComplete_ext sid phase w w' :
  getProjectSession sid w' = getProjectSession sid w ->
  isPhaseComplete sid phase w' = isPhaseComplete sid phase w.
Proof. intros E. unfold isPhaseComplete. rewrite E. reflexivity. Qed.

Lemma due_ext sid phase p w w' :
  getProjectSession sid w' = getProjectSession sid w ->
  due sid phase p w -> due sid phase p w'.
Proof.
  intros E (Hp & Hph & Hne & Hc). repeat split; auto.
  - rewrite E. exact Hp.
  - rewrite (isPhaseComplete_ext _ _ _ _ E). exact Hc.
Qed.

Lemma POST_generated env req w sid reply phase p doc :
  processed env req w sid reply ->
  due sid phase p w ->
  generation env phase p = Returns doc ->
  exists (t t1 t2 : Z) (message id : string) (history : list Entry),
    let p' := with_phase (successor phase) t1 t2 (restamp phase t p) in
    eval (POST env req) w =
      {| response :=
           {| status := 200;
              body := DataBody
                {| rd_id := id; rd_role := Assistant;
                   rd_content := reply +:+ noteOf phase;
                   rd_parts := [{| part_type := "text";
                                   part_text := reply +:+ noteOf phase |}];
                   document :=
                     Some {| doc_type := phase; doc_content := doc |};
                   rd_projectSession := Some p' |} |};
         calls := CallChat message sid history :: generationCall phase p |} /\
    forall sid',
      getProjectSession sid' (exec (POST env req) w) =
        if decide (sid = sid') then Some p' else getProjectSession sid' w.
Proof.
  intros Hproc Hdue Hg.
  destruct (POST_processed _ _ _ _ _ p Hproc (proj1 Hdue))
    as (message & history & w3 & H3 & Hrun).
  pose proof (due_ext _ _ _ _ _ (H3 sid) Hdue) as Hdue3.
  destruct (documentStep_returns env sid reply w3 phase p doc Hdue3 Hg)
    as (Hev & t & t1 & t2 & Hex).
  unfold eval, exec in Hev, Hex |- *. rewrite Hrun. cbv zeta.
  rewrite Hev. cbn [fst snd].
  set (w4 := snd (documentStep env sid true reply w3)) in *.
  destruct (respond_eval sid (reply +:+ noteOf phase)
              (Some {| doc_type := phase; doc_content := doc |}) w4)
    as (tid & Hresp).
  unfold eval in Hresp. rewrite Hresp.
  exists t, t1, t2, message, ("msg-" +:+ pretty tid), history. split.
  - rewrite Hex. destruct (decide (sid = sid)); [reflexivity|contradiction].
  - intros sid'.
    pose proof (respond_projectSession sid (reply +:+ noteOf phase)
      (Some {| doc_type := phase; doc_content := doc |}) sid' w4) as Hr.
    unfold exec in Hr. rewrite Hr, Hex, H3. reflexivity.
Qed.

Lemma POST_not_generated env req w sid reply phase p e :
  processed env req w sid reply ->
  due sid phase p w ->
  generation env phase p = Throws e ->
  exists (message id : string) (history : list Entry),
    eval (POST env req) w =
      {| response :=
           {| status := 200;
              body := DataBody
                {| rd_id := id; rd_role := Assistant;
                   rd_content := reply;
                   rd_parts := [{| part_type := "text"; part_text := reply |}];
                   document := None;
                   rd_projectSession := None |} |};
         calls := CallChat message sid history :: generationCall phase p |} /\
    forall sid',
      getProjectSession sid' (exec (POST env req) w)
      = getProjectSession sid' w.
Proof.
  intros Hproc Hdue Hg.
  destruct (POST_processed _ _ _ _ _ p Hproc (proj1 Hdue))
    as (message & history & w3 & H3 & Hrun).
  pose proof (due_ext _ _ _ _ _ (H3 sid) Hdue) as Hdue3.
  pose proof (documentStep_throws env sid reply w3 phase p e Hdue3 Hg) as Hst.
  unfold eval, exec. rewrite Hrun. cbv zeta. rewrite Hst. cbn [fst snd].
  destruct (respond_eval sid reply None w3) as (tid & Hresp).
  unfold eval in Hresp. rewrite Hresp.
  exists message, ("msg-" +:+ pretty tid), history. split; [reflexivity|].
  intros sid'.
  pose proof (respond_projectSession sid reply None sid' w3) as Hr.
  unfold exec in Hr. rewrite Hr. apply H3.
Qed.

Lemma POST_processed_calls env req w sid reply phase p :
  processed env req w sid reply ->
  due sid phase p w ->
  exists (message : string) (history : list Entry),
    calls (eval (POST env req) w)
    = CallChat message sid history :: generationCall phase p.
Proof.
  intros Hproc Hdue.
  destruct (generation env phase p) as [doc|e] eqn:Hg.
  - destruct (POST_generated _ _ _ _ _ _ _ _ Hproc Hdue Hg)
      as (t & t1 & t2 & m & id & h & E & _).
    exists m, h. cbv zeta in E. rewrite E. reflexivity.
  - destruct (POST_not_generated _ _ _ _ _ _ _ _ Hproc Hdue Hg)
      as (m & id & h & E & _).
    exists m, h. rewrite E. reflexivity.
Qed.

(** ** Pruning *)

Lemma prune_fold cutoffTime (m0 m : gmap string ChatContext) :
  map_fold (prune_step cutoffTime) (m0, 0) m =
    (m0 ∖ filter (stale cutoffTime) m,
     Z.of_nat (size (filter (stale cutoffTime) m))).
Proof.
  revert m.
  apply (map_fold_weak_ind (fun r m =>
    r = (m0 ∖ filter (stale cutoffTime) m,
         Z.of_nat (size (filter (stale cutoffTime) m))))).
  - rewrite map_filter_empty, map_difference_empty, map_size_empty.
    reflexivity.
  - intros i x m r Hi ->. unfold prune_step. cbn [fst snd].
    destruct (Z.ltb_spec (updatedAt (metadata x)) cutoffTime) as [Hs|Hs].
    + rewrite map_filter_insert_True by exact Hs.
      rewrite (delete_difference _ _ i x). f_equal.
      rewrite map_size_insert_None; [lia|].
      apply map_lookup_filter_None_2. left. exact Hi.
    + rewrite map_filter_insert_not'; [reflexivity| |].
      * unfold stale. cbn [snd]. lia.
      * intros y Hy. congruence.
Qed.

Lemma pruneOldSessions_run hoursOld w :
  sessions (exec (pruneOldSessions hoursOld) w)
    = sessions w ∖ filter (stale (cutoffOf hoursOld w)) (sessions w) /\
  eval (pruneOldSessions hoursOld) w
    = Z.of_nat (size (filter (stale (cutoffOf hoursOld w)) (sessions w))).
Proof.
  unfold pruneOldSessions, exec, eval, bind, Date_now, cutoffOf.
  cbn [fst snd sessions]. rewrite prune_fold. split; reflexivity.
Qed.

Lemma elem_of_getActiveSessions sid w :
  sid ∈ getActiveSessions w <-> is_Some (sessions w !! sid).
Proof.
  unfold getActiveSessions. rewrite list_elem_of_fmap. split.
  - intros ([k c] & -> & H). apply elem_of_map_to_list in H. eauto.
  - intros [c H]. exists (sid, c). split; [reflexivity|].
    apply elem_of_map_to_list. exact H.
Qed.

Lemma prune_size cutoffTime (m : gmap string ChatContext) :
  (size (m ∖ filter (stale cutoffTime) m)
   + size (filter (stale cutoffTime) m) = size m)%nat.
Proof.
  assert (E : m ∖ filter (stale cutoffTime) m
              = filter (fun kv => ~ stale cutoffTime kv) m).
  { apply map_eq. intros i. rewrite lookup_difference, !map_lookup_filter.
    destruct (m !! i) as [c|]; simpl; [|reflexivity].
    repeat case_guard; simpl; try reflexivity; contradiction. }
  rewrite E.
  rewrite <- (map_filter_union_complement (stale cutoffTime) m) at 3.
  rewrite map_size_disj_union by apply map_disjoint_filter_complement.
  lia.
Qed.

(** ** The payloads over a history of operations *)

Lemma addAskedQuestion_some sid question w p :
  getProjectSession sid w = Some p ->
  forall sid',
    exists p', getProjectSession sid' (exec (addAskedQuestion sid question) w)
               = (if decide (sid = sid') then Some p'
                  else getProjectSession sid' w) /\
               requirements p' = requirements p /\ design p' = design p /\
               tasks p' = tasks p.
Proof.
  intros H sid'. destruct (getProjectSession_Some _ _ _ H) as (c & Hc & Hp).
  unfold addAskedQuestion. rewrite exec_bind.
  rewrite (getSession_eval_known _ _ _ Hc), (getSession_exec_known _ _ _ Hc), Hp.
  erewrite getProjectSession_insert by reflexivity.
  eexists. split; [destruct (decide (sid = sid')); reflexivity|].
  cbn. auto.
Qed.

Lemma addUserAnswer_some sid question answer w p :
  getProjectSession sid w = Some p ->
  forall sid',
    exists p', getProjectSession sid'
                 (exec (addUserAnswer sid question answer) w)
               = (if decide (sid = sid') then Some p'
                  else getProjectSession sid' w) /\
               requirements p' = requirements p /\ design p' = design p /\
               tasks p' = tasks p.
Proof.
  intros H sid'. destruct (getProjectSession_Some _ _ _ H) as (c & Hc & Hp).
  unfold addUserAnswer. rewrite exec_bind.
  rewrite (getSession_eval_known _ _ _ Hc), (getSession_exec_known _ _ _ Hc), Hp.
  erewrite getProjectSession_insert by reflexivity.
  eexists. split; [destruct (decide (sid = sid')); reflexivity|].
  cbn. auto.
Qed.

Lemma addAskedQuestion_none sid question w :
  getProjectSession sid w = None ->
  exec (addAskedQuestion sid question) w = exec (getSession sid) w.
Proof. intros H. stops_after_getSession addAskedQuestion H. Qed.

Lemma addUserAnswer_none sid question answer w :
  getProjectSession sid w = None ->
  exec (addUserAnswer sid question answer) w = exec (getSession sid) w.
Proof. intros H. stops_after_getSession addUserAnswer H. Qed.

(** The case of a setter in [perform_payload]: on the key it stores
    the payload, on another key it leaves the key's project session. *)
Ltac setter_case phase setter raw_some raw_none payload :=
  let t := fresh "t" in
  let E := fresh "E" in
  let Hd := fresh "Hd" in
  let q := fresh "q" in
  let Hq := fresh "Hq" in
  let s' := fresh "s'" in
  let Hs' := fresh "Hs'" in
  match goal with
  | Hp : getProjectSession ?sid ?w = Some ?p,
    Hsame : forall w', _ -> forall b, _ -> _,
    Hother : forall (sid' : string) (m : M unit), _
    |- context [exec (setter ?s _) ?w] =>
      destruct (decide (s = sid)) as [->|Hd];
      [ destruct (raw_some sid payload w p Hp) as (t & E);
        eexists; split;
          [unfold setter; rewrite E; destruct (decide (sid = sid));
             [reflexivity|contradiction]|];
        destruct phase; try contradiction; cbn;
          rewrite ?bool_decide_eq_true_2, ?orb_true_r, ?orb_false_r
            by reflexivity;
          reflexivity
      | apply Hsame;
        [ apply (Hother s); [apply raw_none|auto|];
          intros q Hq s' Hs';
          destruct (raw_some s payload w q Hq) as (t & E);
          unfold setter; rewrite E;
          destruct (decide (s = s')); [contradiction|reflexivity]
        | destruct phase; cbn; rewrite ?bool_decide_eq_false_2 by exact Hd;
            reflexivity ] ]
  end.

(** One operation: the project session of the key stays, and a payload
    is stored afterwards exactly when it was or the operation is its
    setter on the key. *)
Lemma perform_payload op sid w p phase :
  phase <> Complete ->
  getProjectSession sid w = Some p ->
  exists p',
    getProjectSession sid (exec (perform op) w) = Some p' /\
    payloadPresent phase p' = payloadPresent phase p || stores phase sid op.
Proof.
  intros Hne Hp.
  assert (Hsame : forall w',
    getProjectSession sid w' = getProjectSession sid w ->
    forall b, b = false ->
    exists p', getProjectSession sid w' = Some p' /\
      payloadPresent phase p' = payloadPresent phase p || b).
  { intros w' E b ->. exists p. rewrite E, orb_false_r. auto. }
  assert (Hother : forall (sid' : string) (m : M unit),
    (getProjectSession sid' w = None -> exec m w = exec (getSession sid') w) ->
    sid' <> sid \/ getProjectSession sid' w = None ->
    (forall q, getProjectSession sid' w = Some q ->
       forall s, sid' <> s ->
         getProjectSession s (exec m w) = getProjectSession s w) ->
    getProjectSession sid (exec m w) = getProjectSession sid w).
  { intros sid' m Hnone Hcase Hsome.
    destruct (getProjectSession sid' w) as [q|] eqn:Hq.
    - destruct Hcase as [Hd|Hd]; [|discriminate].
      apply (Hsome q eq_refl sid Hd).
    - rewrite (Hnone eq_refl). apply getSession_projectSession. }
  destruct op as [s r text|s ph|s r|s d|s k|s q|s q a|env req];
    cbn [perform].
  - apply Hsame; [apply addMessage_projectSession|].
    destruct phase; reflexivity.
  - destruct (decide (s = sid)) as [->|Hd].
    + destruct (updateProjectPhase_some sid ph w p Hp) as (t1 & t2 & E).
      eexists. split; [rewrite E; destruct (decide (sid = sid));
                       [reflexivity|contradiction]|].
      destruct phase; try contradiction; cbn; rewrite orb_false_r; reflexivity.
    + apply Hsame; [|destruct phase; reflexivity].
      apply (Hother s); [apply updateProjectPhase_none|auto|].
      intros q Hq s' Hs'.
      destruct (updateProjectPhase_some s ph w q Hq) as (t1 & t2 & E).
      rewrite E. destruct (decide (s = s')); [contradiction|reflexivity].
  - setter_case phase setRequirements setRequirements_raw_some setRequirements_raw_none (Some r).
  - setter_case phase setDesign setDesign_raw_some setDesign_raw_none (Some d).
  - setter_case phase setTasks setTasks_raw_some setTasks_raw_none (Some k).
  - destruct (decide (s = sid)) as [->|Hd].
    + destruct (addAskedQuestion_some sid q w p Hp sid)
        as (p' & E & Hr & Hd' & Ht).
      exists p'. split; [rewrite E; destruct (decide (sid = sid));
                         [reflexivity|contradiction]|].
      destruct phase; try contradiction; cbn;
        rewrite ?Hr, ?Hd', ?Ht, orb_false_r; reflexivity.
    + apply Hsame; [|destruct phase; reflexivity].
      apply (Hother s); [apply addAskedQuestion_none|auto|].
      intros q' Hq s' Hs'.
      destruct (addAskedQuestion_some s q w q' Hq s') as (p' & E & _).
      rewrite E. destruct (decide (s = s')); [contradiction|reflexivity].
  - destruct (decide (s = sid)) as [->|Hd].
    + destruct (addUserAnswer_some sid q a w p Hp sid)
        as (p' & E & Hr & Hd' & Ht).
      exists p'. split; [rewrite E; destruct (decide (sid = sid));
                         [reflexivity|contradiction]|].
      destruct phase; try contradiction; cbn;
        rewrite ?Hr, ?Hd', ?Ht, orb_false_r; reflexivity.
    + apply Hsame; [|destruct phase; reflexivity].
      apply (Hother s); [apply addUserAnswer_none|auto|].
      intros q' Hq s' Hs'.
      destruct (addUserAnswer_some s q a w q' Hq s') as (p' & E & _).
      rewrite E. destruct (decide (s = s')); [contradiction|reflexivity].
  - rewrite exec_bind, exec_ret.
    destruct (POST_keeps env req w sid p Hp) as (p' & Hp' & Hc).
    exists p'. split; [exact Hp'|].
    destruct Hc. destruct phase; try contradiction; cbn;
      rewrite orb_false_r; congruence.
Qed.

Lemma performAll_payload ops sid phase : forall w p,
  phase <> Complete ->
  getProjectSession sid w = Some p ->
  exists p',
    getProjectSession sid (exec (performAll ops) w) = Some p' /\
    payloadPresent phase p'
    = payloadPresent phase p || existsb (stores phase sid) ops.
Proof.
  induction ops as [|op more IH]; intros w p Hne Hp.
  - exists p. split; [exact Hp|]. cbn. rewrite orb_false_r. reflexivity.
  - cbn [performAll]. rewrite exec_bind.
    destruct (perform_payload op sid w p phase Hne Hp) as (q & Hq & Eq).
    destruct (IH _ q Hne Hq) as (p' & Hp' & Ep').
    exists p'. split; [exact Hp'|].
    rewrite Ep', Eq. cbn. rewrite orb_assoc. reflexivity.
Qed.

(** Appending a text that is not empty changes a string. *)
Lemma append_changes (s x : string) : x <> "" -> s +:+ x <> s.
Proof.
  intros Hx. induction s as [|a s IH]; cbn.
  - exact Hx.
  - intros Heq. injection Heq as Heq. exact (IH Heq).
Qed.

(** With a cap of zero the trim keeps the whole log: [slice(-0)] is
    [slice(0)]. *)
Lemma trim_zero (l : list Entry) : trim 0 l = l.
Proof.
  unfold trim, slice_from. destruct (_ >? _); [|reflexivity].
  change (- 0) with 0. change (0 <? 0) with false. cbv iota zeta.
  rewrite Z.min_l by lia. reflexivity.
Qed.

Lemma addMessages_cap_zero ms : forall w sid,
  maxMessagesPerSession w = 0 ->
  exists es : list Entry,
    map spoken es = sentTo sid ms /\
    getConversationHistory sid (exec (addMessages ms) w)
    = getConversationHistory sid w ++ es.
Proof.
  induction ms as [|[[sid' r] text] more IH]; intros w sid Hcap.
  - exists []. split; [reflexivity|].
    cbn [addMessages]. rewrite exec_ret, app_nil_r. reflexivity.
  - cbn [addMessages sentTo]. rewrite exec_bind.
    destruct (IH (exec (addMessage sid' r text) w) sid) as (es & Hes & Hh).
    { rewrite addMessage_cap. exact Hcap. }
    destruct (addMessage_history sid' r text sid w) as (t & Ht).
    rewrite Hh, Ht, Hcap. destruct (decide (sid' = sid)) as [->|Hne].
    + exists ({| role := r; content := text; timestamp := t |} :: es).
      split; [cbn; rewrite Hes; reflexivity|].
      rewrite trim_zero, <- app_assoc. reflexivity.
    + exists es. split; [exact Hes|reflexivity].
Qed.

(** ** The claims *)

(** C1.  Across every sequence of requests the current phase of a
    project session only moves forward in the order requirements,
    design, tasks, complete: a project session present after a prefix
    of the requests is still present after the whole sequence, in a
    phase that is not earlier, and that phase is one of the four. *)
Theorem currentPhase_only_advances (before after : list (Env * Request))
    (w : World) (sid : string) (p : ProjectSession) :
  getProjectSession sid (exec (serve before) w) = Some p ->
  exists p',
    getProjectSession sid (exec (serve (before ++ after)) w) = Some p' /\
    (phase_rank (currentPhase p) <= phase_rank (currentPhase p'))%nat /\
    In (currentPhase p') [Requirements; Design; Tasks; Complete].
Proof.
  intros Hp. rewrite serve_app.
  destruct (serve_keeps after (exec (serve before) w) sid p Hp)
    as (p' & Hp' & Hc).
  exists p'. split; [exact Hp'|]. split; [apply Hc|].
  destruct (currentPhase p'); simpl; auto.
Qed.

(** C2, as the code has it.  [initializeProjectSession] is not a no-op
    on a key that has a project session: it writes a fresh one over it,
    with the key and the name given, phase requirements, no payload,
    no question, no answer, and as its three stamps the three readings
    of the clock that the call makes (after the two of [createSession]
    when the key is new).  The session under the key is the one found,
    or the one just created, with that project session and nothing
    else changed; the sessions under the other keys and every
    conversation log are as they were.  The guard is the handler's: a
    request carries every existing project session over, with its
    name, payloads, questions, answers and creation stamp, its phase
    not earlier. *)
Theorem initializeProjectSession_overwrites (sid name : string) (w : World) :
  let w' := exec (initializeProjectSession sid name) w in
  let found :=
    match sessions w !! sid with
    | Some c => c
    | None =>
        {| sessionId := sid; projectSession := None;
           conversationHistory := [];
           metadata := {| createdAt := clock w (ticks w);
                          updatedAt := clock w (S (ticks w));
                          messageCount := 0 |} |}
    end in
  let n := match sessions w !! sid with
           | Some _ => ticks w
           | None => S (S (ticks w))
           end in
  let p :=
    {| ps_sessionId := sid; projectName := name;
       currentPhase := Requirements;
       requirements := None; design := None; tasks := None;
       ps_conversationHistory := []; questionsAsked := [];
       userAnswers := ∅;
       ps_metadata := {| ps_createdAt := clock w n;
                         ps_updatedAt := clock w (S n);
                         lastPhaseChange := clock w (S (S n)) |} |} in
  eval (initializeProjectSession sid name) w = p /\
  sessions w' !! sid
    = Some {| sessionId := sessionId found; projectSession := Some p;
              conversationHistory := conversationHistory found;
              metadata := metadata found |} /\
  (forall sid', sid' <> sid -> sessions w' !! sid' = sessions w !! sid') /\
  clock w' = clock w /\ ticks w' = S (S (S n)) /\
  (forall sid',
     getConversationHistory sid' w' = getConversationHistory sid' w) /\
  (forall env req sid' q,
     getProjectSession sid' w = Some q ->
     exists q', getProjectSession sid' (exec (POST env req) w) = Some q' /\
                carried q q').
Proof.
  cbv zeta.
  assert (Hrun :
    initializeProjectSession sid name w =
      match sessions w !! sid with
      | Some c =>
          let p := freshProjectSession sid name (clock w (ticks w))
                     (clock w (S (ticks w))) (clock w (S (S (ticks w)))) in
          (p, {| sessions := <[sid := with_projectSession p c]> (sessions w);
                 maxMessagesPerSession := maxMessagesPerSession w;
                 agent := agent w; documentGenerator := documentGenerator w;
                 clock := clock w; ticks := S (S (S (ticks w))) |})
      | None =>
          let c := freshSession sid (clock w (ticks w))
                     (clock w (S (ticks w))) in
          let p := freshProjectSession sid name (clock w (S (S (ticks w))))
                     (clock w (S (S (S (ticks w)))))
                     (clock w (S (S (S (S (ticks w)))))) in
          (p, {| sessions :=
                   <[sid := with_projectSession p c]>
                     (<[sid := c]> (sessions w));
                 maxMessagesPerSession := maxMessagesPerSession w;
                 agent := agent w; documentGenerator := documentGenerator w;
                 clock := clock w; ticks := S (S (S (S (S (ticks w))))) |})
      end).
  { unfold initializeProjectSession, getSession, createSession, bind, gets,
      ret, Date_now, sessions_set. cbn [fst snd].
    destruct (sessions w !! sid); reflexivity. }
  split; [|split; [|split; [|split; [|split; [|split]]]]].
  - unfold eval. rewrite Hrun. destruct (sessions w !! sid); reflexivity.
  - unfold exec. rewrite Hrun.
    destruct (sessions w !! sid); cbn [snd sessions];
      rewrite lookup_insert_eq; reflexivity.
  - intros sid' Hne. unfold exec. rewrite Hrun.
    destruct (sessions w !! sid) eqn:E; cbn [snd sessions];
      rewrite !lookup_insert_ne by congruence; reflexivity.
  - unfold exec. rewrite Hrun. destruct (sessions w !! sid); reflexivity.
  - unfold exec. rewrite Hrun. destruct (sessions w !! sid); reflexivity.
  - intros sid'. apply initializeProjectSession_history.
  - intros env req sid' q Hq. exact (POST_keeps env req w sid' q Hq).
Qed.

(** C3.  [isPhaseComplete] is false for every phase on a key without a
    project session; with one, it is true for requirements, design and
    tasks exactly when that payload is stored, and for complete exactly
    when all three are; a setter that finds the project session makes
    its phase complete; and from the initialisation of the project
    session on, over any history of writers and requests, a phase is
    complete exactly when its setter was called on the key. *)
Theorem isPhaseComplete_iff_payload (sid : string) (w : World) :
  (getProjectSession sid w = None ->
   forall phase, isPhaseComplete sid phase w = false) /\
  (forall p, getProjectSession sid w = Some p ->
     (isPhaseComplete sid Requirements w = true <-> is_Some (requirements p)) /\
     (isPhaseComplete sid Design w = true <-> is_Some (design p)) /\
     (isPhaseComplete sid Tasks w = true <-> is_Some (tasks p)) /\
     (isPhaseComplete sid Complete w = true <->
        is_Some (requirements p) /\ is_Some (design p) /\ is_Some (tasks p)) /\
     (forall r, isPhaseComplete sid Requirements
                  (exec (setRequirements sid r) w) = true) /\
     (forall d, isPhaseComplete sid Design (exec (setDesign sid d) w) = true) /\
     (forall k, isPhaseComplete sid Tasks (exec (setTasks sid k) w) = true)) /\
  (forall name ops phase,
     phase <> Complete ->
     isPhaseComplete sid phase
       (exec (performAll ops) (exec (initializeProjectSession sid name) w))
       = true
     <-> existsb (stores phase sid) ops = true).
Proof.
  split; [|split].
  - intros H phase. unfold isPhaseComplete. rewrite H. reflexivity.
  - intros p H.
    assert (Hpresent : forall A (o : option A), present o = true <-> is_Some o).
    { intros A [a|]; simpl; split; intros Hx; eauto;
        [discriminate|destruct Hx; discriminate]. }
    unfold isPhaseComplete at 1 2 3 4. rewrite H.
    rewrite !andb_true_iff, !Hpresent.
    repeat (split; [tauto|]).
    split; [|split].
    + intros r. destruct (setRequirements_raw_some sid (Some r) w p H) as (t & E).
      unfold isPhaseComplete, setRequirements. rewrite E.
      destruct (decide (sid = sid)); [reflexivity|contradiction].
    + intros d. destruct (setDesign_raw_some sid (Some d) w p H) as (t & E).
      unfold isPhaseComplete, setDesign. rewrite E.
      destruct (decide (sid = sid)); [reflexivity|contradiction].
    + intros k. destruct (setTasks_raw_some sid (Some k) w p H) as (t & E).
      unfold isPhaseComplete, setTasks. rewrite E.
      destruct (decide (sid = sid)); [reflexivity|contradiction].
  - intros name ops phase Hne.
    destruct (initializeProjectSession_projectSession sid name w)
      as (t1 & t2 & t3 & Hinit).
    specialize (Hinit sid).
    destruct (decide (sid = sid)); [|contradiction].
    destruct (performAll_payload ops sid phase _ _ Hne Hinit)
      as (p' & Hp' & Hpay).
    assert (Hfresh : payloadPresent phase
                       (freshProjectSession sid name t1 t2 t3) = false)
      by (destruct phase; reflexivity).
    rewrite Hfresh, orb_false_l in Hpay. rewrite <- Hpay.
    unfold isPhaseComplete. rewrite Hp'.
    destruct phase; try contradiction; reflexivity.
Qed.

(** C4.  When the generation call throws on the phase-completion path,
    the request still succeeds with the agent's plain reply and no
    document, every project session is what it was (no payload stored,
    the phase not advanced), the document stays due, and the next
    processed request of the session makes the generation call again. *)
Theorem generation_failure_is_recovered (env : Env) (req : Request)
    (w : World) (sid reply : string) (phase : ProjectPhase)
    (p : ProjectSession) (e : string) :
  processed env req w sid reply ->
  due sid phase p w ->
  generation env phase p = Throws e ->
  let w' := exec (POST env req) w in
  (exists data,
     response (eval (POST env req) w)
       = {| status := 200; body := DataBody data |} /\
     rd_content data = reply /\ document data = None /\
     rd_projectSession data = None) /\
  (forall sid', getProjectSession sid' w' = getProjectSession sid' w) /\
  due sid phase p w' /\
  (forall env' req' reply',
     processed env' req' w' sid reply' ->
     exists message history,
       calls (eval (POST env' req') w')
       = CallChat message sid history :: generationCall phase p).
Proof.
  intros Hproc Hdue Hg w'.
  destruct (POST_not_generated _ _ _ _ _ _ _ _ Hproc Hdue Hg)
    as (m & id & h & E & Hsame).
  assert (Hdue' : due sid phase p w') by (apply (due_ext _ _ _ w); auto).
  split; [|split; [exact Hsame|split; [exact Hdue'|]]].
  - rewrite E. eexists. split; [reflexivity|]. simpl. auto.
  - intros env' req' reply' Hproc'.
    apply (POST_processed_calls _ _ _ _ _ _ _ Hproc' Hdue').
Qed.

(** C5.  When a request is processed for a session whose document is
    due (its phase is requirements, design or tasks and
    [isPhaseComplete] holds for it) and the generation call returns,
    the response carries the document of that phase and the project
    session as it is afterwards, the content of the response is the
    reply followed by the transition note of the phase, spelled out
    below, and the phase has moved to the next one: requirements to
    design, design to tasks, tasks to complete. *)
Theorem document_is_generated (env : Env) (req : Request) (w : World)
    (sid reply : string) (phase : ProjectPhase) (p : ProjectSession)
    (doc : string) :
  processed env req w sid reply ->
  due sid phase p w ->
  generation env phase p = Returns doc ->
  exists data p',
    response (eval (POST env req) w)
      = {| status := 200; body := DataBody data |} /\
    rd_content data =
      reply +:+
      (let lf := String "010"%char EmptyString in
       match phase with
       | Requirements =>
           lf +:+ lf +:+
           "âœ… **Requirements.md generated!** You can download it below."
           +:+ lf +:+ lf +:+
           "Now let's move to the design phase. I'll help you create a system architecture."
       | Design =>
           lf +:+ lf +:+
           "âœ… **Design.md generated!** You can download it below."
           +:+ lf +:+ lf +:+
           "Now let's break this down into tasks. I'll create a detailed task list."
       | Tasks =>
           lf +:+ lf +:+
           "âœ… **Tasks.md generated!** You can download it below."
           +:+ lf +:+ lf +:+
           "ðŸŽ‰ All three documents are ready! You can now hand these off to AI agents like Cursor, Windsurf, or Claude for implementation."
       | Complete => ""
       end) /\
    rd_content data <> reply /\
    document data = Some {| doc_type := phase; doc_content := doc |} /\
    rd_projectSession data = Some p' /\
    getProjectSession sid (exec (POST env req) w) = Some p' /\
    currentPhase p' = successor phase /\
    carried p p'.
Proof.
  intros Hproc Hdue Hg.
  destruct (POST_generated _ _ _ _ _ _ _ _ Hproc Hdue Hg)
    as (t & t1 & t2 & m & id & h & E & Hps).
  cbv zeta in E, Hps. rewrite E. eexists _, _.
  split; [reflexivity|]. cbn [rd_content document rd_projectSession].
  assert (Hphase : phase <> Complete) by apply Hdue.
  split; [destruct phase; reflexivity|].
  split.
  { apply append_changes. destruct phase; try contradiction; discriminate. }
  repeat (split; [reflexivity|]).
  split; [|split; [reflexivity|]].
  - rewrite Hps. destruct (decide (sid = sid)); [reflexivity|contradiction].
  - apply carried_advance. apply Hdue.
Qed.

(** C6.  The code does not keep the log within a cap of zero.  On a
    manager built with [maxMessagesPerSession = 0], whatever the clock
    and the calls, [addMessage] enters its trim and drops nothing: the
    log of a session holds every message sent to it, in order, so it
    is longer than the cap from the first message on and grows with
    every call. *)
Theorem cap_zero_never_trims (ms : list (string * Role * string))
    (clk : nat -> Z) (sid : string) :
  let w' := exec (addMessages ms) (new_TracerMemoryManager 0 clk) in
  maxMessagesPerSession w' = 0 /\
  map spoken (getConversationHistory sid w') = sentTo sid ms /\
  length (getConversationHistory sid w') = length (sentTo sid ms) /\
  getConversationHistory "s"
    (exec (addMessage "s" User "hi") (new_TracerMemoryManager 0 clk))
  = [{| role := User; content := "hi"; timestamp := clk 2%nat |}].
Proof.
  cbv zeta.
  destruct (addMessages_cap_zero ms (new_TracerMemoryManager 0 clk) sid
              eq_refl) as (es & Hes & Hh).
  split; [rewrite addMessages_cap; reflexivity|].
  assert (Hm : map spoken
                 (getConversationHistory sid
                    (exec (addMessages ms) (new_TracerMemoryManager 0 clk)))
               = sentTo sid ms).
  { rewrite Hh. unfold getConversationHistory at 1.
    cbn [new_TracerMemoryManager sessions]. rewrite lookup_empty.
    cbn [app]. exact Hes. }
  split; [exact Hm|].
  split; [rewrite <- Hm, length_map; reflexivity|].
  reflexivity.
Qed.

(** C7, as the code has it.  A request without messages -- its body
    does not parse to an object, or parses to one whose message list
    is missing or empty -- leaves the session store as it was and
    calls no collaborator.  It is answered with the client error 400
    when the three steps that come first have passed: the key is
    configured, the agents are there and the body has parsed; when one
    of them fails, it is answered with the server error 500. *)
Theorem no_messages_is_rejected (env : Env) (req : Request) (w : World) :
  (forall b, json req = Returns b ->
             messages b = None \/ messages b = Some []) ->
  sessions (exec (POST env req) w) = sessions w /\
  calls (eval (POST env req) w) = [] /\
  (truthy (OPENROUTER_API_KEY env) || truthy (OPENAI_API_KEY env) = true ->
   (exists a, eval (initializeAgents env) w = Returns a) ->
   (exists b, json req = Returns b) ->
   response (eval (POST env req) w)
   = {| status := 400; body := TextBody "No messages provided" |}) /\
  (truthy (OPENROUTER_API_KEY env) || truthy (OPENAI_API_KEY env) = false \/
   (exists e, eval (initializeAgents env) w = Throws e) \/
   (exists e, json req = Throws e) ->
   status (response (eval (POST env req) w)) = 500).
Proof.
  intros Hmsg. unfold POST.
  destruct (truthy (OPENROUTER_API_KEY env) || truthy (OPENAI_API_KEY env));
    cbn [negb].
  - rewrite exec_bind, eval_bind.
    pose proof (initializeAgents_sessions env w) as Hs.
    destruct (eval (initializeAgents env) w) as [[ag dg]|e] eqn:Ha.
    + destruct (json req) as [b|e] eqn:Hj.
      * assert (Hb : match messages b with
                     | Some (_ :: _) => False | _ => True end)
          by (destruct (Hmsg b eq_refl) as [-> | ->]; exact I).
        destruct (messages b) as [[|first rest]|]; try contradiction;
          (split; [exact Hs|]); (split; [reflexivity|]);
          (split; [intros _ _ _; reflexivity|]);
          intros [H|[(e & H)|(e & H)]]; discriminate.
      * split; [exact Hs|]. split; [reflexivity|].
        split; [intros _ _ (b & Hb); discriminate|].
        intros _. reflexivity.
    + split; [exact Hs|]. split; [reflexivity|].
      split; [intros _ (a & Ha'); discriminate|].
      intros _. reflexivity.
  - split; [reflexivity|]. split; [reflexivity|].
    split; [intros H; discriminate|]. intros _. reflexivity.
Qed.

(** C8.  [pruneOldSessions] removes exactly the sessions whose last
    update is older than the time of the call minus [hoursOld] hours and
    returns their number; every other session stays as it is and is
    listed by [getActiveSessions]. *)
Theorem pruneOldSessions_removes_the_stale (hoursOld : Z) (w : World) :
  let cutoffTime := clock w (ticks w) - hoursOld * 60 * 60 * 1000 in
  let w' := exec (pruneOldSessions hoursOld) w in
  let removed := eval (pruneOldSessions hoursOld) w in
  (forall sid,
     sessions w' !! sid =
       match sessions w !! sid with
       | Some c =>
           if decide (updatedAt (metadata c) < cutoffTime) then None
           else Some c
       | None => None
       end) /\
  (forall sid,
     sid ∈ getActiveSessions w' <->
     exists c, sessions w !! sid = Some c /\
               ~ updatedAt (metadata c) < cutoffTime) /\
  removed = Z.of_nat (size (filter (stale cutoffTime) (sessions w))) /\
  removed = Z.of_nat (size (sessions w)) - Z.of_nat (size (sessions w')).
Proof.
  intros cutoffTime w' removed.
  destruct (pruneOldSessions_run hoursOld w) as (Hs & Hn).
  fold w' in Hs. fold removed in Hn.
  change (cutoffOf hoursOld w) with cutoffTime in *.
  assert (Hlook : forall sid,
    sessions w' !! sid =
      match sessions w !! sid with
      | Some c =>
          if decide (updatedAt (metadata c) < cutoffTime) then None
          else Some c
      | None => None
      end).
  { intros sid. rewrite Hs, lookup_difference, map_lookup_filter.
    destruct (sessions w !! sid) as [c|]; simpl; [|reflexivity].
    unfold stale at 1. cbn [snd].
    destruct (decide (updatedAt (metadata c) < cutoffTime)).
    - rewrite option_guard_True by assumption. reflexivity.
    - rewrite option_guard_False by assumption. reflexivity. }
  split; [exact Hlook|]. split; [|split; [exact Hn|]].
  - intros sid. rewrite elem_of_getActiveSessions, Hlook.
    destruct (sessions w !! sid) as [c|].
    + destruct (decide (updatedAt (metadata c) < cutoffTime)); split.
      * intros [x Hx]. discriminate.
      * intros (c' & Hc' & Hn'). congruence.
      * intros _. exists c. auto.
      * intros _. eauto.
    + split; [intros [x Hx]; discriminate|intros (c & Hc & _); discriminate].
  - rewrite Hn, Hs.
    pose proof (prune_size cutoffTime (sessions w)). lia.
Qed.

(** C9.  On the tasks path of the handler the tasks generator is called
    with the two literals, whatever design and requirements the project
    session holds: the calls of the request are the chat call and that
    one, and the document returned is what the generator gives on the
    literals. *)
Theorem generateTasks_gets_the_placeholders (env : Env) (req : Request)
    (w : World) (sid reply : string) (p : ProjectSession) :
  processed env req w sid reply ->
  due sid Tasks p w ->
  (exists message history,
     calls (eval (POST env req) w)
     = [CallChat message sid history;
        CallGenerateTasks "Design document" "Requirements document"]) /\
  (forall doc,
     generateTasks env "Design document" "Requirements document"
       = Returns doc ->
     exists data,
       body (response (eval (POST env req) w)) = DataBody data /\
       document data = Some {| doc_type := Tasks; doc_content := doc |}).
Proof.
  intros Hproc Hdue. split.
  - apply (POST_processed_calls _ _ _ _ _ _ _ Hproc Hdue).
  - intros doc Hg.
    destruct (POST_generated env req w sid reply Tasks p doc Hproc Hdue Hg)
      as (t & t1 & t2 & m & id & h & E & _).
    cbv zeta in E. rewrite E. eexists. split; reflexivity.
Qed.

(** C10.  On a key without a project session [updateProjectPhase],
    [setRequirements], [setDesign] and [setTasks] do what [getSession]
    does and nothing more: a known key leaves the store as it is, an
    unknown key gets a fresh session with an empty log and no project
    session, and no key has a project session that it had not. *)
Theorem writers_need_a_project_session (sid : string) (w : World)
    (phase : ProjectPhase) (r : RequirementsData) (d : DesignData)
    (k : TasksData) :
  getProjectSession sid w = None ->
  let lazily := exec (getSession sid) w in
  exec (updateProjectPhase sid phase) w = lazily /\
  exec (setRequirements sid r) w = lazily /\
  exec (setDesign sid d) w = lazily /\
  exec (setTasks sid k) w = lazily /\
  (forall sid', getProjectSession sid' lazily = getProjectSession sid' w) /\
  sessions lazily =
    match sessions w !! sid with
    | Some _ => sessions w
    | None => <[sid := freshSession sid (clock w (ticks w))
                         (clock w (S (ticks w)))]> (sessions w)
    end.
Proof.
  intros H lazily.
  split; [apply updateProjectPhase_none, H|].
  split; [apply setRequirements_raw_none, H|].
  split; [apply setDesign_raw_none, H|].
  split; [apply setTasks_raw_none, H|].
  split; [intros sid'; apply getSession_projectSession|].
  apply getSession_sessions.
Qed.

(** ** Scenarios *)

Example scenario_A :
  currentPhase <$> getProjectSession "s" w_started = Some Requirements /\
  map spoken (getConversationHistory "s" w_started)
    = [(User, "I want to build a task app");
       (Assistant, "re:I want to build a task app")].
Proof. split; vm_compute; reflexivity. Qed.

Example scenario_phases :
  currentPhase <$> getProjectSession "s" w_design = Some Design /\
  currentPhase <$> getProjectSession "s" w_tasks = Some Tasks /\
  currentPhase <$> getProjectSession "s"
    (exec (POST env0 req_next) w_tasks_due) = Some Complete.
Proof. repeat split; vm_compute; reflexivity. Qed.

Example scenario_E :
  eval (pruneOldSessions 24) w_aged = 1 /\
  getActiveSessions (exec (pruneOldSessions 24) w_aged) = ["recent"].
Proof. split; vm_compute; reflexivity. Qed.

Ltac compute_eq := vm_compute; reflexivity.

Ltac split_conj := repeat match goal with |- _ /\ _ => split end.

Ltac show_processed :=
  eexists _, _, _; split_conj; try compute_eq; discriminate.

Ltac show_due :=
  unfold due; split_conj; try compute_eq; discriminate.

(** ** Witnesses and counterexamples *)

Lemma currentPhase_only_advances_witness :
  getProjectSession "s" (exec (serve []) w_requirements)
    = Some p_requirements /\
  exists p',
    getProjectSession "s"
      (exec (serve ([] ++ [(env0, req_next)])) w_requirements) = Some p' /\
    (phase_rank (currentPhase p_requirements)
       <= phase_rank (currentPhase p'))%nat /\
    In (currentPhase p') [Requirements; Design; Tasks; Complete].
Proof.
  split; [compute_eq|].
  apply (currentPhase_only_advances [] [(env0, req_next)] w_requirements
           "s" p_requirements).
  compute_eq.
Defined.

(** C2 as stated fails: on a session in the design phase a second
    [initializeProjectSession] changes the project session. *)
Lemma initializeProjectSession_resets_the_phase :
  getProjectSession "s"
    (exec (initializeProjectSession "s" "New Project") w_design)
  <> getProjectSession "s" w_design.
Proof. vm_compute. discriminate. Qed.

Lemma initializeProjectSession_overwrites_witness :
  getProjectSession "s" w_requirements = Some p_requirements /\
  eval (initializeProjectSession "s" "Again") w_requirements
    = {| ps_sessionId := "s"; projectName := "Again";
         currentPhase := Requirements;
         requirements := None; design := None; tasks := None;
         ps_conversationHistory := []; questionsAsked := [];
         userAnswers := ∅;
         ps_metadata := {| ps_createdAt := 1011; ps_updatedAt := 1012;
                           lastPhaseChange := 1013 |} |} /\
  exists p',
    getProjectSession "s" (exec (POST env0 req_next) w_requirements)
      = Some p' /\
    carried p_requirements p'.
Proof.
  pose proof (initializeProjectSession_overwrites "s" "Again" w_requirements)
    as H.
  cbv zeta in H. destruct H as (Hp & _ & _ & _ & _ & _ & Hpost).
  split; [compute_eq|]. split.
  - rewrite Hp. compute_eq.
  - apply (Hpost env0 req_next "s" p_requirements). compute_eq.
Defined.

Lemma isPhaseComplete_iff_payload_witness :
  getProjectSession "s" w_requirements = Some p_requirements /\
  (isPhaseComplete "s" Requirements w_requirements = true
   <-> is_Some (requirements p_requirements)) /\
  (getProjectSession "nobody" w_requirements = None /\
   isPhaseComplete "nobody" Complete w_requirements = false) /\
  (Design <> Complete /\
   (isPhaseComplete "s" Design
      (exec (performAll [AddMessage "s" User "hi"; SetDesign "s" d0])
         (exec (initializeProjectSession "s" "Shop") w0)) = true
    <-> existsb (stores Design "s")
          [AddMessage "s" User "hi"; SetDesign "s" d0] = true)).
Proof.
  split; [compute_eq|]. split; [|split].
  - apply (proj1 (proj2 (isPhaseComplete_iff_payload "s" w_requirements))
             p_requirements).
    compute_eq.
  - split; [compute_eq|].
    apply (proj1 (isPhaseComplete_iff_payload "nobody" w_requirements)).
    compute_eq.
  - split; [discriminate|].
    apply (proj2 (proj2 (isPhaseComplete_iff_payload "s" w0)) "Shop"
             [AddMessage "s" User "hi"; SetDesign "s" d0] Design).
    discriminate.
Defined.

Lemma generation_failure_is_recovered_witness :
  processed env_failing req_next w_requirements "s" "re:more" /\
  due "s" Requirements p_requirements w_requirements /\
  generation env_failing Requirements p_requirements
    = Throws "model unavailable" /\
  (forall sid',
     getProjectSession sid' (exec (POST env_failing req_next) w_requirements)
     = getProjectSession sid' w_requirements) /\
  due "s" Requirements p_requirements
    (exec (POST env_failing req_next) w_requirements).
Proof.
  assert (Hproc : processed env_failing req_next w_requirements "s" "re:more")
    by show_processed.
  assert (Hdue : due "s" Requirements p_requirements w_requirements)
    by show_due.
  assert (Hg : generation env_failing Requirements p_requirements
               = Throws "model unavailable") by reflexivity.
  split; [exact Hproc|]. split; [exact Hdue|]. split; [exact Hg|].
  pose proof (generation_failure_is_recovered env_failing req_next
                w_requirements "s" "re:more" Requirements p_requirements
                "model unavailable" Hproc Hdue Hg) as H.
  cbv zeta in H.
  split; [exact (proj1 (proj2 H))|exact (proj1 (proj2 (proj2 H)))].
Defined.

Lemma document_is_generated_witness :
  processed env0 req_next w_requirements "s" "re:more" /\
  due "s" Requirements p_requirements w_requirements /\
  generation env0 Requirements p_requirements = Returns "# Requirements" /\
  exists data p',
    response (eval (POST env0 req_next) w_requirements)
      = {| status := 200; body := DataBody data |} /\
    rd_content data =
      "re:more" +:+
      (let lf := String "010"%char EmptyString in
       lf +:+ lf +:+
       "âœ… **Requirements.md generated!** You can download it below."
       +:+ lf +:+ lf +:+
       "Now let's move to the design phase. I'll help you create a system architecture.") /\
    rd_content data <> "re:more" /\
    document data
      = Some {| doc_type := Requirements; doc_content := "# Requirements" |} /\
    rd_projectSession data = Some p' /\
    getProjectSession "s" (exec (POST env0 req_next) w_requirements)
      = Some p' /\
    currentPhase p' = successor Requirements /\
    carried p_requirements p'.
Proof.
  assert (Hproc : processed env0 req_next w_requirements "s" "re:more")
    by show_processed.
  assert (Hdue : due "s" Requirements p_requirements w_requirements)
    by show_due.
  split; [exact Hproc|]. split; [exact Hdue|]. split; [reflexivity|].
  apply (document_is_generated env0 req_next w_requirements "s" "re:more"
           Requirements p_requirements "# Requirements" Hproc Hdue).
  reflexivity.
Defined.

(** With a cap of zero the log holds one entry after one
    [addMessage], since [slice(-0)] keeps the whole array. *)
Lemma cap_zero_is_exceeded :
  ~ (Z.of_nat (length (getConversationHistory "s"
                         (exec (addMessages [("s", User, "hi")]) w_cap0)))
     <= maxMessagesPerSession w_cap0).
Proof. vm_compute. intros H. apply H. reflexivity. Qed.


(** The window at work: of three entries for the session the last two
    stay. *)
Example sliding_window :
  map spoken (getConversationHistory "s"
     (exec (addMessages [("s", User, "a"); ("t", User, "b");
                         ("s", Assistant, "c"); ("s", User, "d")]) w_cap2))
  = [(Assistant, "c"); (User, "d")].
Proof. compute_eq. Qed.

(** C7 as stated fails: without a key an empty message list is
    answered with status 500, which is no client error. *)
Lemma key_check_precedes_validation :
  ~ (400 <= status (response (eval (POST env_nokey req_empty) w0)) < 500).
Proof. vm_compute. intros [_ H]. discriminate H. Qed.

Lemma no_messages_is_rejected_witness :
  (forall b, json req_empty = Returns b ->
             messages b = None \/ messages b = Some []) /\
  sessions (exec (POST env0 req_empty) w0) = sessions w0 /\
  calls (eval (POST env0 req_empty) w0) = [] /\
  response (eval (POST env0 req_empty) w0)
    = {| status := 400; body := TextBody "No messages provided" |} /\
  status (response (eval (POST env_nokey req_empty) w0)) = 500.
Proof.
  assert (Hm : forall b, json req_empty = Returns b ->
                         messages b = None \/ messages b = Some []).
  { intros b Hb. injection Hb as <-. right. reflexivity. }
  split; [exact Hm|].
  pose proof (no_messages_is_rejected env0 req_empty w0 Hm)
    as (Hs & Hc & Hr & _).
  pose proof (no_messages_is_rejected env_nokey req_empty w0 Hm)
    as (_ & _ & _ & Hk).
  split; [exact Hs|]. split; [exact Hc|]. split.
  - apply Hr; [compute_eq|eexists; compute_eq|eexists; reflexivity].
  - apply Hk. left. reflexivity.
Defined.

Lemma pruneOldSessions_removes_the_stale_witness :
  "recent" ∈ getActiveSessions (exec (pruneOldSessions 24) w_aged) /\
  sessions (exec (pruneOldSessions 24) w_aged) !! "old" = None.
Proof.
  pose proof (pruneOldSessions_removes_the_stale 24 w_aged) as H.
  cbv zeta in H. destruct H as (Hlook & Hactive & _).
  split.
  - apply Hactive. eexists. split; [compute_eq|]. vm_compute. discriminate.
  - rewrite Hlook. compute_eq.
Defined.

Lemma generateTasks_gets_the_placeholders_witness :
  processed env0 req_next w_tasks_due "s" "re:more" /\
  (exists p, due "s" Tasks p w_tasks_due /\
             design p = Some d0 /\ requirements p = Some r0) /\
  exists message history,
    calls (eval (POST env0 req_next) w_tasks_due)
    = [CallChat message "s" history;
       CallGenerateTasks "Design document" "Requirements document"].
Proof.
  assert (Hproc : processed env0 req_next w_tasks_due "s" "re:more")
    by show_processed.
  assert (Hdue : exists p, due "s" Tasks p w_tasks_due /\
                  design p = Some d0 /\ requirements p = Some r0).
  { eexists. split; [|split]; [show_due|compute_eq|compute_eq]. }
  split; [exact Hproc|]. split; [exact Hdue|].
  destruct Hdue as (p & Hdue & _).
  apply (proj1 (generateTasks_gets_the_placeholders env0 req_next w_tasks_due
                  "s" "re:more" p Hproc Hdue)).
Defined.

Lemma writers_need_a_project_session_witness :
  getProjectSession "t" w_requirements = None /\
  exec (setRequirements "t" r0) w_requirements
    = exec (getSession "t") w_requirements /\
  exec (updateProjectPhase "t" Complete) w_requirements
    = exec (getSession "t") w_requirements.
Proof.
  assert (H : getProjectSession "t" w_requirements = None) by compute_eq.
  split; [exact H|].
  pose proof (writers_need_a_project_session "t" w_requirements Complete
                r0 d0 k0 H) as Hw.
  cbv zeta in Hw. split; [exact (proj1 (proj2 Hw))|exact (proj1 Hw)].
Defined.

(** * Further properties *)

(** ** Operations work on their key *)

Lemma store_step_refl sid m : store_step sid m m.
Proof. split; [reflexivity|apply rtc_refl]. Qed.

Lemma store_step_trans sid m1 m2 m3 :
  store_step sid m1 m2 -> store_step sid m2 m3 -> store_step sid m1 m3.
Proof.
  intros [F1 S1] [F2 S2]. split.
  - intros k Hk. rewrite F2, F1 by exact Hk. reflexivity.
  - eapply rtc_trans; eassumption.
Qed.

Lemma store_step_same sid m m' : m' = m -> store_step sid m m'.
Proof. intros ->. apply store_step_refl. Qed.

Lemma store_step_insert sid m c :
  ctx_step sid (m !! sid) (Some c) -> store_step sid m (<[sid := c]> m).
Proof.
  intros H. split.
  - intros k Hk. apply lookup_insert_ne. congruence.
  - rewrite lookup_insert_eq. apply rtc_once, H.
Qed.

Lemma store_step_delete sid m : store_step sid m (delete sid m).
Proof.
  split.
  - intros k Hk. apply lookup_delete_ne. congruence.
  - rewrite lookup_delete_eq. apply rtc_once, step_remove.
Qed.

Lemma acts_at_bind sid {A B} (m : M A) (k : A -> M B) :
  acts_at sid m -> (forall a, acts_at sid (k a)) -> acts_at sid (bind m k).
Proof.
  intros Hm Hk w. rewrite exec_bind.
  eapply store_step_trans; [apply Hm|apply Hk].
Qed.

Lemma acts_at_still sid {A} (m : M A) :
  (forall w, sessions (exec m w) = sessions w) -> acts_at sid m.
Proof. intros H w. apply store_step_same, H. Qed.

Lemma acts_at_ret sid {A} (a : A) : acts_at sid (ret a).
Proof. apply acts_at_still. reflexivity. Qed.

Lemma acts_at_gets sid {A} (f : World -> A) : acts_at sid (gets f).
Proof. apply acts_at_still. reflexivity. Qed.

Lemma acts_at_Date_now sid : acts_at sid Date_now.
Proof. apply acts_at_still. reflexivity. Qed.

Lemma createSession_acts sid : acts_at sid (createSession sid).
Proof.
  intros w. unfold createSession, exec, bind, Date_now, sessions_set, ret.
  cbn [fst snd sessions with_sessions].
  apply store_step_insert, step_create.
Qed.

Lemma getSession_acts sid : acts_at sid (getSession sid).
Proof.
  intros w. rewrite getSession_sessions.
  destruct (sessions w !! sid) eqn:E; [apply store_step_refl|].
  apply store_step_insert, step_create.
Qed.

Lemma addMessage_acts sid r text : acts_at sid (addMessage sid r text).
Proof.
  intros w. destruct (addMessage_sessions sid r text w) as (t & t' & E).
  rewrite E. eapply store_step_trans; [apply getSession_acts|].
  apply store_step_insert. rewrite getSession_eval. apply step_log.
Qed.

Lemma initializeProjectSession_sessions sid name w :
  exists t1 t2 t3 : Z,
    sessions (exec (initializeProjectSession sid name) w) =
      <[sid := with_projectSession (freshProjectSession sid name t1 t2 t3)
                 (eval (getSession sid) w)]>
        (sessions (exec (getSession sid) w)).
Proof.
  eexists _, _, _. unfold initializeProjectSession. rewrite exec_bind.
  reflexivity.
Qed.

Lemma initializeProjectSession_acts sid name :
  acts_at sid (initializeProjectSession sid name).
Proof.
  intros w.
  destruct (initializeProjectSession_sessions sid name w)
    as (t1 & t2 & t3 & E).
  rewrite E. eapply store_step_trans; [apply getSession_acts|].
  apply store_step_insert. rewrite getSession_eval. apply step_init.
Qed.

(** The six writers that need a project session, in one shape. *)
Ltac writer_acts writer sid w :=
  let c := fresh "c" in
  let p := fresh "p" in
  let Hc := fresh "Hc" in
  let Hp := fresh "Hp" in
  let Hn := fresh "Hn" in
  unfold writer; rewrite exec_bind;
  destruct (sessions w !! sid) as [c|] eqn:Hc;
  [ rewrite (getSession_eval_known _ _ _ Hc),
            (getSession_exec_known _ _ _ Hc);
    destruct (projectSession c) as [p|] eqn:Hp;
    [ unfold exec, bind, Date_now, sessions_set, ret;
      cbn [fst snd sessions with_sessions];
      apply store_step_insert; rewrite Hc;
      apply (step_edit sid c p); [exact Hp|split; reflexivity]
    | apply store_step_refl ]
  | rewrite (getSession_eval_fresh _ _ Hc); cbn [projectSession freshSession];
    apply getSession_acts ].

Lemma updateProjectPhase_acts sid phase :
  acts_at sid (updateProjectPhase sid phase).
Proof. intros w. writer_acts updateProjectPhase sid w. Qed.

Lemma setRequirements_raw_acts sid r : acts_at sid (setRequirements_raw sid r).
Proof. intros w. writer_acts setRequirements_raw sid w. Qed.

Lemma setDesign_raw_acts sid d : acts_at sid (setDesign_raw sid d).
Proof. intros w. writer_acts setDesign_raw sid w. Qed.

Lemma setTasks_raw_acts sid k : acts_at sid (setTasks_raw sid k).
Proof. intros w. writer_acts setTasks_raw sid w. Qed.

Lemma addAskedQuestion_acts sid question :
  acts_at sid (addAskedQuestion sid question).
Proof. intros w. writer_acts addAskedQuestion sid w. Qed.

Lemma addUserAnswer_acts sid question answer :
  acts_at sid (addUserAnswer sid question answer).
Proof. intros w. writer_acts addUserAnswer sid w. Qed.

Lemma clearSession_acts sid : acts_at sid (clearSession sid).
Proof. intros w. apply store_step_delete. Qed.

Lemma receive_acts sid first rest : acts_at sid (receive sid first rest).
Proof.
  unfold receive.
  apply acts_at_bind; [apply getSession_acts|intros _].
  apply acts_at_bind; [apply addMessage_acts|intros _].
  apply acts_at_bind; [apply acts_at_gets|intros existing].
  apply acts_at_bind.
  - destruct (negb (present existing) && (length (first :: rest) =? 1)%nat).
    + apply acts_at_bind; [apply initializeProjectSession_acts|intros _].
      apply acts_at_ret.
    + apply acts_at_ret.
  - intros _. apply acts_at_bind; [apply acts_at_gets|intros history].
    apply acts_at_ret.
Qed.

Lemma documentStep_acts env sid dg reply :
  acts_at sid (documentStep env sid dg reply).
Proof.
  unfold documentStep.
  apply acts_at_bind; [apply acts_at_gets|intros [ps|]]; [|apply acts_at_ret].
  destruct (negb dg); [apply acts_at_ret|]. cbv zeta.
  apply acts_at_bind; [apply acts_at_gets|intros completeR].
  apply acts_at_bind; [apply acts_at_gets|intros completeD].
  apply acts_at_bind; [apply acts_at_gets|intros completeT].
  repeat match goal with
  | |- acts_at _ (if ?b then _ else _) => destruct b
  | |- acts_at _ (match ?o with Returns _ => _ | Throws _ => _ end) =>
      destruct o
  | |- acts_at _ (ret _) => apply acts_at_ret
  | |- acts_at _ (bind (setRequirements_raw _ _) _) =>
      apply acts_at_bind; [apply setRequirements_raw_acts|intros _]
  | |- acts_at _ (bind (setDesign_raw _ _) _) =>
      apply acts_at_bind; [apply setDesign_raw_acts|intros _]
  | |- acts_at _ (bind (setTasks_raw _ _) _) =>
      apply acts_at_bind; [apply setTasks_raw_acts|intros _]
  | |- acts_at _ (bind (updateProjectPhase _ _) _) =>
      apply acts_at_bind; [apply updateProjectPhase_acts|intros _]
  end.
Qed.

Lemma respond_acts sid reply g : acts_at sid (respond sid reply g).
Proof.
  unfold respond.
  apply acts_at_bind; [apply addMessage_acts|intros _].
  apply acts_at_bind; [apply acts_at_Date_now|intros t].
  apply acts_at_bind; [apply acts_at_gets|intros p].
  apply acts_at_ret.
Qed.

Lemma initializeAgents_acts sid env : acts_at sid (initializeAgents env).
Proof. apply acts_at_still, initializeAgents_sessions. Qed.

Lemma effectiveSessionId_acts sid o : acts_at sid (effectiveSessionId o).
Proof. apply acts_at_still, effectiveSessionId_sessions. Qed.

(** The handler works on one key: the body's [sessionId] when it is
    truthy, a key it makes otherwise. *)
Lemma POST_acts_key env req b w :
  json req = Returns b ->
  store_step (eval (effectiveSessionId (body_sessionId b))
                (exec (initializeAgents env) w))
    (sessions w) (sessions (exec (POST env req) w)).
Proof.
  intros Hj. unfold POST. rewrite Hj.
  destruct (negb _); [apply store_step_refl|].
  rewrite exec_bind.
  eapply store_step_trans; [apply (initializeAgents_acts _ env w)|].
  generalize (exec (initializeAgents env) w). intros w1.
  destruct (eval (initializeAgents env) w) as [[ag dg]|e];
    [|apply store_step_refl].
  destruct (messages b) as [[|first rest]|]; try apply store_step_refl.
  rewrite exec_bind.
  eapply store_step_trans;
    [apply (effectiveSessionId_acts _ (body_sessionId b) w1)|].
  generalize (eval (effectiveSessionId (body_sessionId b)) w1).
  generalize (exec (effectiveSessionId (body_sessionId b)) w1).
  intros w2 sid.
  rewrite exec_bind.
  eapply store_step_trans; [apply (receive_acts sid first rest w2)|].
  generalize (eval (receive sid first rest) w2).
  generalize (exec (receive sid first rest) w2).
  intros w3 [userMessage history]. cbn [fst snd].
  destruct (negb ag); [apply store_step_refl|].
  destruct (chat env userMessage sid history) as [reply|e];
    [|apply store_step_refl].
  rewrite exec_bind.
  eapply store_step_trans;
    [apply (documentStep_acts env sid dg reply w3)|].
  generalize (eval (documentStep env sid dg reply) w3).
  generalize (exec (documentStep env sid dg reply) w3).
  intros w4 step.
  rewrite exec_bind, exec_finish.
  apply respond_acts.
Qed.

Lemma POST_still env req e w :
  json req = Throws e -> sessions (exec (POST env req) w) = sessions w.
Proof.
  intros Hj. unfold POST. rewrite Hj.
  destruct (negb _); [reflexivity|].
  rewrite exec_bind.
  destruct (eval (initializeAgents env) w) as [[ag dg]|e'];
    apply initializeAgents_sessions.
Qed.

Lemma POST_acts env req w :
  exists sid,
    store_step sid (sessions w) (sessions (exec (POST env req) w)) /\
    forall b, json req = Returns b -> truthy (body_sessionId b) = true ->
              body_sessionId b = Some sid.
Proof.
  destruct (json req) as [b|e] eqn:Hj.
  - eexists. split; [apply (POST_acts_key env req b w Hj)|].
    intros b' Hb Ht. injection Hb as <-.
    unfold effectiveSessionId. rewrite Ht.
    destruct (body_sessionId b); [reflexivity|discriminate].
  - exists "". split; [|intros b Hb; discriminate].
    apply store_step_same, (POST_still env req e w Hj).
Qed.

Lemma store_step_evolves sid m m' : store_step sid m m' -> store_evolves m m'.
Proof.
  intros [F S] k. destruct (decide (k = sid)) as [->|Hk]; [exact S|].
  rewrite (F k Hk). apply rtc_refl.
Qed.

Lemma store_evolves_trans m1 m2 m3 :
  store_evolves m1 m2 -> store_evolves m2 m3 -> store_evolves m1 m3.
Proof. intros H1 H2 k. eapply rtc_trans; [apply H1|apply H2]. Qed.

(** A step keeps the session of a key consistent with the key. *)
Lemma ctx_step_consistent sid o o' :
  ctx_step sid o o' ->
  (forall c, o = Some c -> consistent sid c) ->
  forall c, o' = Some c -> consistent sid c.
Proof.
  intros Hstep Ho c' Hc'.
  destruct Hstep as [o t1 t2|c h m|c name t1 t2 t3|c p p' Hp Hs|o];
    try (injection Hc' as <-); try discriminate.
  - split; [reflexivity|]. intros p Hp. discriminate.
  - exact (Ho c eq_refl).
  - destruct (Ho c eq_refl) as [Hk _]. split; [exact Hk|].
    intros p Hp. injection Hp as <-. split; reflexivity.
  - destruct (Ho c eq_refl) as [Hk Hps]. split; [exact Hk|].
    intros q Hq. injection Hq as <-.
    destruct (Hps p Hp) as [H1 H2]. destruct Hs as [E1 _ E3 _].
    split; congruence.
Qed.

Lemma rtc_ctx_step_consistent sid o o' :
  rtc (ctx_step sid) o o' ->
  (forall c, o = Some c -> consistent sid c) ->
  forall c, o' = Some c -> consistent sid c.
Proof.
  induction 1 as [o|o1 o2 o3 Hstep _ IH]; [auto|].
  intros Ho. apply IH. apply (ctx_step_consistent sid o1 o2 Hstep Ho).
Qed.

Lemma store_evolves_consistent m m' :
  store_evolves m m' -> allConsistent m -> allConsistent m'.
Proof.
  intros He Hm sid c Hc.
  apply (rtc_ctx_step_consistent sid (m !! sid) (m' !! sid) (He sid));
    [|exact Hc].
  intros c0 Hc0. apply (Hm sid c0 Hc0).
Qed.

(** Every action but an import moves each key by steps. *)
Lemma act_evolves a w :
  (forall c, a <> DoImportSession c) ->
  store_evolves (sessions w) (sessions (exec (act a) w)).
Proof.
  intros Hni.
  destruct a as [sid|sid|sid r text|sid name|sid phase|sid r|sid d|sid k
                |sid q|sid q ans|sid| |c|hoursOld|env req]; cbn [act].
  - apply (store_step_evolves sid).
    apply (acts_at_bind sid); [apply createSession_acts|intros; apply acts_at_ret].
  - apply (store_step_evolves sid).
    apply (acts_at_bind sid); [apply getSession_acts|intros; apply acts_at_ret].
  - apply (store_step_evolves sid), addMessage_acts.
  - apply (store_step_evolves sid).
    apply (acts_at_bind sid);
      [apply initializeProjectSession_acts|intros; apply acts_at_ret].
  - apply (store_step_evolves sid), updateProjectPhase_acts.
  - apply (store_step_evolves sid), setRequirements_raw_acts.
  - apply (store_step_evolves sid), setDesign_raw_acts.
  - apply (store_step_evolves sid), setTasks_raw_acts.
  - apply (store_step_evolves sid), addAskedQuestion_acts.
  - apply (store_step_evolves sid), addUserAnswer_acts.
  - apply (store_step_evolves sid), clearSession_acts.
  - intros k. unfold clearAllSessions, exec. cbn [snd sessions with_sessions].
    rewrite lookup_empty. apply rtc_once, step_remove.
  - exfalso. apply (Hni c). reflexivity.
  - intros k. rewrite exec_bind, exec_ret.
    destruct (pruneOldSessions_run hoursOld w) as (E & _). rewrite E.
    rewrite lookup_difference.
    destruct (filter _ (sessions w) !! k);
      [apply rtc_once, step_remove|apply rtc_refl].
  - rewrite exec_bind, exec_ret.
    destruct (POST_acts env req w) as (sid & Hs & _).
    apply (store_step_evolves sid), Hs.
Qed.

Lemma act_consistent a w :
  importsConsistent a ->
  allConsistent (sessions w) -> allConsistent (sessions (exec (act a) w)).
Proof.
  intros Hi Hw.
  assert (Hcase : (exists c, a = DoImportSession c) \/
                  (forall c, a <> DoImportSession c))
    by (destruct a; try (right; intros c0; discriminate); left; eauto).
  destruct Hcase as [[c ->]|Hn].
  - cbn in Hi. intros sid c' Hc'.
    unfold act, importSession, sessions_set, exec in Hc'.
    cbn [snd sessions with_sessions] in Hc'.
    destruct (decide (sessionId c = sid)) as [<-|Hne].
    + rewrite lookup_insert_eq in Hc'. injection Hc' as <-. exact Hi.
    + rewrite lookup_insert_ne in Hc' by exact Hne. apply (Hw sid c' Hc').
  - apply (store_evolves_consistent (sessions w)); [|exact Hw].
    apply act_evolves, Hn.
Qed.

Lemma actAll_consistent history : forall w,
  Forall importsConsistent history ->
  allConsistent (sessions w) ->
  allConsistent (sessions (exec (actAll history) w)).
Proof.
  induction history as [|a more IH]; intros w Hi Hw; [exact Hw|].
  cbn [actAll]. rewrite exec_bind.
  apply IH; [apply (Forall_inv_tail Hi)|].
  apply act_consistent; [apply (Forall_inv Hi)|exact Hw].
Qed.

(** ** The rest of the world *)

Lemma rest_kept_refl w : rest_kept w w.
Proof. repeat split; reflexivity. Qed.

Lemma rest_kept_trans w1 w2 w3 :
  rest_kept w1 w2 -> rest_kept w2 w3 -> rest_kept w1 w3.
Proof.
  intros (A1 & B1 & C1 & D1 & E1) (A2 & B2 & C2 & D2 & E2).
  repeat split; try congruence. lia.
Qed.

Lemma keeps_rest_bind {A B} (m : M A) (k : A -> M B) :
  keeps_rest m -> (forall a, keeps_rest (k a)) -> keeps_rest (bind m k).
Proof.
  intros Hm Hk w. rewrite exec_bind.
  eapply rest_kept_trans; [apply Hm|apply Hk].
Qed.

Lemma keeps_rest_ret {A} (a : A) : keeps_rest (ret a).
Proof. intros w. apply rest_kept_refl. Qed.

Lemma keeps_rest_gets {A} (f : World -> A) : keeps_rest (gets f).
Proof. intros w. apply rest_kept_refl. Qed.

Lemma keeps_rest_Date_now : keeps_rest Date_now.
Proof. intros w. repeat split; cbn; lia. Qed.

Lemma keeps_rest_sessions_set k c : keeps_rest (sessions_set k c).
Proof. intros w. repeat split; reflexivity. Qed.

(** The manager's operations are sequences of these four. *)
Ltac keeps_rest_steps :=
  repeat first
    [ apply keeps_rest_ret
    | apply keeps_rest_gets
    | apply keeps_rest_Date_now
    | apply keeps_rest_sessions_set
    | apply keeps_rest_bind; [|intros ?]
    | match goal with
      | |- keeps_rest (match ?o with Some _ => _ | None => _ end) =>
          destruct o
      | |- keeps_rest (if ?b then _ else _) => destruct b
      end ].

Lemma createSession_rest sid : keeps_rest (createSession sid).
Proof. unfold createSession. keeps_rest_steps. Qed.

Lemma getSession_rest sid : keeps_rest (getSession sid).
Proof.
  unfold getSession. keeps_rest_steps.
Qed.

Lemma addMessage_rest sid r text : keeps_rest (addMessage sid r text).
Proof.
  unfold addMessage.
  apply keeps_rest_bind; [apply getSession_rest|intros ?]. keeps_rest_steps.
Qed.

Lemma initializeProjectSession_rest sid name :
  keeps_rest (initializeProjectSession sid name).
Proof.
  unfold initializeProjectSession.
  apply keeps_rest_bind; [apply getSession_rest|intros ?]. keeps_rest_steps.
Qed.

Ltac writer_rest writer :=
  unfold writer;
  apply keeps_rest_bind; [apply getSession_rest|intros ?]; keeps_rest_steps.

Lemma updateProjectPhase_rest sid phase :
  keeps_rest (updateProjectPhase sid phase).
Proof. writer_rest updateProjectPhase. Qed.

Lemma setRequirements_raw_rest sid r : keeps_rest (setRequirements_raw sid r).
Proof. writer_rest setRequirements_raw. Qed.

Lemma setDesign_raw_rest sid d : keeps_rest (setDesign_raw sid d).
Proof. writer_rest setDesign_raw. Qed.

Lemma setTasks_raw_rest sid k : keeps_rest (setTasks_raw sid k).
Proof. writer_rest setTasks_raw. Qed.

Lemma addAskedQuestion_rest sid q : keeps_rest (addAskedQuestion sid q).
Proof. writer_rest addAskedQuestion. Qed.

Lemma addUserAnswer_rest sid q a : keeps_rest (addUserAnswer sid q a).
Proof. writer_rest addUserAnswer. Qed.

Lemma effectiveSessionId_rest o : keeps_rest (effectiveSessionId o).
Proof. unfold effectiveSessionId. keeps_rest_steps. Qed.

Lemma receive_rest sid first rest : keeps_rest (receive sid first rest).
Proof.
  unfold receive.
  apply keeps_rest_bind; [apply getSession_rest|intros _].
  apply keeps_rest_bind; [apply addMessage_rest|intros _].
  apply keeps_rest_bind; [apply keeps_rest_gets|intros existing].
  apply keeps_rest_bind.
  - destruct (negb (present existing) && (length (first :: rest) =? 1)%nat).
    + apply keeps_rest_bind; [apply initializeProjectSession_rest|intros _].
      apply keeps_rest_ret.
    + apply keeps_rest_ret.
  - intros _. keeps_rest_steps.
Qed.

Lemma documentStep_rest env sid dg reply :
  keeps_rest (documentStep env sid dg reply).
Proof.
  unfold documentStep.
  apply keeps_rest_bind; [apply keeps_rest_gets|intros [ps|]];
    [|apply keeps_rest_ret].
  destruct (negb dg); [apply keeps_rest_ret|]. cbv zeta.
  apply keeps_rest_bind; [apply keeps_rest_gets|intros completeR].
  apply keeps_rest_bind; [apply keeps_rest_gets|intros completeD].
  apply keeps_rest_bind; [apply keeps_rest_gets|intros completeT].
  repeat match goal with
  | |- keeps_rest (if ?b then _ else _) => destruct b
  | |- keeps_rest (match ?o with Returns _ => _ | Throws _ => _ end) =>
      destruct o
  | |- keeps_rest (ret _) => apply keeps_rest_ret
  | |- keeps_rest (bind (setRequirements_raw _ _) _) =>
      apply keeps_rest_bind; [apply setRequirements_raw_rest|intros _]
  | |- keeps_rest (bind (setDesign_raw _ _) _) =>
      apply keeps_rest_bind; [apply setDesign_raw_rest|intros _]
  | |- keeps_rest (bind (setTasks_raw _ _) _) =>
      apply keeps_rest_bind; [apply setTasks_raw_rest|intros _]
  | |- keeps_rest (bind (updateProjectPhase _ _) _) =>
      apply keeps_rest_bind; [apply updateProjectPhase_rest|intros _]
  end.
Qed.

Lemma respond_rest sid reply g : keeps_rest (respond sid reply g).
Proof.
  unfold respond.
  apply keeps_rest_bind; [apply addMessage_rest|intros _]. keeps_rest_steps.
Qed.

(** ** The runs of the handler *)

(** [initializeAgents] never returns without an agent, and it leaves
    the agent in place. *)
Lemma initializeAgents_returns env w ag dg :
  eval (initializeAgents env) w = Returns (ag, dg) ->
  ag = true /\
  agent (exec (initializeAgents env) w) = true /\
  documentGenerator (exec (initializeAgents env) w) = dg.
Proof.
  unfold initializeAgents, eval, exec, bind, gets, ret, set_agents.
  cbn [fst snd].
  destruct (agent w) eqn:Ha.
  - intros E. injection E as <- <-. auto.
  - destruct (new_TracerAgent env); [|discriminate]. cbn [fst snd].
    destruct (new_DocumentGeneratorChain env); [|discriminate].
    cbn [fst snd]. intros E. injection E as <- <-. auto.
Qed.

(** The three ways a request ends: before it reaches the store, after
    the user's text is logged with the reply missing, or with a reply. *)
Lemma POST_run env req w :
  let w1 := exec (initializeAgents env) w in
  (exists r, POST env req w = ({| response := r; calls := [] |}, w) /\
             status r = 500 /\ documentOf r = None /\ snapshotOf r = None /\
             truthy (OPENROUTER_API_KEY env) || truthy (OPENAI_API_KEY env)
               = false) \/
  (exists r, POST env req w = ({| response := r; calls := [] |}, w1) /\
             (status r = 500 \/ status r = 400) /\
             documentOf r = None /\ snapshotOf r = None) \/
  (exists b first rest dg,
     truthy (OPENROUTER_API_KEY env) || truthy (OPENAI_API_KEY env) = true /\
     eval (initializeAgents env) w = Returns (true, dg) /\
     json req = Returns b /\ messages b = Some (first :: rest) /\
     let sid := eval (effectiveSessionId (body_sessionId b)) w1 in
     let w2 := exec (effectiveSessionId (body_sessionId b)) w1 in
     let received := eval (receive sid first rest) w2 in
     let w3 := exec (receive sid first rest) w2 in
     ((exists e,
         chat env (fst received) sid (snd received) = Throws e /\
         POST env req w =
           ({| response := server_error e;
               calls := [CallChat (fst received) sid (snd received)] |},
            w3)) \/
      (exists reply,
         chat env (fst received) sid (snd received) = Returns reply /\
         POST env req w =
           (let step := documentStep env sid dg reply w3 in
            let r := respond sid (fst (fst (fst step)))
                       (snd (fst (fst step))) (snd step) in
            ({| response := fst r;
                calls := CallChat (fst received) sid (snd received)
                           :: snd (fst step) |}, snd r))))).
Proof.
  intros w1. remember (POST env req w) as out eqn:Hout.
  unfold POST in Hout.
  destruct (truthy (OPENROUTER_API_KEY env) || truthy (OPENAI_API_KEY env))
    eqn:Hkey; cbn [negb] in Hout.
  { right. unfold bind at 1 in Hout.
    fold (eval (initializeAgents env) w) in Hout.
    fold (exec (initializeAgents env) w) in Hout. fold w1 in Hout.
    destruct (eval (initializeAgents env) w) as [[ag dg]|e] eqn:Hag.
    2: { left. eexists. split; [exact Hout|]. split; [left; reflexivity|].
         split; reflexivity. }
    destruct (initializeAgents_returns env w ag dg Hag) as (-> & _).
    destruct (json req) as [b|e] eqn:Hjson.
    2: { left. eexists. split; [exact Hout|]. split; [left; reflexivity|].
         split; reflexivity. }
    destruct (messages b) as [[|first rest]|] eqn:Hmsg.
    1, 3: left; eexists; (split; [exact Hout|]);
      (split; [right; reflexivity|]); split; reflexivity.
    right. exists b, first, rest, dg.
    split; [reflexivity|]. split; [reflexivity|].
    split; [reflexivity|]. split; [exact Hmsg|].
    cbv zeta. unfold bind at 1 in Hout.
    fold (eval (effectiveSessionId (body_sessionId b)) w1) in Hout.
    fold (exec (effectiveSessionId (body_sessionId b)) w1) in Hout.
    set (sid := eval (effectiveSessionId (body_sessionId b)) w1) in *.
    set (w2 := exec (effectiveSessionId (body_sessionId b)) w1) in *.
    unfold bind at 1 in Hout.
    fold (eval (receive sid first rest) w2) in Hout.
    fold (exec (receive sid first rest) w2) in Hout.
    cbn [negb] in Hout.
    destruct (chat env (fst (eval (receive sid first rest) w2)) sid
                (snd (eval (receive sid first rest) w2))) as [reply|e].
    - right. exists reply. split; [reflexivity|exact Hout].
    - left. exists e. split; [reflexivity|exact Hout]. }
  left. eexists. split; [exact Hout|]. repeat split; reflexivity.
Qed.

Lemma receive_keeps_existing sid first rest w sid' p :
  getProjectSession sid' w = Some p ->
  getProjectSession sid' (exec (receive sid first rest) w) = Some p.
Proof.
  intros Hp.
  destruct (receive_projectSession sid first rest w) as (t1 & t2 & t3 & E).
  rewrite E. destruct (decide (sid = sid')) as [<-|]; [|exact Hp].
  rewrite Hp. reflexivity.
Qed.

(** A document that is due once the request is received was due
    before: the project session that [receive] starts has no payload. *)
Lemma due_before_receive sid first rest w sid' phase p :
  due sid' phase p (exec (receive sid first rest) w) -> due sid' phase p w.
Proof.
  intros (Hp & Hph & Hne & Hc).
  destruct (receive_projectSession sid first rest w) as (t1 & t2 & t3 & E).
  assert (Hsame : getProjectSession sid' w = Some p).
  { rewrite E in Hp. destruct (decide (sid = sid')) as [<-|]; [|exact Hp].
    destruct (getProjectSession sid w) as [q|] eqn:Hq; [exact Hp|].
    destruct rest; [|discriminate].
    injection Hp as <-. exfalso.
    unfold isPhaseComplete in Hc. rewrite E in Hc.
    rewrite decide_True in Hc by reflexivity.
    try rewrite Hq in Hc. destruct phase; discriminate. }
  repeat split; auto.
  unfold isPhaseComplete in *. rewrite Hp in Hc. rewrite Hsame. exact Hc.
Qed.

Lemma conclude_run env sid dg reply message history w :
  conclude env sid dg reply message history w =
    (let step := documentStep env sid dg reply w in
     let r := respond sid (fst (fst (fst step))) (snd (fst (fst step)))
                (snd step) in
     ({| response := fst r;
         calls := CallChat message sid history :: snd (fst step) |}, snd r)).
Proof. reflexivity. Qed.

Lemma conclude_outcomes env sid dg reply message history w :
  (documentOf (response (eval (conclude env sid dg reply message history) w))
     = None /\
   snapshotOf (response (eval (conclude env sid dg reply message history) w))
     = None /\
   (forall c,
      In c (calls (eval (conclude env sid dg reply message history) w)) ->
      isGeneration c = true ->
      dg = true /\
      exists phase p e, due sid phase p w /\
                        generation env phase p = Throws e) /\
   forall s,
     getProjectSession s (exec (conclude env sid dg reply message history) w)
     = getProjectSession s w) \/
  (exists phase p doc (t t1 t2 : Z),
     dg = true /\
     due sid phase p w /\
     generation env phase p = Returns doc /\
     status (response (eval (conclude env sid dg reply message history) w))
       = 200 /\
     documentOf (response (eval (conclude env sid dg reply message history) w))
       = Some {| doc_type := phase; doc_content := doc |} /\
     snapshotOf (response (eval (conclude env sid dg reply message history) w))
       = Some (with_phase (successor phase) t1 t2 (restamp phase t p)) /\
     forall s,
       getProjectSession s
         (exec (conclude env sid dg reply message history) w) =
         if decide (sid = s)
         then Some (with_phase (successor phase) t1 t2 (restamp phase t p))
         else getProjectSession s w).
Proof.
  unfold eval, exec.
  remember (conclude env sid dg reply message history w) as out eqn:Hout.
  rewrite conclude_run in Hout.
  destruct (documentStep_cases env sid dg reply w)
    as [E|(phase & p & Hd & -> & [(e & Hg)|(doc & Hg)])].
  - left. rewrite E in Hout. cbn [fst snd] in Hout.
    destruct (respond_eval sid reply None w) as (tid & Hr).
    pose proof (fun s => respond_projectSession sid reply None s w) as Hps.
    unfold eval in Hr. unfold exec in Hps.
    destruct (respond sid reply None w) as [r w5].
    cbn [fst snd] in Hout, Hr, Hps. subst out r.
    cbn [fst snd response calls].
    split; [reflexivity|]. split; [reflexivity|].
    split; [intros c [<-|[]] Hg; discriminate|].
    intros s. apply Hps.
  - left. rewrite (documentStep_throws _ _ _ _ _ _ _ Hd Hg) in Hout.
    cbn [fst snd] in Hout.
    destruct (respond_eval sid reply None w) as (tid & Hr).
    pose proof (fun s => respond_projectSession sid reply None s w) as Hps.
    unfold eval in Hr. unfold exec in Hps.
    destruct (respond sid reply None w) as [r w5].
    cbn [fst snd] in Hout, Hr, Hps. subst out r.
    cbn [fst snd response calls].
    split; [reflexivity|]. split; [reflexivity|].
    split; [|intros s; apply Hps].
    intros c [<-|Hc] Hgen; [discriminate|]. split; [reflexivity|].
    exists phase, p, e. auto.
  - right.
    destruct (documentStep_returns env sid reply w phase p doc Hd Hg)
      as (Hev & t & t1 & t2 & Hex).
    exists phase, p, doc, t, t1, t2.
    split; [reflexivity|]. split; [exact Hd|]. split; [exact Hg|].
    unfold eval, exec in Hev, Hex.
    destruct (documentStep env sid true reply w) as [step w4].
    cbn [fst snd] in Hout, Hev, Hex. subst step. cbn [fst snd] in Hout.
    destruct (respond_eval sid (reply +:+ noteOf phase)
                (Some {| doc_type := phase; doc_content := doc |}) w4)
      as (tid & Hr).
    pose proof (fun s => respond_projectSession sid (reply +:+ noteOf phase)
                  (Some {| doc_type := phase; doc_content := doc |}) s w4)
      as Hps.
    unfold eval in Hr. unfold exec in Hps.
    destruct (respond sid (reply +:+ noteOf phase)
                (Some {| doc_type := phase; doc_content := doc |}) w4)
      as [r w5].
    cbn [fst snd] in Hout, Hr, Hps. subst out r.
    cbn [fst snd response calls].
    split; [reflexivity|]. split; [reflexivity|].
    split.
    + unfold snapshotOf. cbn. rewrite Hex.
      destruct (decide (sid = sid)); [reflexivity|contradiction].
    + intros s. rewrite Hps. apply Hex.
Qed.

Lemma POST_outcomes env req w :
  (documentOf (response (eval (POST env req) w)) = None /\
   snapshotOf (response (eval (POST env req) w)) = None /\
   (forall c, In c (calls (eval (POST env req) w)) ->
      isGeneration c = true ->
      documentGenerator (exec (initializeAgents env) w) = true /\
      exists sid phase p e, due sid phase p w /\
                            generation env phase p = Throws e) /\
   forall sid,
     getProjectSession sid (exec (POST env req) w) = getProjectSession sid w \/
     (getProjectSession sid w = None /\
      exists t1 t2 t3 : Z,
        getProjectSession sid (exec (POST env req) w)
        = Some (freshProjectSession sid "New Project" t1 t2 t3))) \/
  (exists sid phase p doc (t t1 t2 : Z),
     documentGenerator (exec (initializeAgents env) w) = true /\
     due sid phase p w /\
     generation env phase p = Returns doc /\
     status (response (eval (POST env req) w)) = 200 /\
     documentOf (response (eval (POST env req) w))
       = Some {| doc_type := phase; doc_content := doc |} /\
     snapshotOf (response (eval (POST env req) w))
       = Some (with_phase (successor phase) t1 t2 (restamp phase t p)) /\
     forall sid',
       getProjectSession sid' (exec (POST env req) w) =
         if decide (sid = sid')
         then Some (with_phase (successor phase) t1 t2 (restamp phase t p))
         else getProjectSession sid' w).
Proof.
  pose proof (POST_run env req w) as Hrun. cbv zeta in Hrun.
  assert (H1 : forall s, getProjectSession s (exec (initializeAgents env) w)
                         = getProjectSession s w).
  { intros s. apply getProjectSession_ext, initializeAgents_sessions. }
  destruct Hrun as [(r & E & _ & Hd & Hs & _)|[(r & E & _ & Hd & Hs)|Hrun]].
  - left. unfold eval, exec. rewrite E. cbn [fst snd response calls].
    split; [exact Hd|]. split; [exact Hs|].
    split; [intros c []|auto].
  - left. unfold eval, exec. rewrite E. cbn [fst snd response calls].
    split; [exact Hd|]. split; [exact Hs|].
    split; [intros c []|]. intros sid. left. apply H1.
  - destruct Hrun as (b & first & rest & dg & _ & Hag & _ & _ & Hrun).
    destruct (initializeAgents_returns env w true dg Hag) as (_ & _ & Hdg).
    remember (exec (initializeAgents env) w) as w1 eqn:Hw1.
    remember (eval (effectiveSessionId (body_sessionId b)) w1) as sid.
    remember (exec (effectiveSessionId (body_sessionId b)) w1) as w2 eqn:Hw2.
    assert (H2 : forall s, getProjectSession s w2 = getProjectSession s w).
    { intros s. rewrite <- H1, Hw2. apply getProjectSession_ext.
      apply effectiveSessionId_sessions. }
    remember (eval (receive sid first rest) w2) as received.
    assert (Hrec := receive_projectSession sid first rest w2).
    assert (Hdue0 := due_before_receive sid first rest w2).
    remember (exec (receive sid first rest) w2) as w3 eqn:Hw3.
    clear Hw1 Hw2 Hw3 Heqsid Heqreceived.
    destruct Hrec as (u1 & u2 & u3 & Hrec).
    assert (H3 : forall s,
      getProjectSession s w3 = getProjectSession s w \/
      (getProjectSession s w = None /\
       exists t1 t2 t3 : Z,
         getProjectSession s w3
         = Some (freshProjectSession s "New Project" t1 t2 t3))).
    { intros s. rewrite Hrec.
      destruct (decide (sid = s)) as [<-|]; [|left; apply H2].
      rewrite H2. destruct (getProjectSession sid w) as [q|]; [left; auto|].
      destruct rest; [right|left; reflexivity].
      split; [reflexivity|]. eauto. }
    assert (Hdue : forall s phase p, due s phase p w3 -> due s phase p w).
    { intros s phase p Hd.
      apply (due_ext s phase p w2); [symmetry; apply H2|].
      apply Hdue0. exact Hd. }
    destruct Hrun as [(e & _ & E)|(reply & _ & E)].
    + left. unfold eval, exec. rewrite E. cbn [fst snd response calls].
      split; [reflexivity|]. split; [reflexivity|].
      split; [|exact H3].
      intros c [<-|[]] Hg. discriminate.
    + change (POST env req w
              = conclude env sid dg reply (fst received) (snd received) w3)
        in E.
      unfold eval, exec. rewrite E. clear E.
      destruct (conclude_outcomes env sid dg reply (fst received)
                  (snd received) w3)
        as [(Hd & Hs & Hc & Hp)
           |(phase & p & doc & t & t1 & t2 & Hdgt & Hd & Hg & Hst & Hdoc
             & Hsn & Hp)].
      * left. split; [exact Hd|]. split; [exact Hs|]. split.
        { intros c Hin Hgen.
          destruct (Hc c Hin Hgen) as (Hdgt & ph & p & e & Hd' & Hg).
          split; [congruence|].
          exists sid, ph, p, e. split; [apply Hdue, Hd'|exact Hg]. }
        intros s. unfold exec in Hp. rewrite Hp. apply H3.
      * right. exists sid, phase, p, doc, t, t1, t2.
        split; [congruence|].
        split; [apply Hdue, Hd|]. split; [exact Hg|].
        split; [exact Hst|]. split; [exact Hdoc|]. split; [exact Hsn|].
        intros s. unfold exec in Hp. rewrite Hp.
        destruct (decide (sid = s)); [reflexivity|].
        rewrite Hrec. destruct (decide (sid = s)); [contradiction|apply H2].
Qed.

Lemma blank_not_due sid phase p w : due sid phase p w -> ~ blank p.
Proof.
  intros (Hp & Hph & Hne & Hc) (B1 & B2 & B3 & B4 & _).
  unfold isPhaseComplete in Hc. rewrite Hp in Hc.
  destruct phase; try contradiction;
    rewrite ?B2, ?B3, ?B4 in Hc; discriminate.
Qed.

Lemma blank_fresh sid name t1 t2 t3 :
  blank (freshProjectSession sid name t1 t2 t3).
Proof. repeat split. Qed.

(** A request on a store of blank project sessions: no document, no
    call to a generator, and the store stays one of blank sessions. *)
Lemma POST_blank env req w :
  allBlank w ->
  allBlank (exec (POST env req) w) /\
  documentOf (response (eval (POST env req) w)) = None /\
  forallb (fun c => negb (isGeneration c)) (calls (eval (POST env req) w))
    = true.
Proof.
  intros Hb.
  destruct (POST_outcomes env req w)
    as [(Hd & _ & Hc & Hp)|(sid & phase & p & doc & t & t1 & t2 & _ & Hdue & _)].
  - split; [|split; [exact Hd|]].
    + intros sid q Hq. destruct (Hp sid) as [E|(_ & u1 & u2 & u3 & E)].
      * apply (Hb sid). rewrite <- E. exact Hq.
      * rewrite E in Hq. injection Hq as <-. apply blank_fresh.
    + apply forallb_forall. intros c Hin.
      destruct (isGeneration c) eqn:Hg; [|reflexivity].
      destruct (Hc c Hin Hg) as (_ & sid & phase & p & e & Hdue & _).
      exfalso. apply (blank_not_due _ _ _ _ Hdue). apply (Hb sid), Hdue.
  - exfalso. apply (blank_not_due _ _ _ _ Hdue). apply (Hb sid), Hdue.
Qed.

Lemma conclude_rest env sid dg reply message history :
  keeps_rest (conclude env sid dg reply message history).
Proof.
  unfold conclude.
  apply keeps_rest_bind; [apply documentStep_rest|intros step].
  apply keeps_rest_bind; [apply respond_rest|intros r].
  apply keeps_rest_ret.
Qed.

(** The rest of the world over a request: as [initializeAgents] leaves
    it, the clock apart. *)
Lemma POST_rest env req w :
  exec (POST env req) w = w \/
  rest_kept (exec (initializeAgents env) w) (exec (POST env req) w).
Proof.
  pose proof (POST_run env req w) as Hrun. cbv zeta in Hrun.
  destruct Hrun as [(r & E & _)|[(r & E & _)|Hrun]].
  - left. unfold exec. rewrite E. reflexivity.
  - right. unfold exec at 2. rewrite E. apply rest_kept_refl.
  - right. destruct Hrun as (b & first & rest & dg & _ & _ & _ & _ & Hrun).
    remember (exec (initializeAgents env) w) as w1 eqn:Hw1.
    assert (R2 := effectiveSessionId_rest (body_sessionId b) w1).
    remember (eval (effectiveSessionId (body_sessionId b)) w1) as sid.
    remember (exec (effectiveSessionId (body_sessionId b)) w1) as w2.
    assert (R3 := receive_rest sid first rest w2).
    remember (eval (receive sid first rest) w2) as received.
    remember (exec (receive sid first rest) w2) as w3.
    clear Hw1 Heqsid Heqw2 Heqreceived Heqw3.
    assert (R13 : rest_kept w1 w3) by (eapply rest_kept_trans; eassumption).
    destruct Hrun as [(e & _ & E)|(reply & _ & E)].
    + unfold exec. rewrite E. exact R13.
    + change (POST env req w
              = conclude env sid dg reply (fst received) (snd received) w3)
        in E.
      unfold exec. rewrite E.
      eapply rest_kept_trans; [exact R13|].
      apply (conclude_rest env sid dg reply (fst received) (snd received) w3).
Qed.

Lemma initializeAgents_settled env w :
  agent w = true -> initializeAgents env w = (Returns (true, documentGenerator w), w).
Proof.
  intros H. unfold initializeAgents, bind, gets, ret. cbn [fst snd].
  rewrite H. reflexivity.
Qed.

(** With the agent in place and the generator missing, a request
    leaves both as they are and generates nothing. *)
Lemma POST_without_generator env req w :
  agent w = true -> documentGenerator w = false ->
  agent (exec (POST env req) w) = true /\
  documentGenerator (exec (POST env req) w) = false /\
  documentOf (response (eval (POST env req) w)) = None /\
  forallb (fun c => negb (isGeneration c)) (calls (eval (POST env req) w))
    = true.
Proof.
  intros Ha Hd.
  assert (Hw1 : exec (initializeAgents env) w = w)
    by (unfold exec; rewrite (initializeAgents_settled env w Ha); reflexivity).
  split; [|split].
  - destruct (POST_rest env req w) as [E|(_ & E & _)];
      [rewrite E; exact Ha|]. rewrite E, Hw1. exact Ha.
  - destruct (POST_rest env req w) as [E|(_ & _ & E & _)];
      [rewrite E; exact Hd|]. rewrite E, Hw1. exact Hd.
  - destruct (POST_outcomes env req w)
      as [(Hdoc & _ & Hc & _)|(sid & ph & p & doc & t & t1 & t2 & Hg & _)].
    + split; [exact Hdoc|]. apply forallb_forall. intros c Hin.
      destruct (isGeneration c) eqn:Hgen; [|reflexivity].
      destruct (Hc c Hin Hgen) as (Hg & _). rewrite Hw1 in Hg. congruence.
    + rewrite Hw1 in Hg. congruence.
Qed.

Lemma serve_without_generator requests : forall w,
  agent w = true -> documentGenerator w = false ->
  agent (exec (serve requests) w) = true /\
  documentGenerator (exec (serve requests) w) = false /\
  Forall (fun h =>
            documentOf (response h) = None /\
            forallb (fun c => negb (isGeneration c)) (calls h) = true)
    (eval (serve requests) w).
Proof.
  induction requests as [|[env req] more IH]; intros w Ha Hd.
  - split; [exact Ha|split; [exact Hd|constructor]].
  - destruct (POST_without_generator env req w Ha Hd) as (Ha1 & Hd1 & Hdoc & Hc).
    destruct (IH _ Ha1 Hd1) as (Ha2 & Hd2 & Hall).
    cbn [serve]. rewrite exec_bind, exec_bind, exec_ret.
    split; [exact Ha2|]. split; [exact Hd2|].
    rewrite eval_bind, eval_bind. unfold eval at 1, ret. cbn [fst].
    constructor; [split; assumption|exact Hall].
Qed.

(** ** The log over a request *)

Lemma initializeAgents_cap env w :
  maxMessagesPerSession (exec (initializeAgents env) w)
  = maxMessagesPerSession w.
Proof.
  unfold initializeAgents, exec, bind, gets, ret, set_agents. cbn [fst snd].
  destruct (agent w); [reflexivity|].
  destruct (new_TracerAgent env); [|reflexivity]. cbn [fst snd].
  destruct (new_DocumentGeneratorChain env); reflexivity.
Qed.

Lemma initializeAgents_clock env w :
  clock (exec (initializeAgents env) w) = clock w /\
  ticks (exec (initializeAgents env) w) = ticks w.
Proof.
  unfold initializeAgents, exec, bind, gets, ret, set_agents. cbn [fst snd].
  destruct (agent w); [auto|].
  destruct (new_TracerAgent env); [|auto]. cbn [fst snd].
  destruct (new_DocumentGeneratorChain env); auto.
Qed.

Lemma sessionKey_initializeAgents env b w :
  eval (effectiveSessionId (body_sessionId b)) (exec (initializeAgents env) w)
  = sessionKey b w.
Proof.
  destruct (initializeAgents_clock env w) as (Hc & Ht).
  unfold sessionKey, effectiveSessionId.
  destruct (truthy (body_sessionId b)); [reflexivity|].
  unfold eval, bind, Date_now, ret. cbn [fst snd]. rewrite Hc, Ht.
  reflexivity.
Qed.

Lemma getConversationHistory_ext sid w w' :
  sessions w' = sessions w ->
  getConversationHistory sid w' = getConversationHistory sid w.
Proof. intros E. unfold getConversationHistory. rewrite E. reflexivity. Qed.

Lemma receive_eval sid first rest w :
  eval (receive sid first rest) w =
    (textOf (lastMessage first rest),
     getConversationHistory sid (exec (receive sid first rest) w)).
Proof. reflexivity. Qed.

(** What [receive] gives the agent and leaves in the log: the old log
    with the user's text pushed and trimmed. *)
Lemma receive_history sid first rest w :
  exists t : Z,
    eval (receive sid first rest) w =
      (textOf (lastMessage first rest),
       trim (maxMessagesPerSession w)
         (getConversationHistory sid w
            ++ [entryOf User (textOf (lastMessage first rest)) t])) /\
    forall sid',
      getConversationHistory sid' (exec (receive sid first rest) w) =
        if decide (sid = sid')
        then trim (maxMessagesPerSession w)
               (getConversationHistory sid w
                  ++ [entryOf User (textOf (lastMessage first rest)) t])
        else getConversationHistory sid' w.
Proof.
  set (w1 := exec (getSession sid) w).
  set (text := textOf (lastMessage first rest)).
  destruct (addMessage_history sid User text sid w1) as (t & Ht).
  set (w2 := exec (addMessage sid User text) w1) in *.
  assert (H2 : forall sid',
    getConversationHistory sid' w2 =
      if decide (sid = sid')
      then trim (maxMessagesPerSession w)
             (getConversationHistory sid w ++ [entryOf User text t])
      else getConversationHistory sid' w).
  { intros sid'.
    destruct (addMessage_history sid User text sid' w1) as (t' & Ht').
    fold w2 in Ht'.
    destruct (decide (sid = sid')) as [<-|Hne].
    - rewrite decide_True in Ht by reflexivity. rewrite Ht.
      unfold w1. rewrite getSession_cap, getSession_history. reflexivity.
    - rewrite Ht'. apply getSession_history. }
  exists t.
  assert (Hrun : forall sid',
    getConversationHistory sid' (exec (receive sid first rest) w)
    = getConversationHistory sid' w2).
  { intros sid'. unfold receive. rewrite exec_bind. fold w1.
    rewrite exec_bind. fold text. fold w2.
    rewrite exec_bind, exec_gets, eval_gets. rewrite exec_bind.
    destruct (negb (present (getProjectSession sid w2))
              && (length (first :: rest) =? 1)%nat).
    - rewrite exec_bind, exec_ret, exec_bind, exec_gets, exec_ret.
      apply initializeProjectSession_history.
    - rewrite exec_ret, exec_bind, exec_gets, exec_ret. reflexivity. }
  split.
  - rewrite receive_eval. f_equal.
    rewrite Hrun, H2, decide_True by reflexivity. reflexivity.
  - intros sid'. rewrite Hrun. apply H2.
Qed.

(** The run of a request that reaches the store under a given key. *)
Lemma POST_received env req b first rest dg sid w :
  truthy (OPENROUTER_API_KEY env) || truthy (OPENAI_API_KEY env) = true ->
  eval (initializeAgents env) w = Returns (true, dg) ->
  json req = Returns b ->
  messages b = Some (first :: rest) ->
  body_sessionId b = Some sid -> sid <> "" ->
  POST env req w =
    (let w1 := exec (initializeAgents env) w in
     let received := eval (receive sid first rest) w1 in
     let w3 := exec (receive sid first rest) w1 in
     match chat env (fst received) sid (snd received) with
     | Throws e =>
         ({| response := server_error e;
             calls := [CallChat (fst received) sid (snd received)] |}, w3)
     | Returns reply =>
         conclude env sid dg reply (fst received) (snd received) w3
     end).
Proof.
  intros Hkey Hag Hjson Hmsg Hsid Hne.
  unfold POST. rewrite Hkey. cbn [negb].
  unfold bind at 1. fold (eval (initializeAgents env) w).
  fold (exec (initializeAgents env) w). rewrite Hag, Hjson, Hmsg, Hsid.
  unfold bind at 1.
  rewrite (effectiveSessionId_given sid (exec (initializeAgents env) w) Hne).
  cbn [fst snd]. unfold bind at 1.
  fold (eval (receive sid first rest) (exec (initializeAgents env) w)).
  fold (exec (receive sid first rest) (exec (initializeAgents env) w)).
  cbn [negb]. cbv zeta.
  destruct (chat env _ sid _); reflexivity.
Qed.

Lemma documentStep_calls env sid dg reply w c :
  In c (snd (eval (documentStep env sid dg reply) w)) ->
  isGeneration c = true.
Proof.
  unfold eval.
  destruct (documentStep_cases env sid dg reply w)
    as [E|(phase & p & Hd & -> & [(e & Hg)|(doc & Hg)])].
  - rewrite E. intros [].
  - rewrite (documentStep_throws _ _ _ _ _ _ _ Hd Hg). cbn [fst snd].
    destruct Hd as (_ & _ & Hne & _).
    destruct phase; try contradiction; cbn; intros [<-|[]]; reflexivity.
  - rewrite (documentStep_returns_run _ _ _ _ _ _ _ Hd Hg).
    unfold bind, ret. cbn [fst snd].
    destruct Hd as (_ & _ & Hne & _).
    destruct phase; try contradiction; cbn; intros [<-|[]]; reflexivity.
Qed.

Lemma last_trim cap (l : list Entry) e :
  1 <= cap -> last (trim cap (l ++ [e])) = Some e.
Proof.
  intros Hcap. rewrite trim_keepLast by exact Hcap. unfold keepLast.
  rewrite length_app. cbn [length].
  rewrite drop_app_le by lia.
  rewrite last_app. reflexivity.
Qed.

(** The log after [respond]: the assistant's reply pushed and the log
    trimmed, on the key of the request. *)
Lemma respond_history sid reply g w :
  exists t : Z, forall sid',
    getConversationHistory sid' (exec (respond sid reply g) w) =
      if decide (sid = sid')
      then trim (maxMessagesPerSession w)
             (getConversationHistory sid w ++ [entryOf Assistant reply t])
      else getConversationHistory sid' w.
Proof.
  destruct (addMessage_history sid Assistant reply sid w) as (t & Ht).
  exists t. intros sid'.
  transitivity
    (getConversationHistory sid' (exec (addMessage sid Assistant reply) w)).
  { apply getConversationHistory_ext. reflexivity. }
  destruct (decide (sid = sid')) as [<-|Hne].
  - rewrite Ht, decide_True by reflexivity. reflexivity.
  - destruct (addMessage_history sid Assistant reply sid' w) as (t' & Ht').
    rewrite Ht', decide_False by exact Hne. reflexivity.
Qed.

(** The end of a request on a key whose project session has nothing
    due: the reply goes out as it came, with no document. *)
Lemma conclude_idle env sid dg reply message history w :
  (forall phase p, due sid phase p w -> dg = false) ->
  conclude env sid dg reply message history w =
    (let r := respond sid reply None w in
     ({| response := fst r; calls := [CallChat message sid history] |},
      snd r)).
Proof.
  intros Hidle. rewrite conclude_run.
  rewrite (documentStep_idle env sid dg reply w Hidle). reflexivity.
Qed.

Lemma due_has_project sid phase p w :
  due sid phase p w -> getProjectSession sid w = Some p.
Proof. intros (Hp & _). exact Hp. Qed.

(** The reply of a request with nothing due, and the world it leaves. *)
Lemma conclude_plain env sid dg reply message history w :
  (forall phase p, due sid phase p w -> dg = false) ->
  exists tm : Z,
    eval (conclude env sid dg reply message history) w =
      {| response :=
           {| status := 200;
              body := DataBody
                {| rd_id := "msg-" +:+ pretty tm;
                   rd_role := Assistant;
                   rd_content := reply;
                   rd_parts := [{| part_type := "text"; part_text := reply |}];
                   document := None;
                   rd_projectSession := None |} |};
         calls := [CallChat message sid history] |} /\
    exec (conclude env sid dg reply message history) w
    = exec (respond sid reply None) w.
Proof.
  intros Hidle. destruct (respond_eval sid reply None w) as (tm & Hr).
  exists tm. unfold eval, exec in *. rewrite (conclude_idle _ _ _ _ _ _ _ Hidle).
  cbv zeta. cbn [fst snd]. rewrite Hr. split; reflexivity.
Qed.

(** A request of two messages or more on a key without a project
    session. *)
Lemma later_messages_none (env : Env) (req : Request)
    (b : Body) (first second : UIMessage) (rest : list UIMessage)
    (w : World) :
  json req = Returns b ->
  messages b = Some (first :: second :: rest) ->
  getProjectSession (sessionKey b w) w = None ->
  getProjectSession (sessionKey b w) (exec (POST env req) w) = None /\
  documentOf (response (eval (POST env req) w)) = None /\
  forallb (fun c => negb (isGeneration c)) (calls (eval (POST env req) w))
    = true.
Proof.
  intros Hjson Hmsg Hnone.
  assert (Hnone1 :
    getProjectSession (sessionKey b w) (exec (initializeAgents env) w) = None).
  { rewrite <- Hnone. apply getProjectSession_ext.
    apply initializeAgents_sessions. }
  pose proof (POST_run env req w) as Hrun. cbv zeta in Hrun.
  destruct Hrun
    as [(r & E & _ & Hd & _)|[(r & E & _ & Hd & _)|
        (b' & first' & rest' & dg & Hkey & Hag & Hj & Hm & Hrun)]].
  - unfold eval, exec. rewrite E. cbn [fst snd response calls].
    split; [exact Hnone|]. split; [exact Hd|reflexivity].
  - unfold eval, exec. rewrite E. cbn [fst snd response calls].
    split; [exact Hnone1|]. split; [exact Hd|reflexivity].
  - rewrite Hjson in Hj. injection Hj as <-.
    rewrite Hmsg in Hm. injection Hm as <- <-.
    rewrite sessionKey_initializeAgents in Hrun.
    remember (sessionKey b w) as sid eqn:Hsid.
    remember (exec (initializeAgents env) w) as w1 eqn:Hw1.
    assert (Hnone2 : getProjectSession sid
                       (exec (effectiveSessionId (body_sessionId b)) w1)
                     = None).
    { rewrite <- Hnone1. apply getProjectSession_ext.
      apply effectiveSessionId_sessions. }
    remember (exec (effectiveSessionId (body_sessionId b)) w1) as w2 eqn:Hw2.
    destruct (receive_projectSession sid first (second :: rest) w2)
      as (t1 & t2 & t3 & Hps).
    specialize (Hps sid). rewrite decide_True, Hnone2 in Hps by reflexivity.
    remember (eval (receive sid first (second :: rest)) w2) as received.
    remember (exec (receive sid first (second :: rest)) w2) as w3.
    clear Hsid Hw1 Hw2 Heqreceived Heqw3.
    destruct Hrun as [(e & _ & E)|(reply & _ & E)].
    + unfold eval, exec. rewrite E. cbn [fst snd response calls].
      split; [exact Hps|]. split; reflexivity.
    + change (POST env req w
              = conclude env sid dg reply (fst received) (snd received) w3)
        in E.
      destruct (conclude_plain env sid dg reply (fst received) (snd received)
                  w3) as (tm & Hr & Hw).
      { intros phase p Hdue. apply due_has_project in Hdue.
        rewrite Hps in Hdue. discriminate. }
      unfold eval, exec. rewrite E.
      fold (exec (conclude env sid dg reply (fst received) (snd received)) w3).
      fold (eval (conclude env sid dg reply (fst received) (snd received)) w3).
      rewrite Hr, Hw. cbn [response calls]. split; [|split; reflexivity].
      rewrite <- Hps. apply (respond_projectSession sid reply None sid w3).
Qed.

(** [addMessage] counts the message it logs, on its own key. *)
Lemma addMessage_count sid r text sid' w :
  messageCountOf sid' (exec (addMessage sid r text) w) =
    messageCountOf sid' w + (if decide (sid = sid') then 1 else 0).
Proof.
  destruct (addMessage_sessions sid r text w) as (t & t' & E).
  unfold messageCountOf at 1. rewrite E.
  destruct (decide (sid = sid')) as [<-|Hne].
  - rewrite lookup_insert_eq. cbn [metadata messageCount].
    unfold messageCountOf.
    destruct (sessions w !! sid) as [c|] eqn:Hc.
    + rewrite (getSession_eval_known sid w c Hc). reflexivity.
    + rewrite (getSession_eval_fresh sid w Hc). reflexivity.
  - rewrite lookup_insert_ne by exact Hne.
    rewrite getSession_sessions. unfold messageCountOf.
    destruct (sessions w !! sid) eqn:Hc; [lia|].
    rewrite lookup_insert_ne by exact Hne. lia.
Qed.

Lemma addMessages_count ms : forall w sid,
  messageCountOf sid (exec (addMessages ms) w) =
    messageCountOf sid w + Z.of_nat (length (sentTo sid ms)).
Proof.
  induction ms as [|[[sid' r] text] more IH]; intros w sid.
  - cbn [addMessages sentTo length]. rewrite exec_ret. lia.
  - cbn [addMessages sentTo]. rewrite exec_bind, IH, addMessage_count.
    destruct (decide (sid' = sid)); cbn [length]; lia.
Qed.

Lemma keepLast_length_min {A} n (l : list A) :
  length (keepLast n l) = Nat.min (length l) n.
Proof. unfold keepLast. rewrite length_drop. lia. Qed.

(** ** The order of the log *)

Lemma chronological_later now now' c :
  now <= now' -> chronological now c -> chronological now' c.
Proof.
  intros Hle (Hs & Hf & Hc & Hu). repeat split; try assumption. lia.
Qed.

Lemma timely_later now now' m :
  now <= now' -> timely now m -> timely now' m.
Proof.
  intros Hle Hm sid c Hc. apply (chronological_later now); [exact Hle|].
  apply (Hm sid c Hc).
Qed.

Lemma timely_insert now m sid c :
  chronological now c -> timely now m -> timely now (<[sid := c]> m).
Proof.
  intros Hc Hm k c' Hk.
  destruct (decide (sid = k)) as [<-|Hne].
  - rewrite lookup_insert_eq in Hk. injection Hk as <-. exact Hc.
  - rewrite lookup_insert_ne in Hk by exact Hne. apply (Hm k c' Hk).
Qed.

Lemma timely_subseteq now (m m' : gmap string ChatContext) :
  m' ⊆ m -> timely now m -> timely now m'.
Proof.
  intros Hsub Hm k c Hk. apply (Hm k c).
  apply (lookup_weaken m' m k c Hk Hsub).
Qed.

Lemma chronological_fresh now sid t1 t2 :
  t1 <= t2 -> t2 <= now -> chronological now (freshSession sid t1 t2).
Proof.
  intros H1 H2. repeat split; cbn; try assumption; constructor.
Qed.

Lemma chronological_with_projectSession now p c :
  chronological now c -> chronological now (with_projectSession p c).
Proof. intros H. exact H. Qed.

Lemma trim_drops cap (l : list Entry) : exists k, trim cap l = drop k l.
Proof.
  unfold trim, slice_from. destruct (_ >? _).
  - eexists. reflexivity.
  - exists 0%nat. reflexivity.
Qed.

Lemma StronglySorted_drop {A} (R : relation A) k (l : list A) :
  StronglySorted R l -> StronglySorted R (drop k l).
Proof.
  intros H. rewrite <- (take_drop k l) in H.
  apply (StronglySorted_app_1_r R _ _ H).
Qed.

(** The session that [addMessage] stores is in order when the one it
    found was, and the clock was read in turn. *)
Lemma chronological_push now now' cap c r text t t' n :
  chronological now c -> now <= t -> t <= t' -> t' <= now' ->
  chronological now'
    {| sessionId := sessionId c; projectSession := projectSession c;
       conversationHistory :=
         trim cap (conversationHistory c
                     ++ [{| role := r; content := text; timestamp := t |}]);
       metadata := {| createdAt := createdAt (metadata c);
                      updatedAt := t'; messageCount := n |} |}.
Proof.
  intros (Hs & Hf & Hc & Hu) H1 H2 H3.
  destruct (trim_drops cap (conversationHistory c
              ++ [{| role := r; content := text; timestamp := t |}]))
    as (k & ->).
  unfold chronological. cbn [conversationHistory metadata createdAt updatedAt].
  split; [|split; [|split]].
  - apply StronglySorted_drop. apply StronglySorted_app_2.
    + intros e e' He He'. apply list_elem_of_singleton in He'. subst e'.
      cbn [timestamp]. rewrite Forall_forall in Hf.
      destruct (Hf e He) as (_ & Hle). lia.
    + exact Hs.
    + repeat constructor.
  - apply Forall_drop. apply Forall_app. split.
    + eapply Forall_impl; [exact Hf|]. cbn. intros e (Ha & Hb). lia.
    + repeat constructor; cbn [timestamp]; lia.
  - lia.
  - exact H3.
Qed.

Lemma orderly_ret {A} (a : A) : orderly (ret a).
Proof. intros w _ H. split; [exact H|reflexivity]. Qed.

Lemma orderly_gets {A} (f : World -> A) : orderly (gets f).
Proof. intros w _ H. split; [exact H|reflexivity]. Qed.

Lemma orderly_Date_now : orderly Date_now.
Proof.
  intros w Hm H. split; [|reflexivity].
  unfold inTime, exec, Date_now. cbn [fst snd sessions clock ticks].
  apply (timely_later (clock w (ticks w))); [apply Hm; lia|exact H].
Qed.

Lemma orderly_bind {A B} (m : M A) (k : A -> M B) :
  orderly m -> (forall a, orderly (k a)) -> orderly (bind m k).
Proof.
  intros Hm Hk w Hmono H. rewrite exec_bind.
  destruct (Hm w Hmono H) as (H1 & Hc1).
  destruct (Hk (eval m w) (exec m w)) as (H2 & Hc2);
    [rewrite Hc1; exact Hmono|exact H1|].
  split; [exact H2|]. rewrite Hc2. exact Hc1.
Qed.

Ltac ticks_le Hm := apply Hm; lia.

(** The writers, one clock reading after the other. *)
Ltac orderly_writer :=
  let w := fresh "w" in
  let Hm := fresh "Hm" in
  let H := fresh "H" in
  let c := fresh "c" in
  let E := fresh "E" in
  intros w Hm H;
  unfold exec, bind, gets, getSession, createSession, bind, gets, ret,
    Date_now, sessions_set, inTime;
  cbn [fst snd sessions clock ticks with_sessions];
  destruct (sessions w !! _) as [c|] eqn:E;
  cbn [fst snd sessions clock ticks with_sessions projectSession];
  [ pose proof (H _ c E);
    try (destruct (projectSession c);
         cbn [fst snd sessions clock ticks with_sessions])
  | ];
  (split; [|reflexivity]);
  repeat first
    [ apply timely_insert
    | apply chronological_with_projectSession
    | apply chronological_fresh; [ticks_le Hm|ticks_le Hm]
    | match goal with
      | Hc : chronological _ ?c |- chronological _ ?c =>
          refine (chronological_later _ _ _ _ Hc); ticks_le Hm
      | |- timely _ (sessions _) =>
          refine (timely_later _ _ _ _ H); ticks_le Hm
      end ].

Lemma createSession_orderly sid : orderly (createSession sid).
Proof.
  intros w Hm H. unfold exec, createSession, bind, ret, Date_now, sessions_set,
    inTime. cbn [fst snd sessions clock ticks with_sessions].
  split; [|reflexivity].
  apply timely_insert.
  - apply chronological_fresh; ticks_le Hm.
  - refine (timely_later _ _ _ _ H); ticks_le Hm.
Qed.

Lemma getSession_orderly sid : orderly (getSession sid).
Proof. orderly_writer. Qed.

Lemma initializeProjectSession_orderly sid name :
  orderly (initializeProjectSession sid name).
Proof. unfold initializeProjectSession. orderly_writer. Qed.

Lemma updateProjectPhase_orderly sid phase :
  orderly (updateProjectPhase sid phase).
Proof. unfold updateProjectPhase. orderly_writer. Qed.

Lemma setRequirements_raw_orderly sid r : orderly (setRequirements_raw sid r).
Proof. unfold setRequirements_raw. orderly_writer. Qed.

Lemma setDesign_raw_orderly sid d : orderly (setDesign_raw sid d).
Proof. unfold setDesign_raw. orderly_writer. Qed.

Lemma setTasks_raw_orderly sid k : orderly (setTasks_raw sid k).
Proof. unfold setTasks_raw. orderly_writer. Qed.

Lemma addAskedQuestion_orderly sid q : orderly (addAskedQuestion sid q).
Proof. unfold addAskedQuestion. orderly_writer. Qed.

Lemma addUserAnswer_orderly sid q a : orderly (addUserAnswer sid q a).
Proof. unfold addUserAnswer. orderly_writer. Qed.

Lemma addMessage_orderly sid r text : orderly (addMessage sid r text).
Proof.
  intros w Hm H.
  unfold exec, addMessage, bind, gets, getSession, createSession, bind, gets,
    ret, Date_now, sessions_set, inTime.
  cbn [fst snd sessions clock ticks with_sessions].
  destruct (sessions w !! sid) as [c|] eqn:E;
    cbn [fst snd sessions clock ticks with_sessions maxMessagesPerSession];
    (split; [|reflexivity]); apply timely_insert.
  - apply (chronological_push (clock w (ticks w)) _ (maxMessagesPerSession w)
             c r text (clock w (ticks w)) (clock w (S (ticks w)))).
    + apply (H sid c E).
    + lia.
    + ticks_le Hm.
    + ticks_le Hm.
  - refine (timely_later _ _ _ _ H); ticks_le Hm.
  - apply (chronological_push (clock w (S (S (ticks w)))) _
             (maxMessagesPerSession w)
             (freshSession sid (clock w (ticks w)) (clock w (S (ticks w))))
             r text (clock w (S (S (ticks w))))
             (clock w (S (S (S (ticks w)))))).
    + apply chronological_fresh; ticks_le Hm.
    + lia.
    + ticks_le Hm.
    + ticks_le Hm.
  - apply timely_insert.
    + apply chronological_fresh; ticks_le Hm.
    + refine (timely_later _ _ _ _ H); ticks_le Hm.
Qed.

Lemma clearSession_orderly sid : orderly (clearSession sid).
Proof.
  intros w Hm H. split; [|reflexivity].
  unfold inTime, exec, clearSession, sessions_delete.
  cbn [fst snd sessions clock ticks with_sessions].
  apply (timely_subseteq _ (sessions w)); [apply delete_subseteq|exact H].
Qed.

Lemma clearAllSessions_orderly : orderly clearAllSessions.
Proof.
  intros w Hm H. split; [|reflexivity].
  intros sid c Hc. unfold exec, clearAllSessions in Hc.
  cbn [fst snd sessions with_sessions] in Hc.
  rewrite lookup_empty in Hc. discriminate.
Qed.

Lemma importSession_orderly c w :
  monotone (clock w) -> chronological (clock w 0%nat) c -> inTime w ->
  inTime (exec (importSession c) w) /\
  clock (exec (importSession c) w) = clock w.
Proof.
  intros Hm Hc H. split; [|reflexivity].
  unfold inTime, exec, importSession, sessions_set.
  cbn [fst snd sessions clock ticks with_sessions].
  apply timely_insert; [|exact H].
  refine (chronological_later _ _ _ _ Hc). ticks_le Hm.
Qed.

Lemma pruneOldSessions_orderly hoursOld : orderly (pruneOldSessions hoursOld).
Proof.
  intros w Hm H.
  destruct (pruneOldSessions_run hoursOld w) as (E & _).
  assert (Hc : clock (exec (pruneOldSessions hoursOld) w) = clock w)
    by reflexivity.
  assert (Ht : ticks (exec (pruneOldSessions hoursOld) w) = S (ticks w))
    by reflexivity.
  split; [|exact Hc].
  unfold inTime. rewrite E, Hc, Ht.
  apply (timely_subseteq _ (sessions w)); [apply map_subseteq_difference_l; reflexivity|].
  refine (timely_later _ _ _ _ H). ticks_le Hm.
Qed.

Lemma initializeAgents_orderly env : orderly (initializeAgents env).
Proof.
  intros w Hm H.
  destruct (initializeAgents_clock env w) as (Hc & Ht).
  split; [|exact Hc].
  unfold inTime. rewrite Hc, Ht, initializeAgents_sessions. exact H.
Qed.

Ltac orderly_steps :=
  repeat match goal with
  | |- orderly (ret _) => apply orderly_ret
  | |- orderly (gets _) => apply orderly_gets
  | |- orderly Date_now => apply orderly_Date_now
  | |- orderly (getSession _) => apply getSession_orderly
  | |- orderly (addMessage _ _ _) => apply addMessage_orderly
  | |- orderly (initializeProjectSession _ _) =>
      apply initializeProjectSession_orderly
  | |- orderly (updateProjectPhase _ _) => apply updateProjectPhase_orderly
  | |- orderly (setRequirements_raw _ _) => apply setRequirements_raw_orderly
  | |- orderly (setDesign_raw _ _) => apply setDesign_raw_orderly
  | |- orderly (setTasks_raw _ _) => apply setTasks_raw_orderly
  | |- orderly (bind _ _) => apply orderly_bind; [|intros ?]
  end.

Lemma effectiveSessionId_orderly o : orderly (effectiveSessionId o).
Proof.
  unfold effectiveSessionId. destruct (truthy o); orderly_steps.
Qed.

Lemma receive_orderly sid first rest : orderly (receive sid first rest).
Proof.
  unfold receive. orderly_steps.
  destruct (negb _ && _); orderly_steps.
Qed.

Lemma documentStep_orderly env sid dg reply :
  orderly (documentStep env sid dg reply).
Proof.
  unfold documentStep. orderly_steps.
  destruct a as [ps|]; [|orderly_steps].
  destruct (negb dg); orderly_steps.
  destruct (_ && _).
  { destruct (generateRequirements env ps); orderly_steps. }
  destruct (_ && _).
  { destruct (generateDesign env _ ps); orderly_steps. }
  destruct (_ && _); [|orderly_steps].
  destruct (generateTasks env _ _); orderly_steps.
Qed.

Lemma respond_orderly sid reply g : orderly (respond sid reply g).
Proof. unfold respond. orderly_steps. Qed.

Lemma finish_orderly r cs : orderly (finish r cs).
Proof. intros w _ H. split; [exact H|reflexivity]. Qed.

Lemma POST_orderly env req : orderly (POST env req).
Proof.
  unfold POST. destruct (negb _); [apply finish_orderly|].
  apply orderly_bind; [apply initializeAgents_orderly|].
  intros [[ag dg]|e]; [|apply finish_orderly].
  destruct (json req) as [b|e]; [|apply finish_orderly].
  destruct (messages b) as [[|first rest]|]; try apply finish_orderly.
  apply orderly_bind; [apply effectiveSessionId_orderly|]. intros sid.
  apply orderly_bind; [apply receive_orderly|]. intros received.
  destruct (negb ag); [apply finish_orderly|].
  destruct (chat env _ sid _) as [reply|e]; [|apply finish_orderly].
  apply orderly_bind; [apply documentStep_orderly|]. intros step.
  apply orderly_bind; [apply respond_orderly|]. intros r.
  apply finish_orderly.
Qed.

Lemma unit_orderly {A} (m : M A) : orderly m -> orderly (m ;;; ret tt).
Proof.
  intros Hm. apply orderly_bind; [exact Hm|]. intros _. apply orderly_ret.
Qed.

Lemma act_orderly a w :
  monotone (clock w) -> importsInOrder (clock w) a -> inTime w ->
  inTime (exec (act a) w) /\ clock (exec (act a) w) = clock w.
Proof.
  intros Hm Hi H. destruct a; cbn [act importsInOrder] in *.
  - apply (unit_orderly _ (createSession_orderly sid) w Hm H).
  - apply (unit_orderly _ (getSession_orderly sid) w Hm H).
  - apply (addMessage_orderly sid r text w Hm H).
  - apply (unit_orderly _ (initializeProjectSession_orderly sid name) w Hm H).
  - apply (updateProjectPhase_orderly sid phase w Hm H).
  - apply (setRequirements_raw_orderly sid (Some r) w Hm H).
  - apply (setDesign_raw_orderly sid (Some d) w Hm H).
  - apply (setTasks_raw_orderly sid (Some k) w Hm H).
  - apply (addAskedQuestion_orderly sid question w Hm H).
  - apply (addUserAnswer_orderly sid question answer w Hm H).
  - apply (clearSession_orderly sid w Hm H).
  - apply (clearAllSessions_orderly w Hm H).
  - apply (importSession_orderly context w Hm Hi H).
  - apply (unit_orderly _ (pruneOldSessions_orderly hoursOld) w Hm H).
  - apply (unit_orderly _ (POST_orderly env req) w Hm H).
Qed.

Lemma actAll_orderly history : forall w,
  monotone (clock w) -> Forall (importsInOrder (clock w)) history ->
  inTime w -> inTime (exec (actAll history) w).
Proof.
  induction history as [|a more IH]; intros w Hm Hi H; [exact H|].
  cbn [actAll]. rewrite exec_bind.
  destruct (act_orderly a w Hm (Forall_inv Hi) H) as (H1 & Hc).
  apply IH; [rewrite Hc; exact Hm|rewrite Hc; apply (Forall_inv_tail Hi)|exact H1].
Qed.

Lemma rest_kept_clock w w' : rest_kept w w' -> clock w' = clock w.
Proof. intros (_ & _ & _ & Hc & _). exact Hc. Qed.

Lemma act_clock a w :
  clock (exec (act a) w) = clock w.
Proof.
  destruct a; cbn [act].
  - rewrite exec_bind, exec_ret.
    apply rest_kept_clock, (createSession_rest sid w).
  - rewrite exec_bind, exec_ret.
    apply rest_kept_clock, (getSession_rest sid w).
  - apply rest_kept_clock, (addMessage_rest sid r text w).
  - rewrite exec_bind, exec_ret.
    apply rest_kept_clock, (initializeProjectSession_rest sid name w).
  - apply rest_kept_clock, (updateProjectPhase_rest sid phase w).
  - apply rest_kept_clock, (setRequirements_raw_rest sid (Some r) w).
  - apply rest_kept_clock, (setDesign_raw_rest sid (Some d) w).
  - apply rest_kept_clock, (setTasks_raw_rest sid (Some k) w).
  - apply rest_kept_clock, (addAskedQuestion_rest sid question w).
  - apply rest_kept_clock, (addUserAnswer_rest sid question answer w).
  - reflexivity.
  - reflexivity.
  - reflexivity.
  - reflexivity.
  - rewrite exec_bind, exec_ret.
    destruct (POST_rest env req w) as [E|R].
    + rewrite E. reflexivity.
    + rewrite (rest_kept_clock _ _ R). apply initializeAgents_clock.
Qed.

Lemma actAll_clock history : forall w,
  clock (exec (actAll history) w) = clock w.
Proof.
  induction history as [|a more IH]; intros w; [reflexivity|].
  cbn [actAll]. rewrite exec_bind, IH. apply act_clock.
Qed.

(** ** What the document step leaves of the logs *)

Lemma keeps_log_ret {A} (a : A) : keeps_log (ret a).
Proof. intros w sid. reflexivity. Qed.

Lemma keeps_log_gets {A} (f : World -> A) : keeps_log (gets f).
Proof. intros w sid. reflexivity. Qed.

Lemma keeps_log_bind {A B} (m : M A) (k : A -> M B) :
  keeps_log m -> (forall a, keeps_log (k a)) -> keeps_log (bind m k).
Proof.
  intros Hm Hk w sid. rewrite exec_bind, (Hk (eval m w)). apply Hm.
Qed.

(** The writers of the project session store the session they got
    with another project session. *)
Ltac log_writer sid' :=
  let w := fresh "w" in
  let c := fresh "c" in
  let E := fresh "E" in
  let Hne := fresh "Hne" in
  intros w sid';
  unfold getConversationHistory, exec, bind, gets, getSession, createSession,
    bind, gets, ret, Date_now, sessions_set;
  cbn [fst snd sessions with_sessions];
  destruct (sessions w !! _) as [c|] eqn:E;
  cbn [fst snd sessions with_sessions projectSession];
  [ try (destruct (projectSession c);
         cbn [fst snd sessions with_sessions]) | ];
  try reflexivity;
  match goal with
  | |- context [<[?k := _]> _ !! sid'] =>
      destruct (decide (k = sid')) as [<-|Hne];
      [ rewrite ?lookup_insert_eq, ?E; reflexivity
      | rewrite ?lookup_insert_ne by exact Hne; reflexivity ]
  end.

Lemma updateProjectPhase_log sid phase :
  keeps_log (updateProjectPhase sid phase).
Proof. unfold updateProjectPhase. log_writer sid'. Qed.

Lemma setRequirements_raw_log sid r : keeps_log (setRequirements_raw sid r).
Proof. unfold setRequirements_raw. log_writer sid'. Qed.

Lemma setDesign_raw_log sid d : keeps_log (setDesign_raw sid d).
Proof. unfold setDesign_raw. log_writer sid'. Qed.

Lemma setTasks_raw_log sid k : keeps_log (setTasks_raw sid k).
Proof. unfold setTasks_raw. log_writer sid'. Qed.

Ltac keeps_log_steps :=
  repeat match goal with
  | |- keeps_log (ret _) => apply keeps_log_ret
  | |- keeps_log (gets _) => apply keeps_log_gets
  | |- keeps_log (updateProjectPhase _ _) => apply updateProjectPhase_log
  | |- keeps_log (setRequirements_raw _ _) => apply setRequirements_raw_log
  | |- keeps_log (setDesign_raw _ _) => apply setDesign_raw_log
  | |- keeps_log (setTasks_raw _ _) => apply setTasks_raw_log
  | |- keeps_log (bind _ _) => apply keeps_log_bind; [|intros ?]
  end.

Lemma documentStep_log env sid dg reply :
  keeps_log (documentStep env sid dg reply).
Proof.
  unfold documentStep. keeps_log_steps.
  destruct a as [ps|]; [|keeps_log_steps].
  destruct (negb dg); keeps_log_steps.
  destruct (_ && _).
  { destruct (generateRequirements env ps); keeps_log_steps. }
  destruct (_ && _).
  { destruct (generateDesign env _ ps); keeps_log_steps. }
  destruct (_ && _); [|keeps_log_steps].
  destruct (generateTasks env _ _); keeps_log_steps.
Qed.

(** The calls of the document step: none, or one call to a generator. *)
Lemma documentStep_one env sid dg reply w :
  snd (eval (documentStep env sid dg reply) w) = [] \/
  exists g, isGeneration g = true /\
            snd (eval (documentStep env sid dg reply) w) = [g].
Proof.
  unfold eval.
  destruct (documentStep_cases env sid dg reply w)
    as [E|(phase & p & Hd & -> & [(e & Hg)|(doc & Hg)])].
  - left. rewrite E. reflexivity.
  - right. rewrite (documentStep_throws _ _ _ _ _ _ _ Hd Hg). cbn [fst snd].
    destruct Hd as (_ & _ & Hne & _).
    destruct phase; try contradiction; eexists;
      (split; [|cbn; reflexivity]); reflexivity.
  - right. rewrite (documentStep_returns_run _ _ _ _ _ _ _ Hd Hg).
    unfold bind, ret. cbn [fst snd].
    destruct Hd as (_ & _ & Hne & _).
    destruct phase; try contradiction; eexists;
      (split; [|cbn; reflexivity]); reflexivity.
Qed.

(** The log after the end of a request that got its reply: the reply
    as it is sent, pushed on the log of the key. *)
Lemma conclude_history env sid dg reply message history w :
  exists (ta : Z) (data : ResponseData),
    response (eval (conclude env sid dg reply message history) w)
      = {| status := 200; body := DataBody data |} /\
    rd_role data = Assistant /\
    rd_parts data = [{| part_type := "text"; part_text := rd_content data |}] /\
    forall sid',
      getConversationHistory sid'
        (exec (conclude env sid dg reply message history) w) =
        if decide (sid = sid')
        then trim (maxMessagesPerSession w)
               (getConversationHistory sid w
                  ++ [entryOf Assistant (rd_content data) ta])
        else getConversationHistory sid' w.
Proof.
  unfold eval, exec. rewrite conclude_run. cbv zeta. cbn [fst snd response].
  pose proof (documentStep_log env sid dg reply w) as Hlog.
  pose proof (documentStep_rest env sid dg reply w) as (Hcap & _).
  unfold exec in Hlog, Hcap.
  destruct (documentStep env sid dg reply w) as [[[text g] cs] w4].
  cbn [fst snd] in *.
  destruct (respond_eval sid text g w4) as (tm & Hr).
  destruct (respond_history sid text g w4) as (ta & Hh).
  unfold eval in Hr. unfold exec in Hh.
  exists ta. eexists. split; [exact Hr|].
  cbn [rd_role rd_parts rd_content].
  split; [reflexivity|]. split; [reflexivity|].
  intros sid'. rewrite Hh, Hcap, !Hlog. reflexivity.
Qed.

(** ** A request that reaches the agent *)

(** A request makes no call, or it has reached the agent: its body has
    parsed and has messages, the user's text is logged under the key
    of the request, a project session is there if there was one or if
    the request has one message, and the agent was called with the
    text and the log; the request then ends with the agent's error or
    goes on with its reply. *)
Lemma POST_reached env req w :
  (calls (eval (POST env req) w) = [] /\
   status (response (eval (POST env req) w)) <> 200) \/
  exists (b : Body) (first : UIMessage) (rest : list UIMessage) (dg : bool)
         (tu t1 t2 t3 : Z) (w3 : World),
    json req = Returns b /\
    messages b = Some (first :: rest) /\
    let sid := sessionKey b w in
    let text := textOf (lastMessage first rest) in
    let asked := trim (maxMessagesPerSession w)
                   (getConversationHistory sid w ++ [entryOf User text tu]) in
    maxMessagesPerSession w3 = maxMessagesPerSession w /\
    (forall s, getConversationHistory s w3
               = if decide (sid = s) then asked
                 else getConversationHistory s w) /\
    (forall s, getProjectSession s w3
               = if decide (sid = s) then
                   match getProjectSession sid w, rest with
                   | Some p, _ => Some p
                   | None, [] =>
                       Some (freshProjectSession sid "New Project" t1 t2 t3)
                   | None, _ :: _ => None
                   end
                 else getProjectSession s w) /\
    ((exists e,
        chat env text sid asked = Throws e /\
        POST env req w =
          ({| response := server_error e;
              calls := [CallChat text sid asked] |}, w3)) \/
     (exists reply,
        chat env text sid asked = Returns reply /\
        POST env req w = conclude env sid dg reply text asked w3)).
Proof.
  pose proof (POST_run env req w) as Hrun. cbv zeta in Hrun.
  destruct Hrun
    as [(r & E & Hs & _)|[(r & E & Hs & _)|
        (b & first & rest & dg & _ & _ & Hj & Hm & Hrun)]].
  - left. unfold eval. rewrite E. cbn [fst calls response].
    split; [reflexivity|]. rewrite Hs. discriminate.
  - left. unfold eval. rewrite E. cbn [fst calls response].
    split; [reflexivity|]. destruct Hs as [-> | ->]; discriminate.
  - right. rewrite sessionKey_initializeAgents in Hrun.
    remember (sessionKey b w) as sid eqn:Hsid.
    remember (exec (initializeAgents env) w) as w1 eqn:Hw1.
    assert (Hcap1 : maxMessagesPerSession w1 = maxMessagesPerSession w)
      by (subst w1; apply initializeAgents_cap).
    assert (Hold : forall s, getConversationHistory s w1
                             = getConversationHistory s w).
    { intros s. subst w1. apply getConversationHistory_ext.
      apply initializeAgents_sessions. }
    assert (Hps1 : forall s, getProjectSession s w1 = getProjectSession s w).
    { intros s. subst w1. apply getProjectSession_ext.
      apply initializeAgents_sessions. }
    pose proof (effectiveSessionId_rest (body_sessionId b) w1) as (Hcap2 & _).
    assert (Hold2 : forall s,
      getConversationHistory s
        (exec (effectiveSessionId (body_sessionId b)) w1)
      = getConversationHistory s w1).
    { intros s. apply getConversationHistory_ext.
      apply effectiveSessionId_sessions. }
    assert (Hps2 : forall s,
      getProjectSession s (exec (effectiveSessionId (body_sessionId b)) w1)
      = getProjectSession s w1).
    { intros s. apply getProjectSession_ext.
      apply effectiveSessionId_sessions. }
    remember (exec (effectiveSessionId (body_sessionId b)) w1) as w2 eqn:Hw2.
    destruct (receive_history sid first rest w2) as (tu & Hev & Hh).
    destruct (receive_projectSession sid first rest w2)
      as (t1 & t2 & t3 & Hps).
    pose proof (receive_rest sid first rest w2) as (Hcap3 & _).
    remember (eval (receive sid first rest) w2) as received.
    remember (exec (receive sid first rest) w2) as w3.
    clear Hw1 Hw2 Heqreceived Heqw3.
    rewrite Hcap2, Hcap1, Hold2, Hold in Hev.
    exists b, first, rest, dg, tu, t1, t2, t3, w3.
    split; [exact Hj|]. split; [exact Hm|]. cbv zeta. rewrite <- Hsid.
    clear Hsid.
    split; [rewrite Hcap3, Hcap2, Hcap1; reflexivity|].
    split.
    { intros s. rewrite Hh, Hcap2, Hcap1, !Hold2, !Hold. reflexivity. }
    split.
    { intros s. rewrite Hps, !Hps2, !Hps1. reflexivity. }
    subst received. cbn [fst snd] in Hrun.
    destruct Hrun as [(e & Hc & E)|(reply & Hc & E)].
    + left. exists e. split; [exact Hc|exact E].
    + right. exists reply. split; [exact Hc|exact E].
Qed.

(** ** Nothing writes the log of a project session *)

Lemma ctx_step_log (L : list PhaseEntry -> Prop) sid o o' :
  L [] ->
  ctx_step sid o o' ->
  (forall c p, o = Some c -> projectSession c = Some p ->
               L (ps_conversationHistory p)) ->
  forall c p, o' = Some c -> projectSession c = Some p ->
              L (ps_conversationHistory p).
Proof.
  intros Hnil Hstep Ho c' q Hc' Hq.
  destruct Hstep as [o t1 t2|c h m|c name t1 t2 t3|c p p' Hp Hs|o];
    try (injection Hc' as <-); try discriminate.
  - apply (Ho c q eq_refl Hq).
  - injection Hq as <-. exact Hnil.
  - injection Hq as <-. destruct Hs as [_ _ E _]. rewrite E.
    apply (Ho c p eq_refl Hp).
Qed.

Lemma rtc_ctx_step_log (L : list PhaseEntry -> Prop) sid o o' :
  L [] ->
  rtc (ctx_step sid) o o' ->
  (forall c p, o = Some c -> projectSession c = Some p ->
               L (ps_conversationHistory p)) ->
  forall c p, o' = Some c -> projectSession c = Some p ->
              L (ps_conversationHistory p).
Proof.
  intros Hnil. induction 1 as [o|o1 o2 o3 Hstep _ IH]; [auto|].
  intros Ho. apply IH. apply (ctx_step_log L sid o1 o2 Hnil Hstep Ho).
Qed.

Lemma store_evolves_logs L m m' :
  (forall sid, L sid []) ->
  store_evolves m m' -> projectLogsIn L m -> projectLogsIn L m'.
Proof.
  intros Hnil He Hm sid c p Hc Hp.
  apply (rtc_ctx_step_log (L sid) sid (m !! sid) (m' !! sid) (Hnil sid)
           (He sid)) with (c := c); [|exact Hc|exact Hp].
  intros c0 p0 Hc0 Hp0. apply (Hm sid c0 p0 Hc0 Hp0).
Qed.

Lemma act_logs L a w :
  (forall sid, L sid []) ->
  (forall c p, a = DoImportSession c -> projectSession c = Some p ->
               L (sessionId c) (ps_conversationHistory p)) ->
  projectLogsIn L (sessions w) ->
  projectLogsIn L (sessions (exec (act a) w)).
Proof.
  intros Hnil Hi Hw.
  assert (Hcase : (exists c, a = DoImportSession c) \/
                  (forall c, a <> DoImportSession c))
    by (destruct a; try (right; intros c0; discriminate); left; eauto).
  destruct Hcase as [[c ->]|Hn].
  - intros sid c' p Hc' Hp.
    unfold act, importSession, sessions_set, exec in Hc'.
    cbn [snd sessions with_sessions] in Hc'.
    destruct (decide (sessionId c = sid)) as [<-|Hne].
    + rewrite lookup_insert_eq in Hc'. injection Hc' as <-.
      apply (Hi c p eq_refl Hp).
    + rewrite lookup_insert_ne in Hc' by exact Hne.
      apply (Hw sid c' p Hc' Hp).
  - apply (store_evolves_logs L (sessions w)); [exact Hnil| |exact Hw].
    apply act_evolves, Hn.
Qed.

Lemma actAll_logs L history : forall w,
  (forall sid, L sid []) ->
  (forall c p, In (DoImportSession c) history -> projectSession c = Some p ->
               L (sessionId c) (ps_conversationHistory p)) ->
  projectLogsIn L (sessions w) ->
  projectLogsIn L (sessions (exec (actAll history) w)).
Proof.
  induction history as [|a more IH]; intros w Hnil Hi Hw; [exact Hw|].
  cbn [actAll]. rewrite exec_bind.
  apply IH; [exact Hnil| |].
  - intros c p Hin. apply Hi. right. exact Hin.
  - apply act_logs; [exact Hnil| |exact Hw].
    intros c p -> Hp. apply (Hi c p); [left; reflexivity|exact Hp].
Qed.

(** ** The store of values stands for the store of references *)

Lemma view_lookup (m : ByReference.Manager) k :
  ByReference.view m !! k
  = match ByReference.handles m !! k with
    | Some context => ByReference.deref m context
    | None => None
    end.
Proof.
  unfold ByReference.view. rewrite lookup_omap.
  destruct (ByReference.handles m !! k); reflexivity.
Qed.

(** A session that is whole reads as a value. *)
Lemma deref_whole (m : ByReference.Manager) context o h md :
  ByReference.objects m !! context = Some o ->
  ByReference.arrays m !! ByReference.o_conversationHistory o = Some h ->
  ByReference.metadatas m !! ByReference.o_metadata o = Some md ->
  ByReference.deref m context
  = Some {| sessionId := ByReference.o_sessionId o;
            projectSession := ByReference.o_projectSession o;
            conversationHistory := h; metadata := md |}.
Proof.
  intros Ho Hh Hmd. unfold ByReference.deref. rewrite Ho, Hh, Hmd.
  reflexivity.
Qed.

(** Reading through a reference depends on the three cells it
    reaches. *)
Lemma deref_ext (m m' : ByReference.Manager) context o :
  ByReference.objects m !! context = Some o ->
  ByReference.objects m' !! context = Some o ->
  ByReference.arrays m' !! ByReference.o_conversationHistory o
  = ByReference.arrays m !! ByReference.o_conversationHistory o ->
  ByReference.metadatas m' !! ByReference.o_metadata o
  = ByReference.metadatas m !! ByReference.o_metadata o ->
  ByReference.deref m' context = ByReference.deref m context.
Proof.
  intros Ho Ho' Ha Hm. unfold ByReference.deref.
  rewrite Ho, Ho', Ha, Hm. reflexivity.
Qed.

Lemma separate_empty c clk :
  ByReference.separate (ByReference.new_TracerMemoryManager c clk).
Proof.
  split.
  - intros sid context H. cbn in H. rewrite lookup_empty in H. discriminate.
  - intros sid sid' context context' o o' _ H. cbn in H.
    rewrite lookup_empty in H. discriminate.
Qed.

Lemma abstract_empty c clk :
  ByReference.abstract (ByReference.new_TracerMemoryManager c clk)
  = new_TracerMemoryManager c clk.
Proof.
  unfold ByReference.abstract, ByReference.view. cbn.
  rewrite omap_empty. reflexivity.
Qed.

(** [createSession] allocates the three objects of a session. *)
Lemma ref_createSession sid (m : ByReference.Manager) :
  ByReference.separate m ->
  let m' := snd (ByReference.createSession sid m) in
  ByReference.separate m' /\
  ByReference.handles m' !! sid = Some (fst (ByReference.createSession sid m))
  /\
  ByReference.abstract m' = exec (createSession sid) (ByReference.abstract m).
Proof.
  intros [Hw Ha]. cbv zeta.
  assert (Hold : forall k context,
            k <> sid -> ByReference.handles m !! k = Some context ->
            exists o h md,
              ByReference.objects (snd (ByReference.createSession sid m))
                !! context = Some o /\
              ByReference.objects m !! context = Some o /\
              ByReference.arrays (snd (ByReference.createSession sid m))
                !! ByReference.o_conversationHistory o = Some h /\
              ByReference.arrays m !! ByReference.o_conversationHistory o
                = Some h /\
              ByReference.metadatas (snd (ByReference.createSession sid m))
                !! ByReference.o_metadata o = Some md /\
              ByReference.metadatas m !! ByReference.o_metadata o = Some md /\
              (context < ByReference.fresh m)%nat /\
              (ByReference.o_conversationHistory o < ByReference.fresh m)%nat /\
              (ByReference.o_metadata o < ByReference.fresh m)%nat).
  { intros k context Hk Hc.
    destruct (Hw k context Hc) as (o & h & md & Ho & Hh & Hmd & L1 & L2 & L3).
    exists o, h, md. cbn.
    rewrite !lookup_insert_ne by lia.
    repeat split; assumption. }
  split; [split|split].
  - intros k context Hc. cbn in Hc.
    destruct (decide (sid = k)) as [<-|Hne].
    + rewrite lookup_insert_eq in Hc. injection Hc as <-.
      exists {| ByReference.o_sessionId := sid;
                ByReference.o_projectSession := None;
                ByReference.o_conversationHistory := ByReference.fresh m;
                ByReference.o_metadata := S (ByReference.fresh m) |},
             [],
             {| createdAt := ByReference.now m (ByReference.readings m);
                updatedAt := ByReference.now m (S (ByReference.readings m));
                messageCount := 0 |}.
      cbn. rewrite !lookup_insert_eq.
      repeat split; lia.
    + rewrite lookup_insert_ne in Hc by exact Hne.
      destruct (Hold k context (not_eq_sym Hne) Hc)
        as (o & h & md & Ho' & _ & Hh' & _ & Hmd' & _ & L1 & L2 & L3).
      exists o, h, md. cbn [ByReference.fresh snd ByReference.createSession].
      repeat split; try assumption; lia.
  - intros k k' context context' o o' Hkk Hc Hc' Ho Ho'. cbn in Hc, Hc'.
    destruct (decide (sid = k)) as [<-|Hne];
      destruct (decide (sid = k')) as [<-|Hne']; try contradiction.
    + rewrite lookup_insert_eq in Hc. injection Hc as <-.
      rewrite lookup_insert_ne in Hc' by exact Hne'.
      destruct (Hold k' context' (not_eq_sym Hne') Hc')
        as (o2 & h & md & Ho2 & _ & _ & _ & _ & _ & L1 & L2 & L3).
      rewrite Ho2 in Ho'. injection Ho' as <-.
      cbn in Ho. rewrite lookup_insert_eq in Ho. injection Ho as <-.
      cbn. repeat split; lia.
    + rewrite lookup_insert_eq in Hc'. injection Hc' as <-.
      rewrite lookup_insert_ne in Hc by exact Hne.
      destruct (Hold k context (not_eq_sym Hne) Hc)
        as (o2 & h & md & Ho2 & _ & _ & _ & _ & _ & L1 & L2 & L3).
      rewrite Ho2 in Ho. injection Ho as <-.
      cbn in Ho'. rewrite lookup_insert_eq in Ho'. injection Ho' as <-.
      cbn. repeat split; lia.
    + rewrite lookup_insert_ne in Hc by exact Hne.
      rewrite lookup_insert_ne in Hc' by exact Hne'.
      destruct (Hold k context (not_eq_sym Hne) Hc)
        as (o1 & h1 & md1 & Ho1 & Ho1m & _).
      destruct (Hold k' context' (not_eq_sym Hne') Hc')
        as (o2 & h2 & md2 & Ho2 & Ho2m & _).
      rewrite Ho1 in Ho. injection Ho as <-.
      rewrite Ho2 in Ho'. injection Ho' as <-.
      apply (Ha k k' context context' o1 o2 Hkk Hc Hc' Ho1m Ho2m).
  - cbn. apply lookup_insert_eq.
  - unfold ByReference.abstract, exec, createSession, bind, ret, Date_now,
      sessions_set, with_sessions.
    cbn [fst snd sessions maxMessagesPerSession agent documentGenerator
         clock ticks ByReference.cap ByReference.now
         ByReference.readings ByReference.createSession].
    f_equal. apply map_eq. intros k. rewrite view_lookup.
    cbn [ByReference.handles].
    destruct (decide (sid = k)) as [<-|Hne].
    + rewrite !lookup_insert_eq.
      unfold ByReference.deref. cbn. rewrite !lookup_insert_eq. cbn.
      reflexivity.
    + rewrite !lookup_insert_ne by exact Hne. rewrite view_lookup.
      destruct (ByReference.handles m !! k) as [context|] eqn:Hc;
        [|reflexivity].
      destruct (Hold k context (not_eq_sym Hne) Hc)
        as (o & h & md & Ho' & Ho & Hh' & Hh & Hmd' & Hmd & _).
      apply (deref_ext m _ context o Ho Ho'); congruence.
Qed.

Lemma ref_getSession sid (m : ByReference.Manager) :
  ByReference.separate m ->
  let m' := snd (ByReference.getSession sid m) in
  ByReference.separate m' /\
  ByReference.handles m' !! sid = Some (fst (ByReference.getSession sid m)) /\
  ByReference.abstract m' = exec (getSession sid) (ByReference.abstract m).
Proof.
  intros Hs. cbv zeta. unfold ByReference.getSession.
  destruct (ByReference.handles m !! sid) as [context|] eqn:Hc.
  - split; [exact Hs|]. split; [exact Hc|].
    destruct (ByReference.sep_whole m Hs sid context Hc)
      as (o & h & md & Ho & Hh & Hmd & _).
    unfold exec, getSession, bind, gets. cbn [fst snd sessions
      ByReference.abstract].
    rewrite view_lookup, Hc, (deref_whole m context o h md Ho Hh Hmd).
    reflexivity.
  - destruct (ref_createSession sid m Hs) as (H1 & H2 & H3).
    split; [exact H1|]. split; [exact H2|]. rewrite H3.
    unfold exec, getSession, bind, gets. cbn [fst snd sessions
      ByReference.abstract].
    rewrite view_lookup, Hc. reflexivity.
Qed.

Lemma ref_clearSession sid (m : ByReference.Manager) :
  ByReference.separate m ->
  ByReference.separate (ByReference.clearSession sid m) /\
  ByReference.abstract (ByReference.clearSession sid m)
  = exec (clearSession sid) (ByReference.abstract m).
Proof.
  intros [Hw Ha]. split; [split|].
  - intros k context Hc. cbn in Hc.
    apply lookup_delete_Some in Hc as [_ Hc]. apply (Hw k context Hc).
  - intros k k' context context' o o' Hkk Hc Hc' Ho Ho'. cbn in *.
    apply lookup_delete_Some in Hc as [_ Hc].
    apply lookup_delete_Some in Hc' as [_ Hc'].
    apply (Ha k k' context context' o o' Hkk Hc Hc' Ho Ho').
  - unfold ByReference.abstract, exec, clearSession, sessions_delete,
      with_sessions.
    cbn [fst snd sessions maxMessagesPerSession agent documentGenerator
         clock ticks ByReference.cap ByReference.now ByReference.readings
         ByReference.clearSession].
    f_equal. apply map_eq. intros k. rewrite view_lookup.
    change (ByReference.handles (ByReference.clearSession sid m))
      with (delete sid (ByReference.handles m)).
    destruct (decide (sid = k)) as [<-|Hne].
    + rewrite !lookup_delete_eq. reflexivity.
    + rewrite !lookup_delete_ne by exact Hne. rewrite view_lookup.
      destruct (ByReference.handles m !! k); reflexivity.
Qed.

(** The session that [addMessage] stores, as a value. *)
Lemma addMessage_known_run sid r text w c :
  sessions w !! sid = Some c ->
  exec (addMessage sid r text) w =
    {| sessions :=
         <[sid :=
             {| sessionId := sessionId c;
                projectSession := projectSession c;
                conversationHistory :=
                  trim (maxMessagesPerSession w)
                    (conversationHistory c
                       ++ [{| role := r; content := text;
                              timestamp := clock w (ticks w) |}]);
                metadata :=
                  {| createdAt := createdAt (metadata c);
                     updatedAt := clock w (S (ticks w));
                     messageCount := messageCount (metadata c) + 1 |} |}]>
           (sessions w);
       maxMessagesPerSession := maxMessagesPerSession w;
       agent := agent w; documentGenerator := documentGenerator w;
       clock := clock w; ticks := S (S (ticks w)) |}.
Proof.
  intros Hc. unfold exec, addMessage, getSession, bind, gets, ret, Date_now,
    sessions_set, with_sessions. cbn [fst snd]. rewrite Hc. reflexivity.
Qed.

Lemma addMessage_after_getSession sid r text w :
  exec (addMessage sid r text) w
  = exec (addMessage sid r text) (exec (getSession sid) w).
Proof.
  pose proof (getSession_eval sid w) as Hk.
  unfold addMessage at 2. rewrite exec_bind.
  rewrite (getSession_eval_known sid _ _ Hk).
  rewrite (getSession_exec_known sid _ _ Hk).
  unfold addMessage. rewrite exec_bind. reflexivity.
Qed.

(** [addMessage] on a key of the map, by reference. *)
Lemma ref_addMessage_run sid r text (m : ByReference.Manager) context o h md :
  ByReference.handles m !! sid = Some context ->
  ByReference.objects m !! context = Some o ->
  ByReference.arrays m !! ByReference.o_conversationHistory o = Some h ->
  ByReference.metadatas m !! ByReference.o_metadata o = Some md ->
  ByReference.addMessage sid r text m =
    let pushed :=
      h ++ [{| role := r; content := text;
               timestamp := ByReference.now m (ByReference.readings m) |}] in
    let long := Z.of_nat (length pushed) >? ByReference.cap m in
    {| ByReference.handles := <[sid := context]> (ByReference.handles m);
       ByReference.objects :=
         <[context :=
             {| ByReference.o_sessionId := ByReference.o_sessionId o;
                ByReference.o_projectSession := ByReference.o_projectSession o;
                ByReference.o_conversationHistory :=
                  if long then ByReference.fresh m
                  else ByReference.o_conversationHistory o;
                ByReference.o_metadata := ByReference.o_metadata o |}]>
           (ByReference.objects m);
       ByReference.arrays :=
         if long
         then <[ByReference.fresh m :=
                  slice_from (- ByReference.cap m) pushed]>
                (<[ByReference.o_conversationHistory o := pushed]>
                   (ByReference.arrays m))
         else <[ByReference.o_conversationHistory o := pushed]>
                (ByReference.arrays m);
       ByReference.metadatas :=
         <[ByReference.o_metadata o :=
             {| createdAt := createdAt md;
                updatedAt := ByReference.now m (S (ByReference.readings m));
                messageCount := messageCount md + 1 |}]>
           (ByReference.metadatas m);
       ByReference.fresh :=
         if long then S (ByReference.fresh m) else ByReference.fresh m;
       ByReference.cap := ByReference.cap m;
       ByReference.now := ByReference.now m;
       ByReference.readings := S (S (ByReference.readings m)) |}.
Proof.
  intros Hc Ho Hh Hmd. unfold ByReference.addMessage, ByReference.getSession.
  rewrite Hc. cbn [fst snd]. rewrite Ho, Hh, Hmd. reflexivity.
Qed.

Lemma ref_addMessage_known sid r text (m : ByReference.Manager) context :
  ByReference.separate m ->
  ByReference.handles m !! sid = Some context ->
  ByReference.separate (ByReference.addMessage sid r text m) /\
  ByReference.abstract (ByReference.addMessage sid r text m)
  = exec (addMessage sid r text) (ByReference.abstract m).
Proof.
  intros [Hw Ha] Hc.
  destruct (Hw sid context Hc) as (o & h & md & Ho & Hh & Hmd & B1 & B2 & B3).
  rewrite (ref_addMessage_run sid r text m context o h md Hc Ho Hh Hmd).
  cbv zeta.
  set (pushed := h ++ [{| role := r; content := text;
                          timestamp := ByReference.now m
                                         (ByReference.readings m) |}]).
  set (long := Z.of_nat (length pushed) >? ByReference.cap m).
  set (m' := {| ByReference.handles := _ |}).
  assert (Hfresh : (ByReference.fresh m <= ByReference.fresh m')%nat)
    by (cbn; destruct long; lia).
  assert (Hother : forall k c2,
            k <> sid -> ByReference.handles m !! k = Some c2 ->
            exists o2 h2 md2,
              ByReference.objects m !! c2 = Some o2 /\
              ByReference.objects m' !! c2 = Some o2 /\
              ByReference.arrays m !! ByReference.o_conversationHistory o2
                = Some h2 /\
              ByReference.arrays m' !! ByReference.o_conversationHistory o2
                = Some h2 /\
              ByReference.metadatas m !! ByReference.o_metadata o2
                = Some md2 /\
              ByReference.metadatas m' !! ByReference.o_metadata o2
                = Some md2 /\
              (c2 < ByReference.fresh m)%nat /\
              (ByReference.o_conversationHistory o2
                 < ByReference.fresh m)%nat /\
              (ByReference.o_metadata o2 < ByReference.fresh m)%nat /\
              c2 <> context /\
              ByReference.o_conversationHistory o2
                <> ByReference.o_conversationHistory o /\
              ByReference.o_metadata o2 <> ByReference.o_metadata o).
  { intros k c2 Hk Hc2.
    destruct (Hw k c2 Hc2) as (o2 & h2 & md2 & Ho2 & Hh2 & Hmd2 & L1 & L2 & L3).
    destruct (Ha k sid c2 context o2 o Hk Hc2 Hc Ho2 Ho) as (N1 & N2 & N3).
    exists o2, h2, md2. cbn.
    rewrite lookup_insert_ne by congruence.
    rewrite (lookup_insert_ne (ByReference.metadatas m)) by congruence.
    assert (Harr : (if long
                    then <[ByReference.fresh m :=
                             slice_from (- ByReference.cap m) pushed]>
                           (<[ByReference.o_conversationHistory o := pushed]>
                              (ByReference.arrays m))
                    else <[ByReference.o_conversationHistory o := pushed]>
                           (ByReference.arrays m))
                   !! ByReference.o_conversationHistory o2 = Some h2).
    { destruct long.
      - rewrite lookup_insert_ne by lia.
        rewrite lookup_insert_ne by congruence. exact Hh2.
      - rewrite lookup_insert_ne by congruence. exact Hh2. }
    repeat split; assumption. }
  assert (Hself :
    ByReference.deref m' context
    = Some {| sessionId := ByReference.o_sessionId o;
              projectSession := ByReference.o_projectSession o;
              conversationHistory := trim (ByReference.cap m) pushed;
              metadata :=
                {| createdAt := createdAt md;
                   updatedAt := ByReference.now m
                                  (S (ByReference.readings m));
                   messageCount := messageCount md + 1 |} |}).
  { unfold ByReference.deref. cbn. rewrite lookup_insert_eq. cbn.
    rewrite lookup_insert_eq. unfold trim. fold long.
    destruct long; rewrite lookup_insert_eq; reflexivity. }
  split; [split|].
  - intros k c2 Hc2. cbn in Hc2.
    destruct (decide (sid = k)) as [<-|Hne].
    + rewrite lookup_insert_eq in Hc2. injection Hc2 as <-.
      eexists _, (trim (ByReference.cap m) pushed), _.
      split; [cbn; apply lookup_insert_eq|].
      cbn [ByReference.o_conversationHistory ByReference.o_metadata].
      split.
      { cbn. unfold trim. fold long.
        destruct long; apply lookup_insert_eq. }
      split; [cbn; apply lookup_insert_eq|].
      cbn. destruct long; repeat split; lia.
    + rewrite lookup_insert_ne in Hc2 by exact Hne.
      destruct (Hother k c2 (not_eq_sym Hne) Hc2)
        as (o2 & h2 & md2 & _ & Ho2 & _ & Hh2 & _ & Hmd2 & L1 & L2 & L3 & _).
      exists o2, h2, md2. repeat split; try assumption; lia.
  - intros k k' c1 c2 o1 o2 Hkk Hc1 Hc2 Ho1 Ho2. cbn in Hc1, Hc2.
    destruct (decide (sid = k)) as [<-|Hne];
      destruct (decide (sid = k')) as [<-|Hne']; try contradiction.
    + rewrite lookup_insert_eq in Hc1. injection Hc1 as <-.
      rewrite lookup_insert_ne in Hc2 by exact Hne'.
      destruct (Hother k' c2 (not_eq_sym Hne') Hc2)
        as (o2' & h2 & md2 & _ & Ho2' & _ & _ & _ & _ & L1 & L2 & L3
            & N1 & N2 & N3).
      rewrite Ho2' in Ho2. injection Ho2 as <-.
      cbn in Ho1. rewrite lookup_insert_eq in Ho1. injection Ho1 as <-.
      cbn. destruct long; repeat split; try congruence; lia.
    + rewrite lookup_insert_eq in Hc2. injection Hc2 as <-.
      rewrite lookup_insert_ne in Hc1 by exact Hne.
      destruct (Hother k c1 (not_eq_sym Hne) Hc1)
        as (o1' & h1 & md1 & _ & Ho1' & _ & _ & _ & _ & L1 & L2 & L3
            & N1 & N2 & N3).
      rewrite Ho1' in Ho1. injection Ho1 as <-.
      cbn in Ho2. rewrite lookup_insert_eq in Ho2. injection Ho2 as <-.
      cbn. destruct long; repeat split; try congruence; lia.
    + rewrite lookup_insert_ne in Hc1 by exact Hne.
      rewrite lookup_insert_ne in Hc2 by exact Hne'.
      destruct (Hother k c1 (not_eq_sym Hne) Hc1)
        as (o1' & h1 & md1 & Ho1m & Ho1' & _).
      destruct (Hother k' c2 (not_eq_sym Hne') Hc2)
        as (o2' & h2 & md2 & Ho2m & Ho2' & _).
      rewrite Ho1' in Ho1. injection Ho1 as <-.
      rewrite Ho2' in Ho2. injection Ho2 as <-.
      apply (Ha k k' c1 c2 o1' o2' Hkk Hc1 Hc2 Ho1m Ho2m).
  - assert (Hv : sessions (ByReference.abstract m) !! sid
                 = Some {| sessionId := ByReference.o_sessionId o;
                           projectSession := ByReference.o_projectSession o;
                           conversationHistory := h; metadata := md |}).
    { cbn [sessions ByReference.abstract]. rewrite view_lookup, Hc.
      apply (deref_whole m context o h md Ho Hh Hmd). }
    rewrite (addMessage_known_run sid r text _ _ Hv).
    unfold ByReference.abstract.
    cbn [sessions maxMessagesPerSession agent documentGenerator clock ticks
         sessionId projectSession conversationHistory metadata].
    assert (Hmap : ByReference.view m' =
              <[sid := {| sessionId := ByReference.o_sessionId o;
                          projectSession := ByReference.o_projectSession o;
                          conversationHistory :=
                            trim (ByReference.cap m) pushed;
                          metadata :=
                            {| createdAt := createdAt md;
                               updatedAt := ByReference.now m
                                              (S (ByReference.readings m));
                               messageCount := messageCount md + 1 |} |}]>
                (ByReference.view m)).
    { apply map_eq. intros k. rewrite view_lookup.
      change (ByReference.handles m')
        with (<[sid := context]> (ByReference.handles m)).
      destruct (decide (sid = k)) as [<-|Hne].
      - rewrite !lookup_insert_eq. exact Hself.
      - rewrite !lookup_insert_ne by exact Hne. rewrite view_lookup.
        destruct (ByReference.handles m !! k) as [c2|] eqn:Hc2;
          [|reflexivity].
        destruct (Hother k c2 (not_eq_sym Hne) Hc2)
          as (o2 & h2 & md2 & Ho2 & Ho2' & Hh2 & Hh2' & Hmd2 & Hmd2' & _).
        apply (deref_ext m m' c2 o2 Ho2 Ho2'); congruence. }
    rewrite Hmap. reflexivity.
Qed.

Lemma ref_addMessage sid r text (m : ByReference.Manager) :
  ByReference.separate m ->
  ByReference.separate (ByReference.addMessage sid r text m) /\
  ByReference.abstract (ByReference.addMessage sid r text m)
  = exec (addMessage sid r text) (ByReference.abstract m).
Proof.
  intros Hs.
  destruct (ref_getSession sid m Hs) as (Hs1 & Hk & Hab). cbv zeta in *.
  assert (Hsame :
    ByReference.addMessage sid r text m
    = ByReference.addMessage sid r text (snd (ByReference.getSession sid m))).
  { assert (Hg : ByReference.getSession sid
                   (snd (ByReference.getSession sid m))
                 = (fst (ByReference.getSession sid m),
                    snd (ByReference.getSession sid m))).
    { unfold ByReference.getSession at 1. rewrite Hk. reflexivity. }
    unfold ByReference.addMessage. rewrite Hg. reflexivity. }
  rewrite Hsame, addMessage_after_getSession, <- Hab.
  apply (ref_addMessage_known sid r text _ _ Hs1 Hk).
Qed.

Lemma ref_call c (m : ByReference.Manager) :
  ByReference.separate m ->
  ByReference.separate (ByReference.call c m) /\
  ByReference.abstract (ByReference.call c m)
  = exec (spec c) (ByReference.abstract m).
Proof.
  intros Hs. destruct c as [sid|sid|sid r text|sid]; cbn [ByReference.call spec].
  - destruct (ref_createSession sid m Hs) as (H1 & _ & H2).
    split; [exact H1|]. rewrite exec_bind, exec_ret. exact H2.
  - destruct (ref_getSession sid m Hs) as (H1 & _ & H2).
    split; [exact H1|]. rewrite exec_bind, exec_ret. exact H2.
  - apply ref_addMessage, Hs.
  - apply ref_clearSession, Hs.
Qed.

Lemma ref_callAll cs : forall (m : ByReference.Manager),
  ByReference.separate m ->
  ByReference.separate (ByReference.callAll cs m) /\
  ByReference.abstract (ByReference.callAll cs m)
  = fold_left (fun w c => exec (spec c) w) cs (ByReference.abstract m).
Proof.
  induction cs as [|c more IH]; intros m Hs; [split; [exact Hs|reflexivity]|].
  destruct (ref_call c m Hs) as (H1 & H2).
  destruct (IH _ H1) as (H3 & H4).
  unfold ByReference.callAll in *. cbn [fold_left].
  split; [exact H3|]. rewrite H4, H2. reflexivity.
Qed.

Lemma spec_acts c : acts_at (methodKey c) (spec c).
Proof.
  destruct c as [sid|sid|sid r text|sid]; cbn [methodKey spec].
  - apply acts_at_bind; [apply createSession_acts|intros; apply acts_at_ret].
  - apply acts_at_bind; [apply getSession_acts|intros; apply acts_at_ret].
  - apply addMessage_acts.
  - apply clearSession_acts.
Qed.

(** ** Further results *)

(** X1.  Over every history of the manager's methods and of requests
    that imports only sessions consistent with their own key, every
    stored session carries the key it is stored under in [sessionId],
    and so does its project session. *)
Theorem stored_sessions_carry_their_key (history : list Action) (w : World)
    (sid : string) (c : ChatContext) :
  Forall importsConsistent history ->
  allConsistent (sessions w) ->
  sessions (exec (actAll history) w) !! sid = Some c ->
  sessionId c = sid /\
  forall p, projectSession c = Some p -> ps_sessionId p = sid.
Proof.
  intros Hi Hw Hc.
  destruct (actAll_consistent history w Hi Hw sid c Hc) as [Hk Hp].
  split; [exact Hk|]. intros p Hps. apply (Hp p Hps).
Qed.

(** X2.  Nothing writes the project session's own log.  Over every
    history of the manager's methods and of requests, from every
    store, the log of a stored project session is empty, as
    [initializeProjectSession] makes it, or it is the log that the
    project session under the same key had in the store at the start,
    or the log of the project session of a session imported under that
    key; in each case the conversation text that [generateRequirements]
    builds from it is the one of that origin, the empty string in the
    first. *)
Theorem the_project_log_is_never_written (history : list Action)
    (w : World) (sid : string) (p : ProjectSession) :
  getProjectSession sid (exec (actAll history) w) = Some p ->
  (ps_conversationHistory p = [] /\ requirementsConversation p = "") \/
  (exists p0,
     getProjectSession sid w = Some p0 /\
     ps_conversationHistory p = ps_conversationHistory p0 /\
     requirementsConversation p = requirementsConversation p0) \/
  (exists c p0,
     In (DoImportSession c) history /\ sessionId c = sid /\
     projectSession c = Some p0 /\
     ps_conversationHistory p = ps_conversationHistory p0 /\
     requirementsConversation p = requirementsConversation p0).
Proof.
  intros Hp.
  destruct (getProjectSession_Some _ _ _ Hp) as (c & Hc & Hps).
  set (L := fun (k : string) (l : list PhaseEntry) =>
              l = [] \/
              (exists p0, getProjectSession k w = Some p0 /\
                          l = ps_conversationHistory p0) \/
              (exists c0 p0, In (DoImportSession c0) history /\
                             sessionId c0 = k /\
                             projectSession c0 = Some p0 /\
                             l = ps_conversationHistory p0)).
  assert (H : L sid (ps_conversationHistory p)).
  { apply (actAll_logs L history w) with (c := c); [| | |exact Hc|exact Hps].
    - intros k. left. reflexivity.
    - intros c0 p0 Hin Hp0. right. right. exists c0, p0. auto.
    - intros k c0 p0 Hc0 Hp0. right. left. exists p0.
      split; [|reflexivity]. unfold getProjectSession. rewrite Hc0.
      exact Hp0. }
  destruct H as [E|[(p0 & H0 & E)|(c0 & p0 & Hin & Hk & H0 & E)]].
  - left. split; [exact E|]. unfold requirementsConversation. rewrite E.
    reflexivity.
  - right. left. exists p0. split; [exact H0|]. split; [exact E|].
    unfold requirementsConversation. rewrite E. reflexivity.
  - right. right. exists c0, p0. split; [exact Hin|]. split; [exact Hk|].
    split; [exact H0|]. split; [exact E|].
    unfold requirementsConversation. rewrite E. reflexivity.
Qed.

(** X3.  The store holds the sessions as values: it has no two
    sessions built around one array or object, which in the code only
    [importSession] can bring in, since it stores the object it is
    given.  So the statement is made for the stores that the manager
    builds itself: in a store grown from a new manager by its methods
    other than [importSession] and by requests, such an operation that
    names a key leaves the sessions under every other key exactly as
    they were: the manager's methods with their first argument, the
    handler with the body's [sessionId] when it is truthy. *)
Theorem actions_touch_only_their_key (history : list Action) (a : Action)
    (cap : Z) (clk : nat -> Z) (sid k : string) :
  Forall importsNothing history ->
  importsNothing a ->
  keyOf a = Some sid ->
  k <> sid ->
  let w := exec (actAll history) (new_TracerMemoryManager cap clk) in
  sessions (exec (act a) w) !! k = sessions w !! k.
Proof.
  intros _ Hni Hkey Hk w. generalize w. clear w. intros w.
  assert (Hat : forall (m : M unit), acts_at sid m ->
            sessions (exec m w) !! k = sessions w !! k).
  { intros m Hm. apply (proj1 (Hm w) k Hk). }
  destruct a as [s|s|s r text|s name|s phase|s r|s d|s t
                |s q|s q ans|s| |c|hoursOld|env req];
    cbn [keyOf] in Hkey; try discriminate;
    try (injection Hkey as ->); cbn [act].
  - apply Hat, acts_at_bind; [apply createSession_acts|intros; apply acts_at_ret].
  - apply Hat, acts_at_bind; [apply getSession_acts|intros; apply acts_at_ret].
  - apply Hat, addMessage_acts.
  - apply Hat, acts_at_bind;
      [apply initializeProjectSession_acts|intros; apply acts_at_ret].
  - apply Hat, updateProjectPhase_acts.
  - apply Hat, setRequirements_raw_acts.
  - apply Hat, setDesign_raw_acts.
  - apply Hat, setTasks_raw_acts.
  - apply Hat, addAskedQuestion_acts.
  - apply Hat, addUserAnswer_acts.
  - apply Hat, clearSession_acts.
  - destruct Hni.
  - rewrite exec_bind, exec_ret.
    destruct (POST_acts env req w) as (s & [Hframe _] & Hs).
    destruct (json req) as [b|e] eqn:Hj; [|discriminate].
    destruct (truthy (body_sessionId b)) eqn:Ht; [|discriminate].
    specialize (Hs b eq_refl Ht). rewrite Hkey in Hs. injection Hs as <-.
    apply (Hframe k Hk).
Qed.

(** X4.  A response carries a document only when the document of a
    session was due and its generator returned it: the phase of the
    document is before complete, the status is 200, the snapshot in the
    response is the session's project session as stored afterwards,
    with the payloads it had and its phase one further. *)
Theorem a_document_was_due (env : Env) (req : Request) (w : World)
    (d : GeneratedDocument) :
  documentOf (response (eval (POST env req) w)) = Some d ->
  status (response (eval (POST env req) w)) = 200 /\
  doc_type d <> Complete /\
  exists sid p p',
    due sid (doc_type d) p w /\
    generation env (doc_type d) p = Returns (doc_content d) /\
    snapshotOf (response (eval (POST env req) w)) = Some p' /\
    getProjectSession sid (exec (POST env req) w) = Some p' /\
    currentPhase p' = successor (doc_type d) /\
    carried p p'.
Proof.
  intros Hd.
  destruct (POST_outcomes env req w)
    as [(Hnone & _)
       |(sid & phase & p & doc & t & t1 & t2 & _ & Hdue & Hg & Hst & Hdoc
         & Hsn & Hp)].
  - rewrite Hnone in Hd. discriminate.
  - rewrite Hdoc in Hd. injection Hd as <-. cbn [doc_type doc_content].
    split; [exact Hst|]. split; [apply Hdue|].
    exists sid, p, (with_phase (successor phase) t1 t2 (restamp phase t p)).
    split; [exact Hdue|]. split; [exact Hg|]. split; [exact Hsn|].
    split; [|split; [reflexivity|apply carried_advance, Hdue]].
    rewrite Hp. destruct (decide (sid = sid)); [reflexivity|contradiction].
Qed.

(** X5.  A request whose response carries no document carries no
    snapshot either, and it leaves every project session that was
    there exactly as it was: project sessions change only together
    with a generated document. *)
Theorem without_a_document_nothing_moves (env : Env) (req : Request)
    (w : World) :
  documentOf (response (eval (POST env req) w)) = None ->
  snapshotOf (response (eval (POST env req) w)) = None /\
  forall sid p, getProjectSession sid w = Some p ->
                getProjectSession sid (exec (POST env req) w) = Some p.
Proof.
  intros Hd.
  destruct (POST_outcomes env req w)
    as [(_ & Hs & _ & Hp)
       |(sid & phase & p & doc & t & t1 & t2 & _ & _ & _ & _ & Hdoc & _)].
  - split; [exact Hs|]. intros sid p Hq.
    destruct (Hp sid) as [E|(E & _)]; [rewrite E; exact Hq|congruence].
  - rewrite Hdoc in Hd. discriminate.
Qed.

(** X6.  Requests alone never produce a document.  On a store whose
    project sessions are blank (as on a new manager), after any
    sequence of requests the project sessions are still blank, in the
    requirements phase and without payload, no response carries a
    document and no generator was called: a payload gets into the
    store only through a setter, and the handler calls a setter only
    with the payload that is already there. *)
Theorem requests_alone_generate_nothing (requests : list (Env * Request))
    (w : World) :
  allBlank w ->
  allBlank (exec (serve requests) w) /\
  Forall (fun h =>
            documentOf (response h) = None /\
            forallb (fun c => negb (isGeneration c)) (calls h) = true)
    (eval (serve requests) w).
Proof.
  revert w. induction requests as [|[env req] more IH]; intros w Hb.
  - split; [exact Hb|constructor].
  - destruct (POST_blank env req w Hb) as (Hb1 & Hd & Hc).
    destruct (IH _ Hb1) as (Hb2 & Hall).
    cbn [serve]. rewrite exec_bind, exec_bind, exec_ret.
    split; [exact Hb2|].
    rewrite eval_bind, eval_bind. unfold eval at 1, ret. cbn [fst].
    constructor; [split; assumption|exact Hall].
Qed.

(** X7.  A document generator that fails to build is never built
    again.  When the agent builds and the generator's constructor
    throws on the first request, that request fails with status 500,
    the agent stays and the generator stays null; every later request
    skips the document step: no response carries a document and no
    generator is called, whatever is stored. *)
Theorem a_failed_generator_is_never_rebuilt (env : Env) (req : Request)
    (e : string) (u : unit) (later : list (Env * Request)) (w : World) :
  truthy (OPENROUTER_API_KEY env) || truthy (OPENAI_API_KEY env) = true ->
  agent w = false -> documentGenerator w = false ->
  new_TracerAgent env = Returns u ->
  new_DocumentGeneratorChain env = Throws e ->
  let w1 := exec (POST env req) w in
  status (response (eval (POST env req) w)) = 500 /\
  sessions w1 = sessions w /\
  agent w1 = true /\ documentGenerator w1 = false /\
  documentGenerator (exec (serve later) w1) = false /\
  Forall (fun h =>
            documentOf (response h) = None /\
            forallb (fun c => negb (isGeneration c)) (calls h) = true)
    (eval (serve later) w1).
Proof.
  intros Hkey Ha Hd Hta Htd w1.
  assert (Hfirst : POST env req w =
    ({| response := server_error
          "AI service initialization failed. Check your API key configuration.";
        calls := [] |},
     {| sessions := sessions w;
        maxMessagesPerSession := maxMessagesPerSession w;
        agent := true; documentGenerator := false;
        clock := clock w; ticks := ticks w |})).
  { unfold POST. rewrite Hkey. cbn [negb].
    unfold bind at 1, initializeAgents, bind, gets, ret, set_agents.
    cbn [fst snd]. rewrite Ha, Hta. cbn [fst snd]. rewrite Htd, Hd.
    reflexivity. }
  assert (Ha1 : agent w1 = true)
    by (unfold w1, exec; rewrite Hfirst; reflexivity).
  assert (Hd1 : documentGenerator w1 = false)
    by (unfold w1, exec; rewrite Hfirst; reflexivity).
  split; [unfold eval; rewrite Hfirst; reflexivity|].
  split; [unfold w1, exec; rewrite Hfirst; reflexivity|].
  split; [exact Ha1|]. split; [exact Hd1|].
  destruct (serve_without_generator later w1 Ha1 Hd1) as (_ & H2 & H3).
  split; assumption.
Qed.

(** X8.  When the agent throws, the request fails with status 500 and
    the agent's message, but the user's turn is already in the log.
    Whatever the key of the request is, the one in the body or one
    made from the clock: when the chat call of a request throws, it is
    the only call, made with the text of the last message and the log
    of the key, which is the old log with the user's text pushed and
    trimmed; that log stays, with no entry of the assistant, and the
    other logs are as they were. *)
Theorem the_user_turn_stays_when_the_agent_fails (env : Env) (req : Request)
    (w : World) (message sid : string) (history : list Entry) (e : string) :
  In (CallChat message sid history) (calls (eval (POST env req) w)) ->
  chat env message sid history = Throws e ->
  response (eval (POST env req) w) = server_error e /\
  calls (eval (POST env req) w) = [CallChat message sid history] /\
  (exists (b : Body) (first : UIMessage) (rest : list UIMessage) (t : Z),
     json req = Returns b /\
     messages b = Some (first :: rest) /\
     sid = sessionKey b w /\
     message = textOf (lastMessage first rest) /\
     history = trim (maxMessagesPerSession w)
                 (getConversationHistory sid w
                    ++ [entryOf User message t])) /\
  getConversationHistory sid (exec (POST env req) w) = history /\
  forall sid', sid' <> sid ->
    getConversationHistory sid' (exec (POST env req) w)
    = getConversationHistory sid' w.
Proof.
  intros Hin Hchat.
  destruct (POST_reached env req w)
    as [(Hnone & _)|(b & first & rest & dg & tu & t1 & t2 & t3 & w3 & Hj & Hm
                     & Hrun)].
  { rewrite Hnone in Hin. destruct Hin. }
  cbv zeta in Hrun. destruct Hrun as (_ & Hlog & _ & Hend).
  destruct Hend as [(e' & Hc & E)|(reply & Hc & E)].
  - unfold eval, exec in *. rewrite E in Hin |- *.
    cbn [fst snd response calls] in Hin |- *.
    destruct Hin as [Heq|[]]. injection Heq as <- <- <-.
    rewrite Hchat in Hc. injection Hc as <-.
    split; [reflexivity|]. split; [reflexivity|]. split.
    { exists b, first, rest, tu. repeat (split; [reflexivity || assumption|]).
      reflexivity. }
    split.
    + rewrite Hlog, decide_True by reflexivity. reflexivity.
    + intros sid' Hne. rewrite Hlog, decide_False by congruence. reflexivity.
  - exfalso. unfold eval in Hin. rewrite E, conclude_run in Hin.
    cbv zeta in Hin. cbn [fst calls] in Hin.
    destruct Hin as [Heq|Hin].
    + injection Heq as <- <- <-. rewrite Hchat in Hc. discriminate.
    + apply (documentStep_calls env (sessionKey b w) dg reply w3) in Hin.
      discriminate.
Qed.

(** X9.  The first message of a conversation on a key that has no
    project session, whether the key is the one in the body or one
    made from the clock: when the request is answered with status 200,
    the agent was called once, with the user's text and the log that
    ends with it, and returned the reply that the response carries,
    without document; a project session "New Project" in phase
    requirements is stored under the key, and the log then gets the
    reply. *)
Theorem the_first_message_starts_a_project (env : Env) (req : Request)
    (b : Body) (first : UIMessage) (w : World) :
  json req = Returns b ->
  messages b = Some [first] ->
  getProjectSession (sessionKey b w) w = None ->
  status (response (eval (POST env req) w)) = 200 ->
  exists (reply : string) (tu ta tm t1 t2 t3 : Z),
    let sid := sessionKey b w in
    let asked :=
      trim (maxMessagesPerSession w)
        (getConversationHistory sid w ++ [entryOf User (textOf first) tu]) in
    chat env (textOf first) sid asked = Returns reply /\
    response (eval (POST env req) w) =
      {| status := 200;
         body := DataBody
           {| rd_id := "msg-" +:+ pretty tm;
              rd_role := Assistant;
              rd_content := reply;
              rd_parts := [{| part_type := "text"; part_text := reply |}];
              document := None;
              rd_projectSession := None |} |} /\
    calls (eval (POST env req) w) = [CallChat (textOf first) sid asked] /\
    getProjectSession sid (exec (POST env req) w)
      = Some {| ps_sessionId := sid; projectName := "New Project";
                currentPhase := Requirements;
                requirements := None; design := None; tasks := None;
                ps_conversationHistory := []; questionsAsked := [];
                userAnswers := ∅;
                ps_metadata := {| ps_createdAt := t1; ps_updatedAt := t2;
                                  lastPhaseChange := t3 |} |} /\
    getConversationHistory sid (exec (POST env req) w)
      = trim (maxMessagesPerSession w)
          (asked ++ [entryOf Assistant reply ta]).
Proof.
  intros Hjson Hmsg Hnone Hst.
  destruct (POST_reached env req w)
    as [(_ & Hno)|(b' & first' & rest & dg & tu & t1 & t2 & t3 & w3 & Hj & Hm
                   & Hrun)].
  { contradiction. }
  rewrite Hjson in Hj. injection Hj as <-.
  rewrite Hmsg in Hm. injection Hm as <- <-.
  cbv zeta in Hrun. change (lastMessage first []) with first in Hrun.
  destruct Hrun as (Hcap & Hlog & Hps & Hend).
  specialize (Hps (sessionKey b w)). specialize (Hlog (sessionKey b w)).
  rewrite decide_True, Hnone in Hps by reflexivity.
  rewrite decide_True in Hlog by reflexivity.
  remember (sessionKey b w) as sid eqn:Hsid.
  remember (trim (maxMessagesPerSession w)
              (getConversationHistory sid w
                 ++ [entryOf User (textOf first) tu])) as asked.
  destruct Hend as [(e & _ & E)|(reply & Hc & E)].
  { unfold eval in Hst. rewrite E in Hst. discriminate. }
  destruct (conclude_plain env sid dg reply (textOf first) asked w3)
    as (tm & Hr & Hw).
  { intros phase p Hdue. exfalso.
    apply (blank_not_due sid phase p w3 Hdue).
    apply due_has_project in Hdue. rewrite Hps in Hdue.
    injection Hdue as <-. apply blank_fresh. }
  destruct (respond_history sid reply None w3) as (ta & Hrh).
  specialize (Hrh sid). rewrite decide_True in Hrh by reflexivity.
  exists reply, tu, ta, tm, t1, t2, t3. cbv zeta. rewrite <- Heqasked.
  split; [exact Hc|].
  unfold eval at 1 2, exec at 1 2. rewrite E.
  fold (exec (conclude env sid dg reply (textOf first) asked) w3).
  fold (eval (conclude env sid dg reply (textOf first) asked) w3).
  rewrite Hr, Hw. cbn [response calls].
  split; [reflexivity|]. split; [reflexivity|]. split.
  - rewrite (respond_projectSession sid reply None sid w3). exact Hps.
  - rewrite Hrh, Hcap, Hlog. reflexivity.
Qed.

(** X10.  A request that carries two messages or more never starts a
    project session: on a key that has none there is none afterwards,
    the response has no document and no generator is called. *)
Theorem later_messages_start_no_project (env : Env) (req : Request)
    (b : Body) (first second : UIMessage) (rest : list UIMessage)
    (w : World) :
  json req = Returns b ->
  messages b = Some (first :: second :: rest) ->
  getProjectSession (sessionKey b w) w = None ->
  getProjectSession (sessionKey b w) (exec (POST env req) w) = None /\
  documentOf (response (eval (POST env req) w)) = None /\
  forall c, In c (calls (eval (POST env req) w)) -> isGeneration c = false.
Proof.
  intros Hjson Hmsg Hnone.
  destruct (later_messages_none env req b first second rest w Hjson Hmsg
              Hnone) as (Hp & Hd & Hc).
  split; [exact Hp|]. split; [exact Hd|].
  intros c Hin. rewrite forallb_forall in Hc.
  apply negb_true_iff, (Hc c), Hin.
Qed.


(** X12.  With a cap of one message or more, the agent always finds
    the user's message at the end of the history it is given: every
    chat call of a request has the text it answers as the last entry of
    its history. *)
Theorem the_history_given_to_chat_ends_with_the_message (env : Env) (req : Request)
    (w : World) (message sid : string) (history : list Entry) :
  1 <= maxMessagesPerSession w ->
  In (CallChat message sid history) (calls (eval (POST env req) w)) ->
  exists t : Z, last history = Some (entryOf User message t).
Proof.
  intros Hcap Hin.
  destruct (POST_run env req w)
    as [(r & E & _)|[(r & E & _)|
        (b & first & rest & dg & Hkey & Hag & Hj & Hm & Hrun)]].
  - unfold eval in Hin. rewrite E in Hin. destruct Hin.
  - unfold eval in Hin. rewrite E in Hin. destruct Hin.
  - cbv zeta in Hrun.
    remember (exec (initializeAgents env) w) as w1 eqn:Hw1.
    assert (Hcap1 : maxMessagesPerSession w1 = maxMessagesPerSession w)
      by (subst w1; apply initializeAgents_cap).
    pose proof (effectiveSessionId_rest (body_sessionId b) w1) as (Hc & _).
    remember (eval (effectiveSessionId (body_sessionId b)) w1) as key.
    remember (exec (effectiveSessionId (body_sessionId b)) w1) as w2.
    rewrite Hcap1 in Hc.
    destruct (receive_history key first rest w2) as (t & Hev & _).
    rewrite Hc in Hev.
    remember (eval (receive key first rest) w2) as received.
    remember (exec (receive key first rest) w2) as w3.
    clear Hw1 Heqkey Heqw2 Heqreceived Heqw3.
    assert (Hhead : CallChat (fst received) key (snd received)
                    = CallChat message sid history ->
                    exists t, last history = Some (entryOf User message t)).
    { intros Heq. injection Heq as <- <- <-. exists t.
      rewrite Hev. cbn [fst snd]. apply last_trim, Hcap. }
    destruct Hrun as [(e & _ & E)|(reply & _ & E)].
    + unfold eval in Hin. rewrite E in Hin. cbn [fst calls] in Hin.
      destruct Hin as [Heq|[]]. apply Hhead. exact Heq.
    + change (POST env req w
              = conclude env key dg reply (fst received) (snd received) w3)
        in E.
      unfold eval in Hin. rewrite E, conclude_run in Hin.
      cbv zeta in Hin. cbn [fst calls] in Hin.
      destruct Hin as [Heq|Hin]; [apply Hhead; exact Heq|].
      apply (documentStep_calls env key dg reply w3) in Hin. discriminate.
Qed.

(** X13.  A request is answered with status 200, 400 or 500, and with
    200 exactly when the agent was called and returned a reply: no
    failure of a document generator changes the status. *)
Theorem the_status_is_200_iff_the_agent_replied (env : Env) (req : Request)
    (w : World) :
  (status (response (eval (POST env req) w)) = 200 \/
   status (response (eval (POST env req) w)) = 400 \/
   status (response (eval (POST env req) w)) = 500) /\
  (status (response (eval (POST env req) w)) = 200 <->
   exists message sid history reply,
     In (CallChat message sid history) (calls (eval (POST env req) w)) /\
     chat env message sid history = Returns reply).
Proof.
  pose proof (POST_run env req w) as Hrun. cbv zeta in Hrun.
  destruct Hrun
    as [(r & E & Hs & _)|[(r & E & Hs & _)|
        (b & first & rest & dg & _ & _ & _ & _ & Hrun)]].
  - unfold eval. rewrite E. cbn [fst response calls]. rewrite Hs.
    split; [auto|]. split; [discriminate|].
    intros (m & s & h & reply & [] & _).
  - unfold eval. rewrite E. cbn [fst response calls].
    split; [destruct Hs as [-> | ->]; auto|].
    split; [destruct Hs as [Hs|Hs]; rewrite Hs; discriminate|].
    intros (m & s & h & reply & [] & _).
  - remember (exec (initializeAgents env) w) as w1.
    remember (eval (effectiveSessionId (body_sessionId b)) w1) as key.
    remember (exec (effectiveSessionId (body_sessionId b)) w1) as w2.
    remember (eval (receive key first rest) w2) as received.
    remember (exec (receive key first rest) w2) as w3.
    clear Heqw1 Heqkey Heqw2 Heqreceived Heqw3.
    destruct Hrun as [(e & Hchat & E)|(reply & Hchat & E)].
    + unfold eval. rewrite E. cbn [fst response calls server_error status].
      split; [auto|]. split; [discriminate|].
      intros (m & s & h & reply & [Heq|[]] & Hr).
      injection Heq as <- <- <-. rewrite Hchat in Hr. discriminate.
    + change (POST env req w
              = conclude env key dg reply (fst received) (snd received) w3)
        in E.
      assert (Hs : status (response (eval (POST env req) w)) = 200).
      { unfold eval. rewrite E, conclude_run. cbv zeta. cbn [fst response].
        destruct (respond_eval key
                    (fst (fst (fst (documentStep env key dg reply w3))))
                    (snd (fst (fst (documentStep env key dg reply w3))))
                    (snd (documentStep env key dg reply w3))) as (t & Hr).
        unfold eval in Hr. rewrite Hr. reflexivity. }
      split; [auto|]. split; [|intros _; exact Hs].
      intros _. exists (fst received), key, (snd received), reply.
      split; [|exact Hchat].
      unfold eval. rewrite E, conclude_run. cbv zeta. cbn [fst calls].
      left. reflexivity.
Qed.

(** X14.  [messageCount] counts every message ever logged under a key,
    also those that the trim has dropped: after a sequence of
    [addMessage] calls the count has grown by the number of calls to
    the key, while the log holds the smaller of that total and the
    cap. *)
Theorem messageCount_counts_the_trimmed_too
    (ms : list (string * Role * string)) (w : World) (sid : string) :
  1 <= maxMessagesPerSession w ->
  (length (getConversationHistory sid w)
     <= Z.to_nat (maxMessagesPerSession w))%nat ->
  messageCountOf sid (exec (addMessages ms) w)
    = messageCountOf sid w + Z.of_nat (length (sentTo sid ms)) /\
  length (getConversationHistory sid (exec (addMessages ms) w))
    = Nat.min (length (getConversationHistory sid w)
                 + length (sentTo sid ms))
              (Z.to_nat (maxMessagesPerSession w)).
Proof.
  intros Hcap Hlen. split; [apply addMessages_count|].
  destruct (addMessages_history ms w sid Hcap Hlen) as (es & Hes & Hh).
  rewrite Hh, keepLast_length_min, length_app.
  rewrite <- Hes, length_map. reflexivity.
Qed.


(** X16.  With a clock that never goes back, the logs stay in the
    order of time.  Over every history of the manager's methods and of
    requests that imports only sessions in order before the clock
    started, every stored session has its log sorted by time stamp,
    every stamp between the session's creation and its last update,
    and the last update not after the next reading of the clock. *)
Theorem logs_stay_in_the_order_of_time (history : list Action) (w : World)
    (sid : string) (c : ChatContext) :
  monotone (clock w) ->
  Forall (importsInOrder (clock w)) history ->
  inTime w ->
  sessions (exec (actAll history) w) !! sid = Some c ->
  StronglySorted (fun e e' => timestamp e <= timestamp e')
    (conversationHistory c) /\
  Forall (fun e => createdAt (metadata c) <= timestamp e
                   /\ timestamp e <= updatedAt (metadata c))
    (conversationHistory c) /\
  createdAt (metadata c) <= updatedAt (metadata c) /\
  updatedAt (metadata c)
    <= clock w (ticks (exec (actAll history) w)).
Proof.
  intros Hm Hi H Hc.
  pose proof (actAll_orderly history w Hm Hi H sid c Hc) as Hch.
  rewrite (actAll_clock history w) in Hch. exact Hch.
Qed.

(** X17.  A request answered with status 200 leaves exactly two new
    entries in the log of its key, trimmed after each: the user's text
    and then the assistant's reply with the content that the response
    carries, the transition note included; the other logs are as they
    were. *)
Theorem a_reply_is_logged_as_it_is_sent (env : Env) (req : Request)
    (b : Body) (w : World) :
  json req = Returns b ->
  status (response (eval (POST env req) w)) = 200 ->
  exists (first : UIMessage) (rest : list UIMessage) (data : ResponseData)
         (tu ta : Z),
    messages b = Some (first :: rest) /\
    response (eval (POST env req) w)
      = {| status := 200; body := DataBody data |} /\
    rd_role data = Assistant /\
    rd_parts data = [{| part_type := "text"; part_text := rd_content data |}] /\
    getConversationHistory (sessionKey b w) (exec (POST env req) w)
      = trim (maxMessagesPerSession w)
          (trim (maxMessagesPerSession w)
             (getConversationHistory (sessionKey b w) w
                ++ [entryOf User (textOf (lastMessage first rest)) tu])
           ++ [entryOf Assistant (rd_content data) ta]) /\
    forall sid', sid' <> sessionKey b w ->
      getConversationHistory sid' (exec (POST env req) w)
      = getConversationHistory sid' w.
Proof.
  intros Hjson Hst.
  pose proof (POST_run env req w) as Hrun. cbv zeta in Hrun.
  destruct Hrun
    as [(r & E & Hs & _)|[(r & E & Hs & _)|
        (b' & first & rest & dg & _ & _ & Hj & Hm & Hrun)]].
  - unfold eval in Hst. rewrite E in Hst. cbn [fst response] in Hst.
    rewrite Hs in Hst. discriminate.
  - unfold eval in Hst. rewrite E in Hst. cbn [fst response] in Hst.
    destruct Hs as [Hs|Hs]; rewrite Hs in Hst; discriminate.
  - rewrite Hjson in Hj. injection Hj as <-.
    rewrite sessionKey_initializeAgents in Hrun.
    remember (sessionKey b w) as sid eqn:Hsid.
    remember (exec (initializeAgents env) w) as w1 eqn:Hw1.
    assert (Hcap1 : maxMessagesPerSession w1 = maxMessagesPerSession w)
      by (subst w1; apply initializeAgents_cap).
    assert (Hold : forall s, getConversationHistory s w1
                             = getConversationHistory s w).
    { intros s. subst w1. apply getConversationHistory_ext.
      apply initializeAgents_sessions. }
    pose proof (effectiveSessionId_rest (body_sessionId b) w1) as (Hcap2 & _).
    assert (Hold2 : forall s,
      getConversationHistory s
        (exec (effectiveSessionId (body_sessionId b)) w1)
      = getConversationHistory s w1).
    { intros s. apply getConversationHistory_ext.
      apply effectiveSessionId_sessions. }
    remember (exec (effectiveSessionId (body_sessionId b)) w1) as w2 eqn:Hw2.
    destruct (receive_history sid first rest w2) as (tu & _ & Hh).
    pose proof (receive_rest sid first rest w2) as (Hcap3 & _).
    remember (eval (receive sid first rest) w2) as received.
    remember (exec (receive sid first rest) w2) as w3.
    clear Hsid Hw1 Hw2 Heqreceived Heqw3.
    destruct Hrun as [(e & _ & E)|(reply & _ & E)].
    { unfold eval in Hst. rewrite E in Hst. discriminate. }
    change (POST env req w
            = conclude env sid dg reply (fst received) (snd received) w3)
      in E.
    destruct (conclude_history env sid dg reply (fst received) (snd received)
                w3) as (ta & data & Hr & Hrole & Hparts & Hlog).
    exists first, rest, data, tu, ta.
    unfold eval, exec in *. rewrite E.
    split; [exact Hm|]. split; [exact Hr|]. split; [exact Hrole|].
    split; [exact Hparts|]. split.
    + rewrite Hlog, decide_True by reflexivity.
      rewrite Hh, decide_True by reflexivity.
      rewrite Hcap3, Hcap2, Hcap1, Hold2, Hold. reflexivity.
    + intros sid' Hne. rewrite Hlog, decide_False by congruence.
      rewrite Hh, decide_False by congruence.
      rewrite Hold2, Hold. reflexivity.
Qed.

(** X18.  A request calls the agent once at most and a document
    generator once at most, the generator after the agent: the calls of
    a request are none, the chat call, or the chat call followed by one
    generation call.  So one request never generates two documents,
    whatever payloads are stored. *)
Theorem a_request_generates_one_document_at_most (env : Env) (req : Request)
    (w : World) :
  calls (eval (POST env req) w) = [] \/
  exists message sid history,
    calls (eval (POST env req) w) = [CallChat message sid history] \/
    exists g, isGeneration g = true /\
              calls (eval (POST env req) w)
                = [CallChat message sid history; g].
Proof.
  pose proof (POST_run env req w) as Hrun. cbv zeta in Hrun.
  destruct Hrun
    as [(r & E & _)|[(r & E & _)|
        (b & first & rest & dg & _ & _ & _ & _ & Hrun)]].
  - left. unfold eval. rewrite E. reflexivity.
  - left. unfold eval. rewrite E. reflexivity.
  - right.
    remember (exec (initializeAgents env) w) as w1.
    remember (eval (effectiveSessionId (body_sessionId b)) w1) as sid.
    remember (exec (effectiveSessionId (body_sessionId b)) w1) as w2.
    remember (eval (receive sid first rest) w2) as received.
    remember (exec (receive sid first rest) w2) as w3.
    clear Heqw1 Heqsid Heqw2 Heqreceived Heqw3.
    exists (fst received), sid, (snd received).
    destruct Hrun as [(e & _ & E)|(reply & _ & E)].
    + left. unfold eval. rewrite E. reflexivity.
    + change (POST env req w
              = conclude env sid dg reply (fst received) (snd received) w3)
        in E.
      unfold eval. rewrite E, conclude_run. cbv zeta. cbn [fst calls].
      destruct (documentStep_one env sid dg reply w3) as [H0|(g & Hg & H1)];
        unfold eval in *.
      * left. rewrite H0. reflexivity.
      * right. exists g. split; [exact Hg|]. rewrite H1. reflexivity.
Qed.

(** X19.  For every cap of at least one (the default is 50) and every
    sequence of [addMessage] calls, on a store whose log of the
    session is within the cap, the log stays within the cap and holds
    the most recent [cap] entries, in their order, of the old log
    followed by the entries added for the session: what is dropped is
    dropped from the front. *)
Theorem conversation_log_is_bounded (ms : list (string * Role * string))
    (w : World) (sid : string) :
  1 <= maxMessagesPerSession w ->
  (length (getConversationHistory sid w)
     <= Z.to_nat (maxMessagesPerSession w))%nat ->
  let w' := exec (addMessages ms) w in
  Z.of_nat (length (getConversationHistory sid w'))
    <= maxMessagesPerSession w /\
  exists es : list Entry,
    map spoken es = sentTo sid ms /\
    getConversationHistory sid w'
    = keepLast (Z.to_nat (maxMessagesPerSession w))
        (getConversationHistory sid w ++ es).
Proof.
  intros Hcap Hlen w'.
  destruct (addMessages_history ms w sid Hcap Hlen) as (es & Hes & Hh).
  split; [|exists es; split; [exact Hes|exact Hh]].
  unfold w'. rewrite Hh.
  pose proof (keepLast_length (Z.to_nat (maxMessagesPerSession w))
                (getConversationHistory sid w ++ es)).
  lia.
Qed.

(** X20.  The sessions by reference.  In a store built by the
    manager's own methods from a new manager, no two keys share a
    session object, an array or a metadata object, the sessions read
    through the references are the sessions of the store of values
    after the same methods, and a method called on one key leaves the
    session read under every other key as it was.  [importSession]
    stores the caller's object and breaks this: after the import of
    two sessions built around one array, a message added under "a" is
    in the log read under "b". *)
Theorem sessions_are_apart_without_imports (cs : list Method)
    (cap : Z) (clk : nat -> Z) (c : Method) (k : string) :
  let m :=
    ByReference.callAll cs (ByReference.new_TracerMemoryManager cap clk) in
  ByReference.separate m /\
  ByReference.abstract m
  = fold_left (fun w c => exec (spec c) w) cs
      (new_TracerMemoryManager cap clk) /\
  (k <> methodKey c ->
   ByReference.view (ByReference.call c m) !! k = ByReference.view m !! k) /\
  ByReference.getConversationHistory "b" ByReference.shared = [] /\
  ByReference.getConversationHistory "b"
    (ByReference.addMessage "a" User "hi" ByReference.shared)
  = [{| role := User; content := "hi"; timestamp := 1000 |}].
Proof.
  cbv zeta.
  destruct (ref_callAll cs _ (separate_empty cap clk)) as (Hs & Hab).
  rewrite abstract_empty in Hab.
  split; [exact Hs|]. split; [exact Hab|]. split.
  - intros Hk.
    destruct (ref_call c _ Hs) as (_ & Hcall).
    apply (f_equal sessions) in Hcall.
    change (ByReference.view (ByReference.call c
              (ByReference.callAll cs
                 (ByReference.new_TracerMemoryManager cap clk))))
      with (sessions (ByReference.abstract
              (ByReference.call c
                 (ByReference.callAll cs
                    (ByReference.new_TracerMemoryManager cap clk))))).
    rewrite Hcall.
    apply (proj1 (spec_acts c
                    (ByReference.abstract
                       (ByReference.callAll cs
                          (ByReference.new_TracerMemoryManager cap clk))))
             k Hk).
  - split; vm_compute; reflexivity.
Qed.

(** ** Instances of the further results *)

Lemma empty_store_consistent : allConsistent (sessions w0).
Proof.
  intros sid c H. change (sessions w0) with (∅ : gmap string ChatContext) in H.
  rewrite lookup_empty in H. discriminate.
Qed.

Lemma empty_store_blank : allBlank w0.
Proof.
  intros sid p H. unfold getProjectSession in H.
  change (sessions w0) with (∅ : gmap string ChatContext) in H.
  rewrite lookup_empty in H. discriminate.
Qed.

Lemma empty_store_inTime : inTime w0.
Proof.
  intros sid c H. change (sessions w0) with (∅ : gmap string ChatContext) in H.
  rewrite lookup_empty in H. discriminate.
Qed.

Lemma clk0_monotone : monotone clk0.
Proof. intros n m H. unfold clk0. lia. Qed.

Lemma stored_sessions_carry_their_key_witness :
  Forall importsConsistent [DoPOST env0 req_first] /\
  allConsistent (sessions w0) /\
  sessions (exec (actAll [DoPOST env0 req_first]) w0) !! "s"
    = Some c_started /\
  sessionId c_started = "s" /\
  forall p, projectSession c_started = Some p -> ps_sessionId p = "s".
Proof.
  assert (Hi : Forall importsConsistent [DoPOST env0 req_first])
    by (repeat constructor).
  assert (Hc : sessions (exec (actAll [DoPOST env0 req_first]) w0) !! "s"
               = Some c_started) by compute_eq.
  split; [exact Hi|]. split; [exact empty_store_consistent|].
  split; [exact Hc|].
  apply (stored_sessions_carry_their_key [DoPOST env0 req_first] w0 "s"
           c_started Hi empty_store_consistent Hc).
Defined.

Lemma the_project_log_is_never_written_witness :
  getProjectSession "s"
    (exec (actAll [DoImportSession c_logged; DoPOST env0 req_next]) w0)
    = Some p_logged /\
  ((ps_conversationHistory p_logged = [] /\
    requirementsConversation p_logged = "") \/
   (exists p0,
      getProjectSession "s" w0 = Some p0 /\
      ps_conversationHistory p_logged = ps_conversationHistory p0 /\
      requirementsConversation p_logged = requirementsConversation p0) \/
   (exists c p0,
      In (DoImportSession c) [DoImportSession c_logged; DoPOST env0 req_next]
      /\ sessionId c = "s" /\
      projectSession c = Some p0 /\
      ps_conversationHistory p_logged = ps_conversationHistory p0 /\
      requirementsConversation p_logged = requirementsConversation p0)).
Proof.
  assert (Hp : getProjectSession "s"
                 (exec (actAll [DoImportSession c_logged;
                                DoPOST env0 req_next]) w0)
               = Some p_logged) by compute_eq.
  split; [exact Hp|].
  apply (the_project_log_is_never_written
           [DoImportSession c_logged; DoPOST env0 req_next] w0 "s" p_logged
           Hp).
Defined.

Lemma actions_touch_only_their_key_witness :
  Forall importsNothing [DoPOST env0 req_first; DoAddMessage "t" User "hello"]
  /\ importsNothing (DoPOST env0 req_next) /\
  keyOf (DoPOST env0 req_next) = Some "s" /\
  "t" <> "s" /\
  let w := exec (actAll [DoPOST env0 req_first;
                         DoAddMessage "t" User "hello"])
             (new_TracerMemoryManager defaultMaxMessages clk0) in
  sessions (exec (act (DoPOST env0 req_next)) w) !! "t" = sessions w !! "t".
Proof.
  assert (Hh : Forall importsNothing
                 [DoPOST env0 req_first; DoAddMessage "t" User "hello"])
    by (repeat constructor).
  assert (Hk : keyOf (DoPOST env0 req_next) = Some "s") by reflexivity.
  assert (Hne : "t" <> "s") by discriminate.
  split; [exact Hh|]. split; [exact I|]. split; [exact Hk|].
  split; [exact Hne|].
  apply (actions_touch_only_their_key
           [DoPOST env0 req_first; DoAddMessage "t" User "hello"]
           (DoPOST env0 req_next) defaultMaxMessages clk0 "s" "t"
           Hh I Hk Hne).
Defined.

Lemma a_document_was_due_witness :
  documentOf (response (eval (POST env0 req_next) w_requirements))
    = Some {| doc_type := Requirements; doc_content := "# Requirements" |} /\
  status (response (eval (POST env0 req_next) w_requirements)) = 200 /\
  Requirements <> Complete /\
  exists sid p p',
    due sid Requirements p w_requirements /\
    generation env0 Requirements p = Returns "# Requirements" /\
    snapshotOf (response (eval (POST env0 req_next) w_requirements))
      = Some p' /\
    getProjectSession sid (exec (POST env0 req_next) w_requirements)
      = Some p' /\
    currentPhase p' = successor Requirements /\
    carried p p'.
Proof.
  assert (Hd : documentOf (response (eval (POST env0 req_next) w_requirements))
               = Some {| doc_type := Requirements;
                         doc_content := "# Requirements" |}) by compute_eq.
  split; [exact Hd|].
  apply (a_document_was_due env0 req_next w_requirements
           {| doc_type := Requirements; doc_content := "# Requirements" |} Hd).
Defined.

Lemma without_a_document_nothing_moves_witness :
  documentOf (response (eval (POST env_failing req_next) w_requirements))
    = None /\
  snapshotOf (response (eval (POST env_failing req_next) w_requirements))
    = None /\
  forall sid p,
    getProjectSession sid w_requirements = Some p ->
    getProjectSession sid (exec (POST env_failing req_next) w_requirements)
    = Some p.
Proof.
  assert (Hd : documentOf
                 (response (eval (POST env_failing req_next) w_requirements))
               = None) by compute_eq.
  split; [exact Hd|].
  apply (without_a_document_nothing_moves env_failing req_next w_requirements
           Hd).
Defined.

Lemma requests_alone_generate_nothing_witness :
  allBlank w0 /\
  allBlank (exec (serve [(env0, req_first); (env0, req_next)]) w0) /\
  Forall (fun h =>
            documentOf (response h) = None /\
            forallb (fun c => negb (isGeneration c)) (calls h) = true)
    (eval (serve [(env0, req_first); (env0, req_next)]) w0).
Proof.
  split; [exact empty_store_blank|].
  apply (requests_alone_generate_nothing
           [(env0, req_first); (env0, req_next)] w0 empty_store_blank).
Defined.

Lemma a_failed_generator_is_never_rebuilt_witness :
  truthy (OPENROUTER_API_KEY env_nogenerator)
    || truthy (OPENAI_API_KEY env_nogenerator) = true /\
  agent w0 = false /\ documentGenerator w0 = false /\
  new_TracerAgent env_nogenerator = Returns tt /\
  new_DocumentGeneratorChain env_nogenerator = Throws "no model" /\
  let w1 := exec (POST env_nogenerator req_first) w0 in
  status (response (eval (POST env_nogenerator req_first) w0)) = 500 /\
  sessions w1 = sessions w0 /\
  agent w1 = true /\ documentGenerator w1 = false /\
  documentGenerator (exec (serve [(env0, req_first); (env0, req_next)]) w1)
    = false /\
  Forall (fun h =>
            documentOf (response h) = None /\
            forallb (fun c => negb (isGeneration c)) (calls h) = true)
    (eval (serve [(env0, req_first); (env0, req_next)]) w1).
Proof.
  split; [reflexivity|]. split; [reflexivity|]. split; [reflexivity|].
  split; [reflexivity|]. split; [reflexivity|].
  apply (a_failed_generator_is_never_rebuilt env_nogenerator req_first
           "no model" tt [(env0, req_first); (env0, req_next)] w0
           eq_refl eq_refl eq_refl eq_refl eq_refl).
Defined.

Lemma the_user_turn_stays_when_the_agent_fails_witness :
  In (CallChat "I want to build a task app" "session-1000"
        [entryOf User "I want to build a task app" 1003])
    (calls (eval (POST env_silent req_page) w0)) /\
  chat env_silent "I want to build a task app" "session-1000"
    [entryOf User "I want to build a task app" 1003] = Throws "agent down" /\
  response (eval (POST env_silent req_page) w0) = server_error "agent down" /\
  calls (eval (POST env_silent req_page) w0)
    = [CallChat "I want to build a task app" "session-1000"
         [entryOf User "I want to build a task app" 1003]] /\
  (exists (b : Body) (first : UIMessage) (rest : list UIMessage) (t : Z),
     json req_page = Returns b /\
     messages b = Some (first :: rest) /\
     "session-1000" = sessionKey b w0 /\
     "I want to build a task app" = textOf (lastMessage first rest) /\
     [entryOf User "I want to build a task app" 1003]
     = trim (maxMessagesPerSession w0)
         (getConversationHistory "session-1000" w0
            ++ [entryOf User "I want to build a task app" t])) /\
  getConversationHistory "session-1000" (exec (POST env_silent req_page) w0)
    = [entryOf User "I want to build a task app" 1003] /\
  forall sid', sid' <> "session-1000" ->
    getConversationHistory sid' (exec (POST env_silent req_page) w0)
    = getConversationHistory sid' w0.
Proof.
  assert (Hin : In (CallChat "I want to build a task app" "session-1000"
                      [entryOf User "I want to build a task app" 1003])
                  (calls (eval (POST env_silent req_page) w0)))
    by (left; compute_eq).
  split; [exact Hin|]. split; [reflexivity|].
  apply (the_user_turn_stays_when_the_agent_fails env_silent req_page w0
           "I want to build a task app" "session-1000"
           [entryOf User "I want to build a task app" 1003] "agent down"
           Hin eq_refl).
Defined.

Lemma the_first_message_starts_a_project_witness :
  json req_page = Returns (submittedBody [] "I want to build a task app" 5) /\
  messages (submittedBody [] "I want to build a task app" 5)
    = Some [userSays "user-5" "I want to build a task app"] /\
  getProjectSession
    (sessionKey (submittedBody [] "I want to build a task app" 5) w0) w0
    = None /\
  status (response (eval (POST env0 req_page) w0)) = 200 /\
  exists (reply : string) (tu ta tm t1 t2 t3 : Z),
    let sid :=
      sessionKey (submittedBody [] "I want to build a task app" 5) w0 in
    let asked :=
      trim (maxMessagesPerSession w0)
        (getConversationHistory sid w0
           ++ [entryOf User
                 (textOf (userSays "user-5" "I want to build a task app"))
                 tu]) in
    chat env0 (textOf (userSays "user-5" "I want to build a task app")) sid
      asked = Returns reply /\
    response (eval (POST env0 req_page) w0) =
      {| status := 200;
         body := DataBody
           {| rd_id := "msg-" +:+ pretty tm;
              rd_role := Assistant;
              rd_content := reply;
              rd_parts := [{| part_type := "text"; part_text := reply |}];
              document := None;
              rd_projectSession := None |} |} /\
    calls (eval (POST env0 req_page) w0)
      = [CallChat (textOf (userSays "user-5" "I want to build a task app"))
           sid asked] /\
    getProjectSession sid (exec (POST env0 req_page) w0)
      = Some {| ps_sessionId := sid; projectName := "New Project";
                currentPhase := Requirements;
                requirements := None; design := None; tasks := None;
                ps_conversationHistory := []; questionsAsked := [];
                userAnswers := ∅;
                ps_metadata := {| ps_createdAt := t1; ps_updatedAt := t2;
                                  lastPhaseChange := t3 |} |} /\
    getConversationHistory sid (exec (POST env0 req_page) w0)
      = trim (maxMessagesPerSession w0)
          (asked ++ [entryOf Assistant reply ta]).
Proof.
  assert (Hs : status (response (eval (POST env0 req_page) w0)) = 200)
    by compute_eq.
  split; [reflexivity|]. split; [reflexivity|]. split; [reflexivity|].
  split; [exact Hs|].
  apply (the_first_message_starts_a_project env0 req_page
           (submittedBody [] "I want to build a task app" 5)
           (userSays "user-5" "I want to build a task app") w0
           eq_refl eq_refl eq_refl Hs).
Defined.

Lemma later_messages_start_no_project_witness :
  json req_next = Returns body_next /\
  messages body_next
    = Some [userSays "1" "I want to build a task app"; userSays "2" "more"] /\
  getProjectSession (sessionKey body_next w0) w0 = None /\
  getProjectSession (sessionKey body_next w0) (exec (POST env0 req_next) w0)
    = None /\
  documentOf (response (eval (POST env0 req_next) w0)) = None /\
  forall c, In c (calls (eval (POST env0 req_next) w0)) ->
            isGeneration c = false.
Proof.
  split; [reflexivity|]. split; [reflexivity|]. split; [reflexivity|].
  apply (later_messages_start_no_project env0 req_next body_next
           (userSays "1" "I want to build a task app") (userSays "2" "more")
           [] w0 eq_refl eq_refl eq_refl).
Defined.

Lemma the_history_given_to_chat_ends_with_the_message_witness :
  1 <= maxMessagesPerSession w0 /\
  In (CallChat "I want to build a task app" "s"
        [entryOf User "I want to build a task app" 1002])
    (calls (eval (POST env0 req_first) w0)) /\
  exists t : Z,
    last [entryOf User "I want to build a task app" 1002]
    = Some (entryOf User "I want to build a task app" t).
Proof.
  assert (Hcap : 1 <= maxMessagesPerSession w0) by (vm_compute; discriminate).
  assert (Hin : In (CallChat "I want to build a task app" "s"
                      [entryOf User "I want to build a task app" 1002])
                  (calls (eval (POST env0 req_first) w0)))
    by (left; compute_eq).
  split; [exact Hcap|]. split; [exact Hin|].
  apply (the_history_given_to_chat_ends_with_the_message env0 req_first w0
           "I want to build a task app" "s"
           [entryOf User "I want to build a task app" 1002] Hcap Hin).
Defined.

Lemma messageCount_counts_the_trimmed_too_witness :
  1 <= maxMessagesPerSession w_cap2 /\
  (length (getConversationHistory "s" w_cap2)
     <= Z.to_nat (maxMessagesPerSession w_cap2))%nat /\
  messageCountOf "s" (exec (addMessages three_messages) w_cap2)
    = messageCountOf "s" w_cap2
      + Z.of_nat (length (sentTo "s" three_messages)) /\
  length (getConversationHistory "s" (exec (addMessages three_messages) w_cap2))
    = Nat.min (length (getConversationHistory "s" w_cap2)
                 + length (sentTo "s" three_messages))
              (Z.to_nat (maxMessagesPerSession w_cap2)).
Proof.
  assert (Hcap : 1 <= maxMessagesPerSession w_cap2)
    by (vm_compute; discriminate).
  assert (Hlen : (length (getConversationHistory "s" w_cap2)
                    <= Z.to_nat (maxMessagesPerSession w_cap2))%nat)
    by (vm_compute; lia).
  split; [exact Hcap|]. split; [exact Hlen|].
  apply (messageCount_counts_the_trimmed_too three_messages w_cap2 "s"
           Hcap Hlen).
Defined.


Lemma logs_stay_in_the_order_of_time_witness :
  monotone (clock w0) /\
  Forall (importsInOrder (clock w0)) [DoPOST env0 req_first] /\
  inTime w0 /\
  sessions (exec (actAll [DoPOST env0 req_first]) w0) !! "s"
    = Some c_started /\
  StronglySorted (fun e e' => timestamp e <= timestamp e')
    (conversationHistory c_started) /\
  Forall (fun e => createdAt (metadata c_started) <= timestamp e
                   /\ timestamp e <= updatedAt (metadata c_started))
    (conversationHistory c_started) /\
  createdAt (metadata c_started) <= updatedAt (metadata c_started) /\
  updatedAt (metadata c_started)
    <= clock w0 (ticks (exec (actAll [DoPOST env0 req_first]) w0)).
Proof.
  assert (Hi : Forall (importsInOrder (clock w0)) [DoPOST env0 req_first])
    by (repeat constructor).
  assert (Hc : sessions (exec (actAll [DoPOST env0 req_first]) w0) !! "s"
               = Some c_started) by compute_eq.
  split; [exact clk0_monotone|]. split; [exact Hi|].
  split; [exact empty_store_inTime|]. split; [exact Hc|].
  apply (logs_stay_in_the_order_of_time [DoPOST env0 req_first] w0 "s"
           c_started clk0_monotone Hi empty_store_inTime Hc).
Defined.

Lemma a_reply_is_logged_as_it_is_sent_witness :
  json req_next = Returns body_next /\
  status (response (eval (POST env0 req_next) w_requirements)) = 200 /\
  exists (first : UIMessage) (rest : list UIMessage) (data : ResponseData)
         (tu ta : Z),
    messages body_next = Some (first :: rest) /\
    response (eval (POST env0 req_next) w_requirements)
      = {| status := 200; body := DataBody data |} /\
    rd_role data = Assistant /\
    rd_parts data = [{| part_type := "text"; part_text := rd_content data |}] /\
    getConversationHistory (sessionKey body_next w_requirements)
      (exec (POST env0 req_next) w_requirements)
      = trim (maxMessagesPerSession w_requirements)
          (trim (maxMessagesPerSession w_requirements)
             (getConversationHistory (sessionKey body_next w_requirements)
                w_requirements
                ++ [entryOf User (textOf (lastMessage first rest)) tu])
           ++ [entryOf Assistant (rd_content data) ta]) /\
    forall sid', sid' <> sessionKey body_next w_requirements ->
      getConversationHistory sid' (exec (POST env0 req_next) w_requirements)
      = getConversationHistory sid' w_requirements.
Proof.
  assert (Hs : status (response (eval (POST env0 req_next) w_requirements))
               = 200) by compute_eq.
  split; [reflexivity|]. split; [exact Hs|].
  apply (a_reply_is_logged_as_it_is_sent env0 req_next body_next
           w_requirements eq_refl Hs).
Defined.

Lemma conversation_log_is_bounded_witness :
  1 <= maxMessagesPerSession w_cap2 /\
  (length (getConversationHistory "s" w_cap2)
     <= Z.to_nat (maxMessagesPerSession w_cap2))%nat /\
  Z.of_nat (length (getConversationHistory "s"
     (exec (addMessages [("s", User, "a"); ("t", User, "b");
                         ("s", Assistant, "c"); ("s", User, "d")]) w_cap2)))
    <= maxMessagesPerSession w_cap2.
Proof.
  assert (H1 : 1 <= maxMessagesPerSession w_cap2) by (vm_compute; discriminate).
  assert (H2 : (length (getConversationHistory "s" w_cap2)
                <= Z.to_nat (maxMessagesPerSession w_cap2))%nat)
    by (vm_compute; lia).
  split; [exact H1|]. split; [exact H2|].
  apply (conversation_log_is_bounded
           [("s", User, "a"); ("t", User, "b");
            ("s", Assistant, "c"); ("s", User, "d")] w_cap2 "s" H1 H2).
Defined.
